(** * Shoe store: session cart, checkout and order lifecycle

    A shallow embedding of the storefront's business logic:
    - [src/models/index.js]: the Product and Order schemas with their
      [pre('save')] hooks and validators;
    - [src/routes/cart.js]: the session cart handlers;
    - the order routes (checkout and cancellation);
    - the admin inventory route;
    - the cart count, the order view and the order confirmation page,
      the admin status and product deletion routes, the review route
      and the page data of the product list.

    JavaScript numbers are IEEE-754 doubles.  Money amounts and shoe sizes
    are kept as primitive binary64 floats, so that [===], [>=], [+] and [*]
    are the machine operations the handlers run.  Stock levels and
    stored quantities are integer-valued JavaScript numbers; they are kept
    as [Z] (exact below 2^53, the range in which a double holds every
    integer).  The quantity of a cart request is the number of the request
    body, which need not be an integer: it is kept with its exact value,
    compared as the handler compares it and cut to an integer where the
    handler calls [parseInt].
    The document store is a finite map from product ids to products and a
    list of orders whose position is the order's [_id]; every handler is a
    function from the stores and the session to the new stores, the new
    session and the JSON reply. *)

From stdpp Require Import base option list gmap strings.
From Stdlib Require Import ZArith Ascii PrimFloat Uint63 DecimalString
  DecimalNat.
From Stdlib Require SpecFloat FloatOps FloatAxioms QArith Qabs.

Set Warnings "-inexact-float,-abstract-large-number".
Local Open Scope Z_scope.

(** ** JavaScript helpers *)

Module JS.

(** The double that holds the integer [z]: [z] itself up to 2^53, the
    nearest double (ties to even) beyond. *)
Definition Z2float (z : Z) : float :=
  FloatOps.SF2Prim
    (SpecFloat.binary_normalize FloatOps.prec FloatOps.emax z 0 false).

(** [a >= b] on numbers. *)
Definition geb (a b : float) : bool := PrimFloat.leb b a.

(** A number of a JSON request body, by its exact value: every double
    is a rational, and the comparisons with an integer and the cut at the
    decimal point are those of that value.  [String(x)] writes [x]
    without an exponent when [x] is zero or its magnitude is from 10^-6
    to below 10^21; this is the range kept here.  (Outside it [String(x)]
    has an exponent, of which [parseInt] reads the leading digit only.) *)
Definition plain (x : QArith_base.Q) : bool :=
  QArith_base.Qeq_bool x (QArith_base.inject_Z 0)
  || (QArith_base.Qle_bool (QArith_base.Qmake 1 1000000)
                           (Qabs.Qabs x)
      && negb (QArith_base.Qle_bool
                 (QArith_base.inject_Z 1000000000000000000000)
                 (Qabs.Qabs x))).

Record Number := mkNumber {
  value : QArith_base.Q;
  in_range : plain value = true
}.

(** The number that is the integer [z]. *)
Definition whole (z : Z) (H : plain (QArith_base.inject_Z z) = true)
  : Number :=
  mkNumber (QArith_base.inject_Z z) H.

(** [a < x], [x <= b] and [x > b] between an integer-valued number and a
    number of the request. *)
Definition lt_num (a : Z) (x : Number) : bool :=
  negb (QArith_base.Qle_bool (value x) (QArith_base.inject_Z a)).
Definition num_le (x : Number) (b : Z) : bool :=
  QArith_base.Qle_bool (value x) (QArith_base.inject_Z b).
Definition num_gt (x : Number) (b : Z) : bool := lt_num b x.

(** [parseInt(x)] on a number: the integer part of the decimal form of
    [x], that is, [x] cut off at the decimal point. *)
Definition parseInt (x : Number) : Z :=
  Z.quot (QArith_base.Qnum (value x)) (Zpos (QArith_base.Qden (value x))).

(** Whether a string can be cast to an ObjectId as [findById] does it:
    24 hexadecimal digits.  The keys of the product store are the
    [_id.toString()] of the products, so an id that names a stored
    product passes the cast; the cast is looked at where a lookup finds
    nothing, where it decides between [null] and an exception. *)
Definition is_hex (c : ascii) : bool :=
  let n := nat_of_ascii c in
  ((48 <=? n) && (n <=? 57) || (65 <=? n) && (n <=? 70)
   || (97 <=? n) && (n <=? 102))%nat.

Fixpoint all_hex (s : string) : bool :=
  match s with
  | EmptyString => true
  | String c s' => is_hex c && all_hex s'
  end.

Definition isObjectId (s : string) : bool :=
  (String.length s =? 24)%nat && all_hex s.

(** [Array.prototype.findIndex]; [None] stands for [-1]. *)
Fixpoint findIndex {A} (p : A → bool) (l : list A) : option nat :=
  match l with
  | [] => None
  | x :: l' => if p x then Some O else S <$> findIndex p l'
  end.

(** [Array.prototype.find]; [None] stands for [undefined]. *)
Fixpoint find {A} (p : A → bool) (l : list A) : option A :=
  match l with
  | [] => None
  | x :: l' => if p x then Some x else find p l'
  end.

(** [x || d] on a possibly missing string: [undefined] and the empty
    string are falsy. *)
Definition or_default (x : option string) (d : string) : string :=
  match x with
  | Some s => if String.eqb s EmptyString then d else s
  | None => d
  end.

(** [c.repeat(k)] for a character [c]. *)
Fixpoint repeat (c : ascii) (k : nat) : string :=
  match k with
  | O => EmptyString
  | S k' => String c (repeat c k')
  end.

(** [s.padStart(n, c)] with a one-character filler. *)
Definition padStart (n : nat) (c : ascii) (s : string) : string :=
  repeat c (n - String.length s) +:+ s.

(** [String(n)] for a natural number. *)
Definition String_of_nat (n : nat) : string :=
  NilZero.string_of_uint (Nat.to_uint n).

End JS.

(** ** Data model ([src/models/index.js] and the session cart) *)

(** One stock bucket of a product: [sizes: [{ size, stock }]]. *)
Module SizeStock.
Record t := mk { size : float; stock : Z }.
Definition add_stock (d : Z) (b : t) : t := mk (size b) (stock b + d).
End SizeStock.

Module Product.
Record t := mk {
  name : string;
  price : float;
  salePrice : option float;
  sizes : list SizeStock.t;
  totalStock : Z;
  soldCount : Z
}.

Definition set_sizes (v : list SizeStock.t) (p : t) : t :=
  mk (name p) (price p) (salePrice p) v (totalStock p) (soldCount p).
Definition set_totalStock (v : Z) (p : t) : t :=
  mk (name p) (price p) (salePrice p) (sizes p) v (soldCount p).
Definition set_soldCount (v : Z) (p : t) : t :=
  mk (name p) (price p) (salePrice p) (sizes p) (totalStock p) v.

(** [this.sizes.reduce((sum, s) => sum + s.stock, 0)] *)
Definition sum_stock (bs : list SizeStock.t) : Z :=
  fold_left (λ sum s, sum + SizeStock.stock s) bs 0.

(** [productSchema.pre('save')]: the slug is display data and is left
    out; the hook's other effect is to recompute the total stock. *)
Definition pre_save (p : t) : t := set_totalStock (sum_stock (sizes p)) p.

(** The virtual [effectivePrice]:
    [this.salePrice && this.salePrice < this.price ? this.salePrice : this.price].
    A sale price of zero is falsy; NaN fails the comparison. *)
Definition effectivePrice (p : t) : float :=
  match salePrice p with
  | Some s =>
      if negb (PrimFloat.eqb s 0) && PrimFloat.ltb s (price p) then s
      else price p
  | None => price p
  end.
End Product.

(** The products collection, keyed by [_id]. *)
Abbreviation ProductDB := (gmap string Product.t).

(** [product.save()]: run the pre-save hook and write the document back.
    The only validator on a path the handlers modify is [stock: min 0];
    the callers below save a bucket only after checking that it holds at
    least the quantity taken from it, or validate explicitly. *)
Definition product_save (id : string) (p : Product.t) (db : ProductDB)
  : ProductDB :=
  <[id := Product.pre_save p]> db.

Module CartItem.
Record t := mk {
  productId : string;
  name : string;
  price : float;
  size : float;
  color : string;
  quantity : Z;
  maxStock : Z
}.
Definition set_quantity (v : Z) (i : t) : t :=
  mk (productId i) (name i) (price i) (size i) (color i) v (maxStock i).
End CartItem.

Module Cart.
Record t := mk {
  items : list CartItem.t;
  subtotal : float;
  shipping : float;
  tax : float;
  total : float
}.
Definition set_items (v : list CartItem.t) (c : t) : t :=
  mk v (subtotal c) (shipping c) (tax c) (total c).

(** The literal [{ items: [], subtotal: 0, shipping: 0, tax: 0, total: 0 }]
    of [initCart], of the clear route and of checkout. *)
Definition empty : t := mk [] 0 0 0 0.
End Cart.

Module User.
Record t := mk { id : string; role : string }.
End User.

(** What the handlers and the middleware read and write of
    [req.session]. *)
Module Session.
Record t := mk {
  user : option User.t;
  cart : option Cart.t;
  returnTo : option string;
  error : option string
}.
Definition set_cart (c : Cart.t) (s : t) : t :=
  mk (user s) (Some c) (returnTo s) (error s).
Definition set_returnTo (url : string) (s : t) : t :=
  mk (user s) (cart s) (Some url) (error s).
Definition set_error (m : string) (s : t) : t :=
  mk (user s) (cart s) (returnTo s) (Some m).
Definition fresh : t := mk None None None None.
End Session.

(** What the middleware reads of the request line: [req.path], which is
    relative to the router the middleware is mounted in, and
    [req.originalUrl]. *)
Module Request.
Record t := mk { path : string; originalUrl : string }.
End Request.

(** The messages of the JSON replies; the interpolated values of the
    template strings are kept as arguments. *)
Inductive Message :=
| ProductNotFound
| SizeNotAvailable
| OnlyInThisSize (stock : Z)
| ItemAdded
| FailedToAddItem
| ItemNotInCart
| OnlyAvailable (stock : Z)
| CartUpdated
| FailedToUpdateCart
| ItemRemoved
| CartCleared
| PleaseLogin
| AccessDenied
| RedirectTo (url : string)
| CartIsEmpty
| NoLongerExists (name : string)
| NoLongerAvailable (name : string) (size : float)
| OrderPlaced
| FailedToPlaceOrder
| OrderNotFound
| CannotBeCancelled
| OrderCancelled
| StockUpdated
| FailedToUpdateStock.

(** [res.status(code).json({ success, message, data })] *)
Module Reply.
Record t (A : Type) := mk {
  status : nat;
  success : bool;
  message : Message;
  data : option A
}.
Arguments mk {A}.
Arguments status {A}.
Arguments success {A}.
Arguments message {A}.
Arguments data {A}.
Definition ok {A} (code : nat) (m : Message) (d : A) : t A :=
  mk code true m (Some d).
Definition fail {A} (code : nat) (m : Message) : t A :=
  mk code false m None.
End Reply.

(** ** Authentication middleware *)

Module Auth.

(** [req.path.startsWith('/api/')] *)
Definition is_api (rq : Request.t) : bool :=
  String.prefix "/api/" (Request.path rq).

(** [isAuthenticated]: the session as the middleware leaves it, and
    either the reply it sends or, for [next()], the session's user. *)
Definition isAuthenticated {A} (rq : Request.t) (s : Session.t)
  : Session.t * (Reply.t A + User.t) :=
  match Session.user s with
  | Some user => (s, inr user)
  | None =>
      if is_api rq then (s, inl (Reply.fail 401 PleaseLogin))
      else
        (Session.set_error "Please login to continue"
           (Session.set_returnTo (Request.originalUrl rq) s),
         inl (Reply.fail 302 (RedirectTo "/auth/login")))
  end.

(** [isAdmin] *)
Definition isAdmin {A} (rq : Request.t) (s : Session.t)
  : Session.t * (Reply.t A + User.t) :=
  match Session.user s with
  | None =>
      if is_api rq then (s, inl (Reply.fail 401 PleaseLogin))
      else (Session.set_returnTo (Request.originalUrl rq) s,
            inl (Reply.fail 302 (RedirectTo "/auth/login")))
  | Some user =>
      if negb (String.eqb (User.role user) "admin")
      then
        if is_api rq then (s, inl (Reply.fail 403 AccessDenied))
        else (Session.set_error "Access denied. Admin privileges required." s,
              inl (Reply.fail 302 (RedirectTo "/")))
      else (s, inr user)
  end.

End Auth.

(** ** Cart routes ([src/routes/cart.js]) *)

Module CartRoutes.

(** [initCart(req)]: the session after the call and the cart object. *)
Definition initCart (s : Session.t) : Session.t * Cart.t :=
  match Session.cart s with
  | Some c => (s, c)
  | None => (Session.set_cart Cart.empty s, Cart.empty)
  end.

(** [calculateTotals(cart)] *)
Definition calculateTotals (cart : Cart.t) : Cart.t :=
  let subtotal :=
    fold_left
      (λ sum item,
         (sum + CartItem.price item * JS.Z2float (CartItem.quantity item))%float)
      (Cart.items cart) 0%float in
  let shipping := if JS.geb subtotal 100 then 0%float else 9.99%float in
  let tax := (subtotal * 0.08)%float in
  let total := (subtotal + shipping + tax)%float in
  Cart.mk (Cart.items cart) subtotal shipping tax total.

(** Body of [POST /api/cart/add]; [size] is [parseFloat(size)] and
    [quantity] the number sent (1 when the field is absent). *)
Record AddRequest := mkAdd {
  add_productId : string;
  add_size : float;
  add_color : option string;
  add_quantity : JS.Number
}.

Definition same_line (productId : string) (size : float)
    (color : option string) (item : CartItem.t) : bool :=
  String.eqb (CartItem.productId item) productId
  && PrimFloat.eqb (CartItem.size item) size
  && bool_decide (Some (CartItem.color item) = color).

Definition add (db : ProductDB) (req : AddRequest) (s : Session.t)
  : Session.t * Reply.t Cart.t :=
  match db !! add_productId req with
  | None =>
      (* [findById] throws on an id that is no ObjectId; the catch block
         answers 500 *)
      if JS.isObjectId (add_productId req)
      then (s, Reply.fail 404 ProductNotFound)
      else (s, Reply.fail 500 FailedToAddItem)
  | Some product =>
    match JS.find (λ b, PrimFloat.eqb (SizeStock.size b) (add_size req))
                  (Product.sizes product) with
    | None => (s, Reply.fail 400 SizeNotAvailable)
    | Some sizeOption =>
      if JS.lt_num (SizeStock.stock sizeOption) (add_quantity req)
      then (s, Reply.fail 400 SizeNotAvailable)
      else
        let '(s1, cart) := initCart s in
        match JS.findIndex
                (same_line (add_productId req) (add_size req) (add_color req))
                (Cart.items cart) with
        | Some existingIndex =>
          match Cart.items cart !! existingIndex with
          | None => (s1, Reply.fail 500 FailedToAddItem)
          | Some existing =>
            let newQty :=
              CartItem.quantity existing + JS.parseInt (add_quantity req) in
            if SizeStock.stock sizeOption <? newQty
            then (s1, Reply.fail 400 (OnlyInThisSize (SizeStock.stock sizeOption)))
            else
              let cart' :=
                calculateTotals
                  (Cart.set_items
                     (alter (CartItem.set_quantity newQty) existingIndex
                            (Cart.items cart)) cart) in
              (Session.set_cart cart' s1, Reply.ok 200 ItemAdded cart')
          end
        | None =>
          let line :=
            CartItem.mk (add_productId req) (Product.name product)
              (Product.effectivePrice product) (add_size req)
              (JS.or_default (add_color req) "Default")
              (JS.parseInt (add_quantity req)) (SizeStock.stock sizeOption) in
          let cart' :=
            calculateTotals (Cart.set_items (Cart.items cart ++ [line]) cart) in
          (Session.set_cart cart' s1, Reply.ok 200 ItemAdded cart')
        end
    end
  end.

(** Body of [PUT /api/cart/update]; [quantity] is the number sent. *)
Record UpdateRequest := mkUpdate {
  upd_productId : string;
  upd_size : float;
  upd_quantity : JS.Number
}.

(** The lookup shared by update and remove: product and size only. *)
Definition same_product_size (productId : string) (size : float)
    (item : CartItem.t) : bool :=
  String.eqb (CartItem.productId item) productId
  && PrimFloat.eqb (CartItem.size item) size.

Definition update (db : ProductDB) (req : UpdateRequest) (s : Session.t)
  : Session.t * Reply.t Cart.t :=
  let '(s1, cart) := initCart s in
  match JS.findIndex (same_product_size (upd_productId req) (upd_size req))
                     (Cart.items cart) with
  | None => (s1, Reply.fail 404 ItemNotInCart)
  | Some itemIndex =>
    if JS.num_le (upd_quantity req) 0 then
      let cart' :=
        calculateTotals
          (Cart.set_items (delete itemIndex (Cart.items cart)) cart) in
      (Session.set_cart cart' s1, Reply.ok 200 CartUpdated cart')
    else
      (* a missing product or bucket makes the property access throw;
         the catch block answers 500 *)
      match db !! upd_productId req with
      | None => (s1, Reply.fail 500 FailedToUpdateCart)
      | Some product =>
        match JS.find (λ b, PrimFloat.eqb (SizeStock.size b) (upd_size req))
                      (Product.sizes product) with
        | None => (s1, Reply.fail 500 FailedToUpdateCart)
        | Some sizeOption =>
          if JS.num_gt (upd_quantity req) (SizeStock.stock sizeOption)
          then (s1, Reply.fail 400 (OnlyAvailable (SizeStock.stock sizeOption)))
          else
            let cart' :=
              calculateTotals
                (Cart.set_items
                   (alter (CartItem.set_quantity
                             (JS.parseInt (upd_quantity req)))
                          itemIndex (Cart.items cart)) cart) in
            (Session.set_cart cart' s1, Reply.ok 200 CartUpdated cart')
        end
      end
  end.

(** [DELETE /api/cart/remove] *)
Definition remove (productId : string) (size : float) (s : Session.t)
  : Session.t * Reply.t Cart.t :=
  let '(s1, cart) := initCart s in
  match JS.findIndex (same_product_size productId size) (Cart.items cart) with
  | None => (s1, Reply.fail 404 ItemNotInCart)
  | Some itemIndex =>
    let cart' :=
      calculateTotals
        (Cart.set_items (delete itemIndex (Cart.items cart)) cart) in
    (Session.set_cart cart' s1, Reply.ok 200 ItemRemoved cart')
  end.

(** [DELETE /api/cart/clear] *)
Definition clear (s : Session.t) : Session.t * Reply.t Cart.t :=
  (Session.set_cart Cart.empty s, Reply.ok 200 CartCleared Cart.empty).

End CartRoutes.

(** ** Orders ([src/models/index.js], Order schema) *)

(** The [status] enum of the Order schema. *)
Inductive OrderStatus :=
| Pending | Confirmed | Processing | Shipped | Delivered | Cancelled | Refunded.

Module OrderItem.
Record t := mk {
  product : string;
  name : string;
  price : float;
  size : float;
  color : string;
  quantity : Z
}.
End OrderItem.

(** An entry of [statusHistory]; the timestamp default is left out. *)
Module HistoryEntry.
Record t := mk { status : OrderStatus; note : string }.
End HistoryEntry.

(** [new Date()] as far as the order number reads it. *)
Module Clock.
Record t := mk { getFullYear : nat; getMonth : nat }.
End Clock.

Module Order.
Record t := mk {
  orderNumber : option string;
  user : string;
  items : list OrderItem.t;
  paymentMethod : string;
  subtotal : float;
  shippingMethod : string;
  shippingCost : float;
  tax : float;
  total : float;
  status : OrderStatus;
  statusHistory : list HistoryEntry.t;
  trackingNumber : option string
}.

Definition set_orderNumber (v : string) (o : t) : t :=
  mk (Some v) (user o) (items o) (paymentMethod o) (subtotal o)
     (shippingMethod o) (shippingCost o) (tax o) (total o) (status o)
     (statusHistory o) (trackingNumber o).
Definition set_status (v : OrderStatus) (o : t) : t :=
  mk (orderNumber o) (user o) (items o) (paymentMethod o) (subtotal o)
     (shippingMethod o) (shippingCost o) (tax o) (total o) v
     (statusHistory o) (trackingNumber o).
Definition push_history (e : HistoryEntry.t) (o : t) : t :=
  mk (orderNumber o) (user o) (items o) (paymentMethod o) (subtotal o)
     (shippingMethod o) (shippingCost o) (tax o) (total o) (status o)
     (statusHistory o ++ [e]) (trackingNumber o).
Definition set_trackingNumber (v : string) (o : t) : t :=
  mk (orderNumber o) (user o) (items o) (paymentMethod o) (subtotal o)
     (shippingMethod o) (shippingCost o) (tax o) (total o) (status o)
     (statusHistory o) (Some v).

(** [`ORD${year}${month.padStart(2,'0')}${(count + 1).padStart(6,'0')}`] *)
Definition generate_number (now : Clock.t) (count : nat) : string :=
  let prefix :=
    "ORD" +:+ JS.String_of_nat (Clock.getFullYear now)
          +:+ JS.padStart 2 "0" (JS.String_of_nat (Clock.getMonth now + 1)) in
  prefix +:+ JS.padStart 6 "0" (JS.String_of_nat (count + 1)).

(** [!this.orderNumber]: a missing or empty number is falsy. *)
Definition lacks_number (o : t) : bool :=
  match orderNumber o with
  | None => true
  | Some n => String.eqb n EmptyString
  end.

(** [orderSchema.pre('save')]; [count] is [countDocuments()]. *)
Definition pre_save (now : Clock.t) (count : nat) (o : t) : t :=
  if lacks_number o then set_orderNumber (generate_number now count) o else o.

(** The schema validators that depend on what checkout passes in:
    [quantity: min 1] on every item and the [payment.method] enum. *)
Definition validate (o : t) : bool :=
  forallb (λ it, 1 <=? OrderItem.quantity it) (items o)
  && bool_decide (paymentMethod o ∈ ["card"; "paypal"; "cod"]).
End Order.

(** The two collections.  An order's [_id] is its position in [orders];
    no route deletes an order.  The [:id] of an order request is an
    ObjectId: it names the order at that position, or none. *)
Module Store.
Record t := mk { products : ProductDB; orders : list Order.t }.
End Store.

(** ** Order routes *)

Module OrderRoutes.

(** Body of [POST /api/orders]; the addresses are stored as given and
    are left out. *)
Record CheckoutRequest := mkCheckout {
  req_paymentMethod : option string;
  req_shippingMethod : option string
}.

(** [data: { orderId, orderNumber }] *)
Record Placed := mkPlaced { orderId : nat; orderNumber : option string }.

(** The [switch (shippingMethod)] of checkout. *)
Definition shippingCost (shippingMethod : option string) (subtotal : float)
  : float :=
  match shippingMethod with
  | Some m =>
      if String.eqb m "express" then 19.99%float
      else if String.eqb m "overnight" then 29.99%float
      else if JS.geb subtotal 100 then 0%float else 9.99%float
  | None => if JS.geb subtotal 100 then 0%float else 9.99%float
  end.

(** The [for (const item of cart.items)] loop of checkout: each line is
    re-validated against the stored product and, when it passes, the
    product is saved with the bucket reduced before the next line is
    looked at.  [inl] is an early [return res.status(...)]. *)
Fixpoint checkout_loop (db : ProductDB) (items : list CartItem.t)
    (orderItems : list OrderItem.t)
  : ProductDB * (Reply.t Placed + list OrderItem.t) :=
  match items with
  | [] => (db, inr orderItems)
  | item :: rest =>
    match db !! CartItem.productId item with
    | None => (db, inl (Reply.fail 400 (NoLongerExists (CartItem.name item))))
    | Some product =>
      let unavailable :=
        Reply.fail 400
          (NoLongerAvailable (CartItem.name item) (CartItem.size item)) in
      match JS.findIndex
              (λ b, PrimFloat.eqb (SizeStock.size b) (CartItem.size item))
              (Product.sizes product) with
      | None => (db, inl unavailable)
      | Some sizeIndex =>
        match Product.sizes product !! sizeIndex with
        | None => (db, inl (Reply.fail 500 FailedToPlaceOrder))
        | Some bucket =>
          if SizeStock.stock bucket <? CartItem.quantity item
          then (db, inl unavailable)
          else
            let product' :=
              Product.set_soldCount
                (Product.soldCount product + CartItem.quantity item)
                (Product.set_sizes
                   (alter (SizeStock.add_stock (- CartItem.quantity item))
                          sizeIndex (Product.sizes product))
                   product) in
            let db' := product_save (CartItem.productId item) product' db in
            checkout_loop db' rest
              (orderItems ++
                 [OrderItem.mk (CartItem.productId item) (Product.name product)
                    (CartItem.price item) (CartItem.size item)
                    (CartItem.color item) (CartItem.quantity item)])
        end
      end
    end
  end.

(** [Order.create(doc)]: validate, run the pre-save hook, insert under
    the unique index on [orderNumber].  [None] is a rejected document
    (the promise throws). *)
Definition order_create (now : Clock.t) (doc : Order.t) (orders : list Order.t)
  : option (list Order.t * nat * Order.t) :=
  if Order.validate doc then
    let saved := Order.pre_save now (length orders) doc in
    if bool_decide (Order.orderNumber saved ∈ Order.orderNumber <$> orders)
    then None
    else Some (orders ++ [saved], length orders, saved)
  else None.

(** The document that checkout hands to [Order.create]. *)
Definition order_doc (req : CheckoutRequest) (user : User.t) (cart : Cart.t)
    (orderItems : list OrderItem.t) : Order.t :=
  let cost := shippingCost (req_shippingMethod req) (Cart.subtotal cart) in
  Order.mk None (User.id user) orderItems
    (default "card" (req_paymentMethod req))
    (Cart.subtotal cart)
    (JS.or_default (req_shippingMethod req) "standard")
    cost (Cart.tax cart)
    (Cart.subtotal cart + cost + Cart.tax cart)%float
    Confirmed
    [HistoryEntry.mk Confirmed "Order placed successfully"]
    None.

(** [router.post('/', isAuthenticated, ...)] *)
Definition checkout (now : Clock.t) (rq : Request.t) (req : CheckoutRequest)
    (st : Store.t) (s : Session.t) : Store.t * Session.t * Reply.t Placed :=
  match Auth.isAuthenticated rq s with
  | (s', inl reply) => (st, s', reply)
  | (_, inr user) =>
    match Session.cart s with
    | None => (st, s, Reply.fail 400 CartIsEmpty)
    | Some cart =>
      match Cart.items cart with
      | [] => (st, s, Reply.fail 400 CartIsEmpty)
      | _ :: _ =>
        match checkout_loop (Store.products st) (Cart.items cart) [] with
        | (db, inl reply) => (Store.mk db (Store.orders st), s, reply)
        | (db, inr orderItems) =>
          match order_create now (order_doc req user cart orderItems)
                             (Store.orders st) with
          | None => (Store.mk db (Store.orders st), s,
                     Reply.fail 500 FailedToPlaceOrder)
          | Some (orders', id, order) =>
            (Store.mk db orders', Session.set_cart Cart.empty s,
             Reply.ok 201 OrderPlaced (mkPlaced id (Order.orderNumber order)))
          end
        end
      end
    end
  end.

(** The update of cancellation's [findByIdAndUpdate]:
    [$inc: { 'sizes.$[elem].stock': q, soldCount: -q }] with
    [arrayFilters: [{ 'elem.size': size }]].  Every bucket of that size
    is incremented; no hook runs, so [totalStock] is not touched.  (The
    size of an order line has passed [===] at checkout, so it is a number
    on which the filter's equality and [===] agree.) *)
Definition restore_stock (item : OrderItem.t) (p : Product.t) : Product.t :=
  Product.set_soldCount (Product.soldCount p - OrderItem.quantity item)
    (Product.set_sizes
       ((λ b, if PrimFloat.eqb (SizeStock.size b) (OrderItem.size item)
              then SizeStock.add_stock (OrderItem.quantity item) b else b)
          <$> Product.sizes p)
       p).

(** The [for (const item of order.items)] loop of cancellation; a
    product that is gone is skipped. *)
Definition restore_loop (db : ProductDB) (items : list OrderItem.t)
  : ProductDB :=
  fold_left (λ db item, alter (restore_stock item) (OrderItem.product item) db)
            items db.

(** [['pending', 'confirmed'].includes(order.status)] *)
Definition cancellable (st : OrderStatus) : bool :=
  match st with Pending | Confirmed => true | _ => false end.

(** [order.save()] on a stored order. *)
Definition order_save (now : Clock.t) (id : nat) (o : Order.t)
    (orders : list Order.t) : list Order.t :=
  <[id := Order.pre_save now (length orders) o]> orders.

(** [router.post('/:id/cancel', isAuthenticated, ...)] *)
Definition cancel (now : Clock.t) (rq : Request.t) (id : nat) (st : Store.t)
    (s : Session.t) : Store.t * Session.t * Reply.t () :=
  match Auth.isAuthenticated rq s with
  | (s', inl reply) => (st, s', reply)
  | (_, inr user) =>
    match Store.orders st !! id with
    | None => (st, s, Reply.fail 404 OrderNotFound)
    | Some order =>
      if negb (String.eqb (Order.user order) (User.id user))
      then (st, s, Reply.fail 404 OrderNotFound)
      else if negb (cancellable (Order.status order))
      then (st, s, Reply.fail 400 CannotBeCancelled)
      else
        let db := restore_loop (Store.products st) (Order.items order) in
        let order' :=
          Order.push_history
            (HistoryEntry.mk Cancelled "Cancelled by customer")
            (Order.set_status Cancelled order) in
        (Store.mk db (order_save now id order' (Store.orders st)), s,
         Reply.ok 200 OrderCancelled ())
    end
  end.

End OrderRoutes.

(** ** Admin inventory route *)

Module AdminRoutes.

(** [PUT /admin/inventory/:id] behind [router.use(isAdmin)]: replace the
    buckets and save.  The save rejects a negative stock ([min: 0]); the
    catch block answers 500. *)
Definition inventory_update (rq : Request.t) (id : string)
    (sizes : list SizeStock.t) (db : ProductDB) (s : Session.t)
  : ProductDB * Session.t * Reply.t Z :=
  match Auth.isAdmin rq s with
  | (s', inl reply) => (db, s', reply)
  | (_, inr _) =>
    match db !! id with
    | None =>
        if JS.isObjectId id then (db, s, Reply.fail 404 ProductNotFound)
        else (db, s, Reply.fail 500 FailedToUpdateStock)
    | Some product =>
      if forallb (λ b, 0 <=? SizeStock.stock b) sizes then
        let db' := product_save id (Product.set_sizes sizes product) db in
        (db', s, Reply.ok 200 StockUpdated (Product.sum_stock sizes))
      else (db, s, Reply.fail 500 FailedToUpdateStock)
    end
  end.

End AdminRoutes.


(** ** Further routes

    The routes below share the stores of the handlers above.  Their JSON
    replies carry the message as the source writes it. *)

(** [res.status(code).json({ success, message })], or the reply of the
    middleware in front of the handler. *)
Inductive Outcome :=
| Json (status : nat) (success : bool) (message : string)
| Denied (reply : Reply.t ()).

Definition succeeded (o : Outcome) : bool :=
  match o with
  | Json _ success _ => success
  | Denied _ => false
  end.

Module ProductVirtuals.

(** The virtual [isOnSale], as a condition:
    [this.salePrice && this.salePrice < this.price]. *)
Definition isOnSale (p : Product.t) : bool :=
  match Product.salePrice p with
  | Some s => negb (PrimFloat.eqb s 0) && PrimFloat.ltb s (Product.price p)
  | None => false
  end.

End ProductVirtuals.

Module CartViews.
Import CartRoutes.

(** [GET /api/cart/count]: [{ success: true, count }] with
    [count = cart.items.reduce((sum, item) => sum + item.quantity, 0)]. *)
Definition count (s : Session.t) : Session.t * Z :=
  let '(s1, cart) := initCart s in
  (s1, fold_left (λ sum item, sum + CartItem.quantity item) (Cart.items cart) 0).

End CartViews.

Module OrderViews.

(** [router.get('/:id', isAuthenticated, ...)] of the order routes:
    [Order.findOne({ _id, user })]; [inr] is the order sent as [data],
    without the product fields that [populate] adds to its lines. *)
Definition get_order (rq : Request.t) (id : nat) (st : Store.t)
    (s : Session.t) : Session.t * (Reply.t () + Order.t) :=
  match Auth.isAuthenticated rq s with
  | (s', inl reply) => (s', inl reply)
  | (_, inr user) =>
    match Store.orders st !! id with
    | None => (s, inl (Reply.fail 404 OrderNotFound))
    | Some order =>
      if String.eqb (Order.user order) (User.id user) then (s, inr order)
      else (s, inl (Reply.fail 404 OrderNotFound))
    end
  end.

End OrderViews.

Module Pages.

(** [res.render(view, { order })] or [res.redirect(url)]. *)
Inductive Page :=
| Render (view : string) (order : Order.t)
| Redirect (url : string).

(** [GET /order-confirmation/:id]:
    [if (!order || order.user.toString() !== req.session.user?.id)] *)
Definition order_confirmation (id : nat) (st : Store.t) (s : Session.t) : Page :=
  match Store.orders st !! id with
  | None => Redirect "/"
  | Some order =>
    match Session.user s with
    | None => Redirect "/"
    | Some user =>
      if String.eqb (Order.user order) (User.id user)
      then Render "pages/order-confirmation" order
      else Redirect "/"
    end
  end.

End Pages.

Module AdminOrders.

(** The [status] enum of the Order schema, as the validator reads a
    request string. *)
Definition parse_status (status : string) : option OrderStatus :=
  if String.eqb status "pending" then Some Pending
  else if String.eqb status "confirmed" then Some Confirmed
  else if String.eqb status "processing" then Some Processing
  else if String.eqb status "shipped" then Some Shipped
  else if String.eqb status "delivered" then Some Delivered
  else if String.eqb status "cancelled" then Some Cancelled
  else if String.eqb status "refunded" then Some Refunded
  else None.

(** Body of [PUT /admin/orders/:id/status], for a request that carries
    a status. *)
Record StatusRequest := mkStatus {
  req_status : string;
  req_note : option string;
  req_trackingNumber : option string
}.

(** [if (trackingNumber) order.trackingNumber = trackingNumber]: an
    absent or empty tracking number is falsy. *)
Definition attach_tracking (trackingNumber : option string) (o : Order.t)
  : Order.t :=
  match trackingNumber with
  | Some t => if String.eqb t EmptyString then o
              else Order.set_trackingNumber t o
  | None => o
  end.

(** [router.put('/orders/:id/status', ...)] behind [router.use(isAdmin)].
    The save rejects a status outside the enum; the catch block answers
    500. *)
Definition order_status_update (now : Clock.t) (rq : Request.t) (id : nat)
    (req : StatusRequest) (st : Store.t) (s : Session.t)
  : Store.t * Session.t * Outcome :=
  match Auth.isAdmin rq s with
  | (s', inl reply) => (st, s', Denied reply)
  | (_, inr _) =>
    match Store.orders st !! id with
    | None => (st, s, Json 404 false "Order not found")
    | Some order =>
      match parse_status (req_status req) with
      | None => (st, s, Json 500 false "Failed to update status")
      | Some status =>
        let note :=
          JS.or_default (req_note req) ("Status updated to " +:+ req_status req) in
        let order' :=
          Order.push_history (HistoryEntry.mk status note)
            (attach_tracking (req_trackingNumber req)
               (Order.set_status status order)) in
        (Store.mk (Store.products st)
           (OrderRoutes.order_save now id order' (Store.orders st)),
         s, Json 200 true "Order status updated")
      end
    end
  end.

(** [router.delete('/products/:id', ...)]: [Product.findByIdAndDelete],
    which throws on an id that is no ObjectId and deletes nothing, with
    the same answer, for an id that names no product. *)
Definition product_delete (rq : Request.t) (id : string) (db : ProductDB)
    (s : Session.t) : ProductDB * Session.t * Outcome :=
  match Auth.isAdmin rq s with
  | (s', inl reply) => (db, s', Denied reply)
  | (_, inr _) =>
    match db !! id with
    | Some _ => (delete id db, s, Json 200 true "Product deleted")
    | None =>
        if JS.isObjectId id then (db, s, Json 200 true "Product deleted")
        else (db, s, Json 500 false "Failed to delete product")
    end
  end.

End AdminOrders.

(** ** Reviews ([POST /api/products/:id/review]) *)

Module Review.
Record t := mk { user : string; rating : Z; comment : option string }.
End Review.

(** A product document with the fields the review route works on:
    [reviews] and [rating: { average, count }]. *)
Module Listing.
Record t := mk {
  product : Product.t;
  reviews : list Review.t;
  rating_average : float;
  rating_count : Z
}.
End Listing.

Module ProductRoutes.

(** The validators on the paths the route modifies: [rating: min 1,
    max 5] on the new review and [average: min 0, max 5]. *)
Definition review_valid (r : Review.t) : bool :=
  (1 <=? Review.rating r) && (Review.rating r <=? 5).

Definition average_valid (average : float) : bool :=
  PrimFloat.leb 0 average && PrimFloat.leb average 5.

(** [router.post('/:id/review', ...)]; [rating] is [parseInt(rating)]. *)
Definition add_review (id : string) (rating : Z) (comment : option string)
    (db : gmap string Listing.t) (s : Session.t)
  : gmap string Listing.t * Outcome :=
  match Session.user s with
  | None => (db, Json 401 false "Please login to add a review")
  | Some user =>
    match db !! id with
    | None =>
        if JS.isObjectId id then (db, Json 404 false "Product not found")
        else (db, Json 500 false "Failed to add review")
    | Some doc =>
      match JS.find (λ r, String.eqb (Review.user r) (User.id user))
                    (Listing.reviews doc) with
      | Some existingReview =>
          (db, Json 400 false "You have already reviewed this product")
      | None =>
        let review := Review.mk (User.id user) rating comment in
        let reviews := Listing.reviews doc ++ [review] in
        let totalRating :=
          fold_left (λ sum r, sum + Review.rating r) reviews 0 in
        let average :=
          (JS.Z2float totalRating / JS.Z2float (Z.of_nat (length reviews)))%float in
        if review_valid review && average_valid average then
          (<[id := Listing.mk (Product.pre_save (Listing.product doc)) reviews
                     average (Z.of_nat (length reviews))]> db,
           Json 200 true "Review added successfully")
        else (db, Json 500 false "Failed to add review")
      end
    end
  end.

(** The [pagination] object of [GET /api/products]; [page] and [limit]
    are [parseInt(page)] and [parseInt(limit)], [total] the number of
    matching products.  [Math.ceil(total / limit)] is exact on integers
    below 2^53; for [limit = 0] it is not a number of pages. *)
Record Pagination := mkPagination {
  pg_page : Z;
  pg_limit : Z;
  pg_total : Z;
  pg_totalPages : Z;
  pg_hasNext : bool;
  pg_hasPrev : bool
}.

Definition skip (page limit : Z) : Z := (page - 1) * limit.

Definition pagination (page limit total : Z) : option Pagination :=
  if limit =? 0 then None
  else
    let totalPages := - ((- total) / limit) in
    Some (mkPagination page limit total totalPages
            (page <? totalPages) (1 <? page)).

End ProductRoutes.
(** ** Vocabulary of the specification *)

(** Ids of the examples: ObjectIds as [_id.toString()] prints them, of
    two products, two customers and an admin. *)
Module Sample.
Definition runner : string := "64d2c8e1a3b4c5d6e7f80101".
Definition walker : string := "64d2c8e1a3b4c5d6e7f80102".
Definition buyer : string := "64d2c8e1a3b4c5d6e7f80201".
Definition visitor : string := "64d2c8e1a3b4c5d6e7f80202".
Definition manager : string := "64d2c8e1a3b4c5d6e7f80301".
End Sample.

Module Spec.
Import CartRoutes OrderRoutes.

(** The items of the session cart; a session without a cart shows none. *)
Definition cart_items (s : Session.t) : list CartItem.t :=
  match Session.cart s with
  | Some c => Cart.items c
  | None => []
  end.

(** Σ(price × quantity), accumulated from the first line on, in doubles. *)
Definition line_total (i : CartItem.t) : float :=
  (CartItem.price i * JS.Z2float (CartItem.quantity i))%float.

Fixpoint sum_from (acc : float) (items : list CartItem.t) : float :=
  match items with
  | [] => acc
  | i :: rest => sum_from (acc + line_total i)%float rest
  end.

Definition sum_price_quantity (items : list CartItem.t) : float :=
  sum_from 0%float items.

(** Shipping of the cart: free from 100 on, 9.99 below. *)
Definition flat_shipping (subtotal : float) : float :=
  if PrimFloat.leb 100 subtotal then 0%float else 9.99%float.

(** The four equations on the derived totals. *)
Definition totals_hold (c : Cart.t) : Prop :=
  Cart.subtotal c = sum_price_quantity (Cart.items c)
  ∧ Cart.shipping c = flat_shipping (Cart.subtotal c)
  ∧ Cart.tax c = (Cart.subtotal c * 0.08)%float
  ∧ Cart.total c = (Cart.subtotal c + Cart.shipping c + Cart.tax c)%float.

(** The cart operations, each with the catalogue it runs against. *)
Inductive CartOp :=
| Add (db : ProductDB) (req : AddRequest)
| Update (db : ProductDB) (req : UpdateRequest)
| Remove (productId : string) (size : float)
| Clear.

Definition run (op : CartOp) (s : Session.t) : Session.t * Reply.t Cart.t :=
  match op with
  | Add db req => add db req s
  | Update db req => update db req s
  | Remove productId size => remove productId size s
  | Clear => clear s
  end.

(** The sessions that cart operations lead to, from a session that has
    no cart yet. *)
Inductive reachable : Session.t → Prop :=
| reachable_new user returnTo error :
    reachable (Session.mk user None returnTo error)
| reachable_step op s : reachable s → reachable (fst (run op s)).

(** A 400 reply that reports missing stock. *)
Definition is_out_of_stock {A} (r : Reply.t A) : bool :=
  Nat.eqb (Reply.status r) 400
  && match Reply.message r with
     | SizeNotAvailable | OnlyInThisSize _ | OnlyAvailable _
     | NoLongerAvailable _ _ => true
     | _ => false
     end.

(** The bucket a request for [size] reads: the first one of that size. *)
Definition bucket_of (size : float) (p : Product.t) : option SizeStock.t :=
  JS.find (λ b, PrimFloat.eqb (SizeStock.size b) size) (Product.sizes p).

(** The cart line that add-to-cart takes as the same line. *)
Definition existing_line (req : AddRequest) (s : Session.t)
  : option (nat * CartItem.t) :=
  i ← JS.findIndex
        (same_line (add_productId req) (add_size req) (add_color req))
        (cart_items s);
  e ← cart_items s !! i;
  Some (i, e).

(** The number of a request against integers, on its exact value:
    [stock < x], [x ≤ b], [b ≤ x], and [x] being the integer [n]. *)
Definition below (stock : Z) (x : JS.Number) : Prop :=
  QArith_base.Qlt (QArith_base.inject_Z stock) (JS.value x).

Definition at_most (x : JS.Number) (b : Z) : Prop :=
  QArith_base.Qle (JS.value x) (QArith_base.inject_Z b).

Definition at_least (b : Z) (x : JS.Number) : Prop :=
  QArith_base.Qle (QArith_base.inject_Z b) (JS.value x).

Definition is_integer (x : JS.Number) (n : Z) : Prop :=
  QArith_base.Qeq (JS.value x) (QArith_base.inject_Z n).


(** Two lines that differ in their quantity at most. *)
Definition same_but_quantity (a b : CartItem.t) : Prop :=
  CartItem.productId a = CartItem.productId b
  ∧ CartItem.name a = CartItem.name b
  ∧ CartItem.price a = CartItem.price b
  ∧ CartItem.size a = CartItem.size b
  ∧ CartItem.color a = CartItem.color b
  ∧ CartItem.maxStock a = CartItem.maxStock b.

(** Request lines under the mounts of the application,
    [app.use('/api/orders', ...)] and [app.use('/admin', ...)]. *)
Definition orders_route (path : string) : Request.t :=
  Request.mk path ("/api/orders" +:+ path).

Definition admin_route (path : string) : Request.t :=
  Request.mk path ("/admin" +:+ path).

(** *** Checkout *)

(** The position of the bucket that stands for [size]: the first one. *)
Definition size_index (size : float) (sizes : list SizeStock.t) : option nat :=
  JS.findIndex (λ b, PrimFloat.eqb (SizeStock.size b) size) sizes.

(** Does the cart line draw on bucket [j] of product [k]? *)
Definition draws_on (k : string) (j : nat) (sizes : list SizeStock.t)
    (item : CartItem.t) : bool :=
  String.eqb (CartItem.productId item) k
  && bool_decide (size_index (CartItem.size item) sizes = Some j).

(** Units that the lines ask of bucket [j] of product [k]. *)
Fixpoint demand (k : string) (j : nat) (sizes : list SizeStock.t)
    (items : list CartItem.t) : Z :=
  match items with
  | [] => 0
  | item :: rest =>
      (if draws_on k j sizes item then CartItem.quantity item else 0)
      + demand k j sizes rest
  end.

(** Units of product [k] on the lines. *)
Fixpoint sold (k : string) (items : list CartItem.t) : Z :=
  match items with
  | [] => 0
  | item :: rest =>
      (if String.eqb (CartItem.productId item) k then CartItem.quantity item
       else 0)
      + sold k rest
  end.

Definition ordered (k : string) (items : list CartItem.t) : bool :=
  existsb (λ item, String.eqb (CartItem.productId item) k) items.

(** Product [k] once the lines are served: every bucket gives up what
    the lines ask of it, the sold count grows by the units ordered and,
    if the product was ordered at all, the total is recomputed. *)
Definition taken (k : string) (items : list CartItem.t) (p : Product.t)
  : Product.t :=
  let sizes' :=
    imap (λ j b,
            SizeStock.add_stock (- demand k j (Product.sizes p) items) b)
         (Product.sizes p) in
  Product.mk (Product.name p) (Product.price p) (Product.salePrice p) sizes'
    (if ordered k items then Product.sum_stock sizes' else Product.totalStock p)
    (Product.soldCount p + sold k items).

(** A line is covered when its product is in the catalogue, has a bucket
    of the line's size, and that bucket holds the line's quantity on top
    of what the earlier lines ask of it. *)
Definition line_covered (db : ProductDB) (earlier : list CartItem.t)
    (item : CartItem.t) : bool :=
  match db !! CartItem.productId item with
  | None => false
  | Some p =>
    match size_index (CartItem.size item) (Product.sizes p) with
    | None => false
    | Some j =>
      match Product.sizes p !! j with
      | None => false
      | Some b =>
          demand (CartItem.productId item) j (Product.sizes p) earlier
          + CartItem.quantity item <=? SizeStock.stock b
      end
    end
  end.

Fixpoint covered_from (db : ProductDB) (earlier items : list CartItem.t)
  : bool :=
  match items with
  | [] => true
  | item :: rest =>
      line_covered db earlier item && covered_from db (earlier ++ [item]) rest
  end.

Definition stock_covers (db : ProductDB) (items : list CartItem.t) : bool :=
  covered_from db [] items.

(** Each line on its own: the product exists and its bucket holds the
    line's quantity. *)
Definition each_line_in_stock (db : ProductDB) (items : list CartItem.t)
  : bool :=
  forallb (line_covered db []) items.

(** The product is there but the line does not pass the stock check
    after the earlier lines: no bucket of the size, or too few units
    left in it. *)
Definition fails_revalidation (db : ProductDB) (earlier : list CartItem.t)
    (item : CartItem.t) : Prop :=
  ∃ p, db !! CartItem.productId item = Some p
    ∧ (size_index (CartItem.size item) (Product.sizes p) = None
       ∨ ∃ j b, size_index (CartItem.size item) (Product.sizes p) = Some j
                ∧ Product.sizes p !! j = Some b
                ∧ SizeStock.stock b
                  - demand (CartItem.productId item) j (Product.sizes p) earlier
                  < CartItem.quantity item).

(** The order line written for a cart line. *)
Definition order_line (db : ProductDB) (item : CartItem.t) : OrderItem.t :=
  OrderItem.mk (CartItem.productId item)
    (default EmptyString (Product.name <$> db !! CartItem.productId item))
    (CartItem.price item) (CartItem.size item) (CartItem.color item)
    (CartItem.quantity item).

(** The shipping tiers of an order. *)
Definition order_shipping (method : option string) (subtotal : float) : float :=
  if decide (method = Some "express") then 19.99%float
  else if decide (method = Some "overnight") then 29.99%float
  else flat_shipping subtotal.

(** *** Cancellation *)

(** Units that the order lines give back to bucket [b] of product [k]. *)
Fixpoint returned (k : string) (b : SizeStock.t) (lines : list OrderItem.t)
  : Z :=
  match lines with
  | [] => 0
  | l :: rest =>
      (if String.eqb (OrderItem.product l) k
          && PrimFloat.eqb (SizeStock.size b) (OrderItem.size l)
       then OrderItem.quantity l else 0)
      + returned k b rest
  end.

Fixpoint unsold (k : string) (lines : list OrderItem.t) : Z :=
  match lines with
  | [] => 0
  | l :: rest =>
      (if String.eqb (OrderItem.product l) k then OrderItem.quantity l else 0)
      + unsold k rest
  end.

(** Product [k] once the order lines are given back. *)
Definition restored (k : string) (lines : list OrderItem.t) (p : Product.t)
  : Product.t :=
  Product.mk (Product.name p) (Product.price p) (Product.salePrice p)
    ((λ b, SizeStock.add_stock (returned k b lines) b) <$> Product.sizes p)
    (Product.totalStock p)
    (Product.soldCount p - unsold k lines).

(** Every line's size names one bucket of its product only. *)
Definition single_bucket (db : ProductDB) (items : list CartItem.t) : Prop :=
  ∀ item p j b,
    item ∈ items →
    db !! CartItem.productId item = Some p →
    Product.sizes p !! j = Some b →
    PrimFloat.eqb (SizeStock.size b) (CartItem.size item) = true →
    size_index (CartItem.size item) (Product.sizes p) = Some j.

(** *** Order numbers *)

(** The number a string of decimal digits writes. *)
Definition decimal (s : string) : option nat :=
  Nat.of_uint <$> NilZero.uint_of_string s.

(** *** The stock invariant of the Product schema *)

Definition total_matches (p : Product.t) : Prop :=
  Product.totalStock p
  = foldr (λ b acc, SizeStock.stock b + acc) 0 (Product.sizes p).

End Spec.

(** ** Vocabulary for the further properties *)

Module Extra.
Import CartRoutes OrderRoutes Spec.


(** A line without its quantity: what add-to-cart recorded. *)
Definition snapshot (item : CartItem.t) : CartItem.t :=
  CartItem.set_quantity 0 item.

(** Sessions reached by operations that all satisfy [P]. *)
Inductive reachable_by (P : CartOp → Prop) : Session.t → Prop :=
| reachable_by_new user returnTo error :
    reachable_by P (Session.mk user None returnTo error)
| reachable_by_step op s :
    P op → reachable_by P s → reachable_by P (fst (run op s)).

(** A request that asks for one unit at least or, for an update, for
    none at all: no number between 0 and 1. *)
Definition asks_units (op : CartOp) : Prop :=
  match op with
  | Add _ req => at_least 1 (add_quantity req)
  | Update _ req =>
      at_most (upd_quantity req) 0 ∨ at_least 1 (upd_quantity req)
  | _ => True
  end.

(** No bucket of the catalogue is below zero. *)
Definition stock_nonneg (db : ProductDB) : Prop :=
  ∀ k p b, db !! k = Some p → b ∈ Product.sizes p → 0 ≤ SizeStock.stock b.

(** What the catalogue says of a product apart from its stock figures. *)
Definition listing (p : Product.t) : string * float * option float * list float :=
  (Product.name p, Product.price p, Product.salePrice p,
   SizeStock.size <$> Product.sizes p).

(** What an order holds apart from its status, tracking number and
    status history. *)
Definition purchase (o : Order.t)
  : option string * string * list OrderItem.t * string * float * string
    * float * float * float :=
  (Order.orderNumber o, Order.user o, Order.items o, Order.paymentMethod o,
   Order.subtotal o, Order.shippingMethod o, Order.shippingCost o,
   Order.tax o, Order.total o).

(** Every stored order carries a number, and no two carry the same. *)
Definition well_numbered (orders : list Order.t) : Prop :=
  (∀ o, o ∈ orders → Order.lacks_number o = false)
  ∧ NoDup (Order.orderNumber <$> orders).

(** A date with a four-digit year; [getMonth()] is 0 to 11. *)
Definition calendar (now : Clock.t) : Prop :=
  (1000 ≤ Clock.getFullYear now ≤ 9999)%nat ∧ (Clock.getMonth now ≤ 11)%nat.

(** Each order carries the number the hook gives to a document saved
    when as many orders were stored as stand before it. *)
Definition numbered_in_sequence (orders : list Order.t) : Prop :=
  ∀ i o, orders !! i = Some o →
         ∃ now, calendar now
                ∧ Order.orderNumber o = Some (Order.generate_number now i).

(** The requests that write to the two collections, each with the
    session it is sent from. *)
Inductive StoreOp :=
| Checkout (now : Clock.t) (rq : Request.t) (req : CheckoutRequest)
    (s : Session.t)
| Cancel (now : Clock.t) (rq : Request.t) (id : nat) (s : Session.t)
| SetStatus (now : Clock.t) (rq : Request.t) (id : nat)
    (req : AdminOrders.StatusRequest) (s : Session.t)
| Inventory (rq : Request.t) (id : string) (sizes : list SizeStock.t)
    (s : Session.t)
| DeleteProduct (rq : Request.t) (id : string) (s : Session.t).

Definition run_store (op : StoreOp) (st : Store.t) : Store.t :=
  match op with
  | Checkout now rq req s => (checkout now rq req st s).1.1
  | Cancel now rq id s => (cancel now rq id st s).1.1
  | SetStatus now rq id req s =>
      (AdminOrders.order_status_update now rq id req st s).1.1
  | Inventory rq id sizes s =>
      Store.mk (AdminRoutes.inventory_update rq id sizes
                  (Store.products st) s).1.1
               (Store.orders st)
  | DeleteProduct rq id s =>
      Store.mk (AdminOrders.product_delete rq id (Store.products st) s).1.1
               (Store.orders st)
  end.

(** No bucket is below zero and every stored order passes the
    validators it was created under. *)
Definition sound (st : Store.t) : Prop :=
  stock_nonneg (Store.products st)
  ∧ ∀ o, o ∈ Store.orders st → Order.validate o = true.

(** The review data of a product agree with each other: the count is
    the number of reviews, every rating is from 1 to 5, and no user has
    more than one review. *)
Definition reviews_consistent (doc : Listing.t) : Prop :=
  Listing.rating_count doc = Z.of_nat (length (Listing.reviews doc))
  ∧ Forall (λ r, 1 ≤ Review.rating r ≤ 5) (Listing.reviews doc)
  ∧ NoDup (Review.user <$> Listing.reviews doc).

End Extra.

(** * Properties *)

(** ** Array helpers *)

Section find_index.
Context {A : Type} (p : A → bool).

Lemma findIndex_Some_lookup (l : list A) (i : nat) :
  JS.findIndex p l = Some i → ∃ x, l !! i = Some x ∧ p x = true.
Proof.
  revert i; induction l as [|x l IH]; intros i; simpl; [done|].
  destruct (p x) eqn:Hx.
  - intros [= <-]; eauto.
  - destruct (JS.findIndex p l) as [k|]; [|done].
    intros [= <-]. by apply IH.
Qed.

Lemma findIndex_Some_first (l : list A) (i j : nat) (y : A) :
  JS.findIndex p l = Some i → l !! j = Some y → p y = true → (i ≤ j)%nat.
Proof.
  revert i j; induction l as [|x l IH]; intros i j; simpl; [done|].
  destruct (p x) eqn:Hx.
  - intros [= <-] _ _. lia.
  - destruct (JS.findIndex p l) as [k|] eqn:Hk; [|done].
    intros [= <-]. destruct j as [|j]; simpl.
    + intros [= ->]. congruence.
    + intros Hj Hy. specialize (IH k j eq_refl Hj Hy). lia.
Qed.

Lemma findIndex_None (l : list A) (j : nat) (y : A) :
  JS.findIndex p l = None → l !! j = Some y → p y = false.
Proof.
  revert j; induction l as [|x l IH]; intros j; simpl; [done|].
  destruct (p x) eqn:Hx; [done|].
  destruct (JS.findIndex p l) eqn:Hk; [done|]. intros _.
  destruct j as [|j]; simpl.
  - by intros [= <-].
  - by apply IH.
Qed.

Lemma findIndex_is_Some (l : list A) (j : nat) (y : A) :
  l !! j = Some y → p y = true → ∃ i, JS.findIndex p l = Some i ∧ (i ≤ j)%nat.
Proof.
  intros Hj Hy. destruct (JS.findIndex p l) as [i|] eqn:Hi.
  - exists i. split; [done|]. eapply findIndex_Some_first; eauto.
  - rewrite (findIndex_None _ _ _ Hi Hj) in Hy. done.
Qed.

Lemma find_findIndex (l : list A) :
  JS.find p l = JS.findIndex p l ≫= (l !!.).
Proof.
  induction l as [|x l IH]; simpl; [done|].
  destruct (p x); [done|]. rewrite IH.
  by destruct (JS.findIndex p l).
Qed.

(** An in-place update that [p] does not see leaves the index alone. *)
Lemma findIndex_alter (f : A → A) (k : nat) (l : list A) :
  (∀ x, p (f x) = p x) → JS.findIndex p (alter f k l) = JS.findIndex p l.
Proof.
  intros Hf. revert k; induction l as [|x l IH]; intros k; [done|].
  destruct k as [|k]; cbn [alter list_alter JS.findIndex].
  - by rewrite Hf.
  - fold (alter f k l). by rewrite IH.
Qed.

End find_index.

(** ** Cart totals *)

Section cart_totals.
Import CartRoutes Spec.

Lemma fold_left_sum_from (items : list CartItem.t) (acc : float) :
  fold_left
    (λ sum item,
       (sum + CartItem.price item * JS.Z2float (CartItem.quantity item))%float)
    items acc
  = sum_from acc items.
Proof. revert acc; induction items as [|i items IH]; intros acc; simpl; auto. Qed.

Lemma calculateTotals_items (c : Cart.t) :
  Cart.items (calculateTotals c) = Cart.items c.
Proof. done. Qed.

Lemma calculateTotals_totals (c : Cart.t) : totals_hold (calculateTotals c).
Proof.
  unfold totals_hold, calculateTotals; simpl.
  rewrite fold_left_sum_from. done.
Qed.

Lemma float_zero_not_999 : 0%float ≠ 9.99%float.
Proof.
  intros H. apply (f_equal (λ x, PrimFloat.leb x 1)) in H.
  vm_compute in H. discriminate.
Qed.

Lemma empty_cart_shipping : ¬ totals_hold Cart.empty.
Proof. intros (_ & Hs & _). vm_compute in Hs. by apply float_zero_not_999. Qed.

Lemma initCart_cart (s s1 : Session.t) (c : Cart.t) :
  initCart s = (s1, c) →
  Session.cart s1 = Some c
  ∧ Session.user s1 = Session.user s
  ∧ Cart.items c = cart_items s
  ∧ (Session.cart s = Some c ∧ s1 = s ∨ Session.cart s = None ∧ c = Cart.empty).
Proof.
  unfold initCart, cart_items. destruct s as [u [c0|] rt er]; simpl.
  - intros [= <- <-]. simpl. eauto 6.
  - intros [= <- <-]. simpl. eauto 6.
Qed.

(** What every cart handler does to the session: it leaves the cart as
    it was, initialises it to the empty cart, or stores the outcome of
    [calculateTotals]. *)
Lemma run_cart (op : CartOp) (s : Session.t) :
  Session.cart (fst (run op s)) = Session.cart s
  ∨ Session.cart (fst (run op s)) = Some Cart.empty
  ∨ ∃ c, Session.cart (fst (run op s)) = Some (calculateTotals c).
Proof.
  destruct op as [db req|db req|pid size|]; simpl.
  - unfold add.
    destruct (db !! _) as [product|];
      [|by destruct (JS.isObjectId _); left].
    destruct (JS.find _ _) as [b|]; [|by left].
    destruct (JS.lt_num _ _); [by left|].
    destruct (initCart s) as [s1 c] eqn:Hi.
    apply initCart_cart in Hi as (Hc & _ & _ & Hs).
    assert (Session.cart s1 = Session.cart s ∨ Session.cart s1 = Some Cart.empty)
      as Hs1 by (destruct Hs as [[? ->]|[? ->]]; [by left|by right]).
    destruct (JS.findIndex _ _) as [i|].
    + destruct (_ !! i) as [e|]; [|tauto].
      destruct (_ <? _); [tauto|]. simpl. eauto.
    + simpl. eauto.
  - unfold update.
    destruct (initCart s) as [s1 c] eqn:Hi.
    apply initCart_cart in Hi as (Hc & _ & _ & Hs).
    assert (Session.cart s1 = Session.cart s ∨ Session.cart s1 = Some Cart.empty)
      as Hs1 by (destruct Hs as [[? ->]|[? ->]]; [by left|by right]).
    destruct (JS.findIndex _ _) as [i|]; [|tauto].
    destruct (JS.num_le _ _); [simpl; eauto|].
    destruct (db !! _) as [product|]; [|tauto].
    destruct (JS.find _ _) as [b|]; [|tauto].
    destruct (JS.num_gt _ _); [tauto|]. simpl. eauto.
  - unfold remove.
    destruct (initCart s) as [s1 c] eqn:Hi.
    apply initCart_cart in Hi as (Hc & _ & _ & Hs).
    assert (Session.cart s1 = Session.cart s ∨ Session.cart s1 = Some Cart.empty)
      as Hs1 by (destruct Hs as [[? ->]|[? ->]]; [by left|by right]).
    destruct (JS.findIndex _ _) as [i|]; [|tauto].
    simpl. eauto.
  - simpl. eauto.
Qed.

(** Add, update and remove answer a success with the recomputed cart. *)
Lemma mutation_totals (op : CartOp) (s : Session.t) :
  op ≠ Clear →
  Reply.success (run op s).2 = true →
  ∃ c, Session.cart (run op s).1 = Some c
    ∧ Reply.data (run op s).2 = Some c
    ∧ totals_hold c.
Proof.
  intros Hop. destruct op as [db req|db req|pid size|]; [| | |done]; simpl.
  - unfold add.
    destruct (db !! _) as [product|]; [|by destruct (JS.isObjectId _)].
    destruct (JS.find _ _) as [b|]; [|done].
    destruct (JS.lt_num _ _); [done|].
    destruct (initCart s) as [s1 c].
    destruct (JS.findIndex _ _) as [i|].
    + destruct (_ !! i) as [e|]; [|done].
      destruct (_ <? _); [done|]. intros _.
      eexists. split; [done|]. split; [done|]. apply calculateTotals_totals.
    + intros _. eexists. split; [done|]. split; [done|].
      apply calculateTotals_totals.
  - unfold update. destruct (initCart s) as [s1 c].
    destruct (JS.findIndex _ _) as [i|]; [|done].
    destruct (JS.num_le _ _).
    { intros _. eexists. split; [done|]. split; [done|].
      apply calculateTotals_totals. }
    destruct (db !! _) as [product|]; [|done].
    destruct (JS.find _ _) as [b|]; [|done].
    destruct (JS.num_gt _ _); [done|]. intros _.
    eexists. split; [done|]. split; [done|]. apply calculateTotals_totals.
  - unfold remove. destruct (initCart s) as [s1 c].
    destruct (JS.findIndex _ _) as [i|]; [|done]. intros _.
    eexists. split; [done|]. split; [done|]. apply calculateTotals_totals.
Qed.

(** C5, as stated, fails: the cart that the clear route writes has
    shipping 0, while a subtotal of 0 is below 100 and the shipping rule
    gives 9.99. *)
Lemma clear_breaks_shipping_rule :
  ¬ (∀ s c, reachable s → Session.cart s = Some c → totals_hold c).
Proof.
  intros H.
  apply empty_cart_shipping.
  apply (H (fst (run Clear Session.fresh))); [|done].
  apply reachable_step, reachable_new.
Qed.

(** C5 (amended): in every cart reachable through add, update, remove
    and clear, subtotal = Σ(price × quantity), tax = subtotal × 0.08 and
    total = subtotal + shipping + tax, and shipping is 0 when subtotal ≥
    100 and 9.99 otherwise unless the cart is the empty cart with all
    four totals zero, which clear and cart initialisation write.  After
    every add, update and remove that succeeds, the session cart is the
    cart of the reply and all four equations hold of it, the shipping
    rule included: a remove that empties the cart leaves shipping 9.99.
    After clear the session cart is the all-zero empty cart. *)
Theorem cart_totals_invariant (s : Session.t) :
  reachable s →
  (∀ c, Session.cart s = Some c →
        Cart.subtotal c = sum_price_quantity (Cart.items c)
        ∧ Cart.tax c = (Cart.subtotal c * 0.08)%float
        ∧ Cart.total c
          = (Cart.subtotal c + Cart.shipping c + Cart.tax c)%float
        ∧ (Cart.shipping c = flat_shipping (Cart.subtotal c)
           ∨ c = Cart.empty))
  ∧ (∀ op, op ≠ Clear →
           Reply.success (run op s).2 = true →
           ∃ c, Session.cart (run op s).1 = Some c
                ∧ Reply.data (run op s).2 = Some c
                ∧ Cart.subtotal c = sum_price_quantity (Cart.items c)
                ∧ Cart.shipping c = flat_shipping (Cart.subtotal c)
                ∧ Cart.tax c = (Cart.subtotal c * 0.08)%float
                ∧ Cart.total c
                  = (Cart.subtotal c + Cart.shipping c + Cart.tax c)%float)
  ∧ Session.cart (run Clear s).1 = Some (Cart.mk [] 0 0 0 0).
Proof.
  intros Hr. split; [|split; [|done]].
  - intros c Hc.
    assert (totals_hold c ∨ c = Cart.empty) as [(H1 & H2 & H3 & H4)| ->].
    { revert c Hc. induction Hr as [u rt er|op s Hr IH]; intros c Hc; [done|].
      destruct (run_cart op s) as [Heq|[Heq|[c0 Heq]]]; rewrite Heq in Hc.
      - by apply IH.
      - right. congruence.
      - left. injection Hc as <-. apply calculateTotals_totals. }
    + eauto.
    + repeat split; try reflexivity. by right.
  - intros op Hop Hok.
    destruct (mutation_totals op s Hop Hok) as (c & Hc & Hd & H1 & H2 & H3 & H4).
    exists c. done.
Qed.

Lemma cart_totals_invariant_witness :
  let db : ProductDB :=
    <[Sample.runner := Product.mk "Runner" 40 None [SizeStock.mk 9 5] 5 0]> ∅ in
  let s := fst (run (Add db (mkAdd Sample.runner 9 (Some "red") (JS.whole 3 eq_refl)))
                    Session.fresh) in
  (∃ c, Session.cart s = Some c
        ∧ Cart.subtotal c = 120%float
        ∧ Cart.shipping c = 0%float
        ∧ Cart.total c
          = (Cart.subtotal c + Cart.shipping c + Cart.tax c)%float)
  ∧ ∃ c, Session.cart (run (Remove Sample.runner 9) s).1 = Some c
         ∧ Cart.items c = []
         ∧ Cart.subtotal c = 0%float
         ∧ Cart.shipping c = 9.99%float
         ∧ Cart.shipping c = flat_shipping (Cart.subtotal c).
Proof.
  intros db s.
  assert (reachable s) as Hr by apply reachable_step, reachable_new.
  destruct (cart_totals_invariant s Hr) as (Hall & Hmut & _).
  split.
  - eexists. split; [reflexivity|]. split; [reflexivity|].
    split; [reflexivity|].
    by destruct (Hall _ eq_refl) as (_ & _ & Htotal & _).
  - destruct (Hmut (Remove Sample.runner 9)) as (c & Hc & _ & _ & Hship & _);
      [discriminate|reflexivity|].
    exists c. split; [exact Hc|].
    assert (c = Cart.mk [] 0 9.99 0 9.99) as Heq.
    { vm_compute in Hc. by injection Hc as <-. }
    split; [by rewrite Heq|]. split; [by rewrite Heq|].
    split; [by rewrite Heq|]. exact Hship.
Defined.

End cart_totals.

(** ** Numbers of a request *)

Section request_numbers.
Import Spec.

Lemma lt_num_below (a : Z) (x : JS.Number) :
  JS.lt_num a x = true ↔ below a x.
Proof.
  unfold JS.lt_num, below. rewrite negb_true_iff.
  split.
  - intros H. apply QArith_base.Qnot_le_lt. intros Hle.
    apply QArith_base.Qle_bool_iff in Hle. congruence.
  - intros H. destruct (QArith_base.Qle_bool _ _) eqn:Hle; [|done].
    apply QArith_base.Qle_bool_iff in Hle.
    by apply QArith_base.Qlt_not_le in H.
Qed.

Lemma lt_num_not_below (a : Z) (x : JS.Number) :
  JS.lt_num a x = false ↔ ¬ below a x.
Proof.
  rewrite <- lt_num_below. by destruct (JS.lt_num a x).
Qed.

Lemma num_le_at_most (x : JS.Number) (b : Z) :
  JS.num_le x b = true ↔ at_most x b.
Proof. apply QArith_base.Qle_bool_iff. Qed.

Lemma num_le_not_at_most (x : JS.Number) (b : Z) :
  JS.num_le x b = false ↔ ¬ at_most x b.
Proof. rewrite <- num_le_at_most. by destruct (JS.num_le x b). Qed.

Lemma below_not_at_most (a : Z) (x : JS.Number) :
  below a x ↔ ¬ at_most x a.
Proof.
  unfold below, at_most. split.
  - apply QArith_base.Qlt_not_le.
  - apply QArith_base.Qnot_le_lt.
Qed.


Lemma is_integer_parseInt (x : JS.Number) (n : Z) :
  is_integer x n → JS.parseInt x = n.
Proof.
  unfold is_integer, JS.parseInt, QArith_base.Qeq. simpl.
  rewrite Z.mul_1_r. intros ->. by apply Z.quot_mul.
Qed.


Lemma is_integer_at_most (x : JS.Number) (n b : Z) :
  is_integer x n → (at_most x b ↔ n ≤ b).
Proof.
  unfold is_integer, at_most. intros H.
  rewrite H. unfold QArith_base.Qle. simpl. lia.
Qed.

(** A number of one at least is cut to an integer of one at least. *)
Lemma at_least_parseInt (x : JS.Number) (b : Z) :
  0 ≤ b → at_least b x → b ≤ JS.parseInt x.
Proof.
  unfold at_least, JS.parseInt, QArith_base.Qle. simpl.
  rewrite Z.mul_1_r. intros Hb H.
  assert (0 ≤ QArith_base.Qnum (JS.value x)) by nia.
  rewrite Z.quot_div_nonneg by lia.
  apply Z.div_le_lower_bound; lia.
Qed.

(** A number that is at most an integer is cut to at most that integer. *)
Lemma at_most_parseInt (x : JS.Number) (b : Z) :
  at_most x b → JS.parseInt x ≤ b.
Proof.
  unfold at_most, JS.parseInt, QArith_base.Qle. simpl.
  rewrite Z.mul_1_r. intros H.
  destruct (Z.le_gt_cases 0 (QArith_base.Qnum (JS.value x))) as [Hn|Hn].
  - rewrite Z.quot_div_nonneg by lia.
    apply Z.div_le_upper_bound; lia.
  - replace (QArith_base.Qnum (JS.value x))
      with (- - QArith_base.Qnum (JS.value x)) by lia.
    rewrite Z.quot_opp_l by lia.
    rewrite Z.quot_div_nonneg by lia.
    assert (- b ≤ - QArith_base.Qnum (JS.value x)
                  / Z.pos (QArith_base.Qden (JS.value x))); [|lia].
    apply Z.div_le_lower_bound; lia.
Qed.

End request_numbers.

(** The ids of the examples pass the cast to an ObjectId. *)
Example sample_ids_cast :
  forallb JS.isObjectId
    [Sample.runner; Sample.walker; Sample.buyer; Sample.visitor;
     Sample.manager] = true.
Proof. reflexivity. Qed.

(** ** Add to cart *)

Section add_to_cart.
Import CartRoutes Spec.

Lemma existing_line_Some (req : AddRequest) (s : Session.t) (i : nat)
    (e : CartItem.t) :
  existing_line req s = Some (i, e) ↔
  JS.findIndex (same_line (add_productId req) (add_size req) (add_color req))
               (cart_items s) = Some i
  ∧ cart_items s !! i = Some e.
Proof.
  unfold existing_line.
  destruct (JS.findIndex _ _) as [k|]; simpl.
  - destruct (cart_items s !! k) as [x|] eqn:Hk; simpl.
    + split; [intros [= <- <-]; done|].
      intros [[= <-] He]. rewrite Hk in He. congruence.
    + split; [done|]. intros [[= <-] He]. congruence.
  - split; [done|intros [? _]; done].
Qed.

Lemma existing_line_None (req : AddRequest) (s : Session.t) :
  existing_line req s = None ↔
  JS.findIndex (same_line (add_productId req) (add_size req) (add_color req))
               (cart_items s) = None.
Proof.
  unfold existing_line.
  destruct (JS.findIndex _ _) as [k|] eqn:Hk; simpl; [|done].
  apply findIndex_Some_lookup in Hk as (x & -> & _). done.
Qed.

(** The effect of [cart.items[i].quantity = q] on the list of lines. *)
Lemma alter_quantity_lines (items : list CartItem.t) (i : nat) (e : CartItem.t)
    (q : Z) :
  items !! i = Some e →
  length (alter (CartItem.set_quantity q) i items) = length items
  ∧ alter (CartItem.set_quantity q) i items !! i = Some (CartItem.set_quantity q e)
  ∧ ∀ j, j ≠ i → alter (CartItem.set_quantity q) i items !! j = items !! j.
Proof.
  intros Hi. split; [apply length_alter|]. split.
  - by rewrite list_lookup_alter_eq, Hi.
  - intros j Hj. by apply list_lookup_alter_ne.
Qed.

(** [cart.items[i].quantity = q], seen on the line itself. *)
Lemma alter_quantity_line (items : list CartItem.t) (i : nat) (e : CartItem.t)
    (q : Z) :
  items !! i = Some e →
  ∃ line, alter (CartItem.set_quantity q) i items !! i = Some line
    ∧ CartItem.quantity line = q
    ∧ same_but_quantity line e.
Proof.
  intros Hi. exists (CartItem.set_quantity q e).
  split; [by rewrite list_lookup_alter_eq, Hi|]. by destruct e.
Qed.

Lemma cart_items_set_cart (c : Cart.t) (s : Session.t) :
  cart_items (Session.set_cart (calculateTotals c) s) = Cart.items c.
Proof. done. Qed.

Lemma initCart_line (s : Session.t) (i : nat) (e : CartItem.t) :
  cart_items s !! i = Some e →
  ∃ c, Session.cart s = Some c ∧ initCart s = (s, c)
       ∧ Cart.items c = cart_items s.
Proof.
  unfold cart_items, initCart. destruct (Session.cart s) as [c|]; [|done].
  intros _. by exists c.
Qed.

Lemma initCart_items (s s1 : Session.t) (c : Cart.t) :
  initCart s = (s1, c) → cart_items s1 = cart_items s ∧ Cart.items c = cart_items s.
Proof.
  intros Hi. apply initCart_cart in Hi as (Hc & _ & Hitems & _).
  split; [|done]. unfold cart_items at 1. by rewrite Hc.
Qed.

(** Add-to-cart when the bucket holds fewer units than asked. *)
Lemma add_below (db : ProductDB) (req : AddRequest) (s : Session.t)
    (product : Product.t) (b : SizeStock.t) :
  db !! add_productId req = Some product →
  bucket_of (add_size req) product = Some b →
  below (SizeStock.stock b) (add_quantity req) →
  add db req s = (s, Reply.fail 400 SizeNotAvailable).
Proof.
  intros Hdb Hb Hq. unfold add. rewrite Hdb.
  unfold bucket_of in Hb. rewrite Hb.
  apply lt_num_below in Hq. by rewrite Hq.
Qed.

(** Add-to-cart with no line of the product, size and colour. *)
Lemma add_new_line (db : ProductDB) (req : AddRequest) (s : Session.t)
    (product : Product.t) (b : SizeStock.t) :
  db !! add_productId req = Some product →
  bucket_of (add_size req) product = Some b →
  ¬ below (SizeStock.stock b) (add_quantity req) →
  existing_line req s = None →
  cart_items (add db req s).1
  = cart_items s ++
      [CartItem.mk (add_productId req) (Product.name product)
         (Product.effectivePrice product) (add_size req)
         (JS.or_default (add_color req) "Default")
         (JS.parseInt (add_quantity req))
         (SizeStock.stock b)]
  ∧ Reply.success (add db req s).2 = true
  ∧ is_out_of_stock (add db req s).2 = false.
Proof.
  intros Hdb Hb Hq Hex. unfold add. rewrite Hdb.
  unfold bucket_of in Hb. rewrite Hb.
  apply lt_num_not_below in Hq. rewrite Hq.
  destruct (initCart s) as [s1 c] eqn:Hi.
  apply initCart_cart in Hi as (Hc1 & _ & Hitems & Hs).
  apply existing_line_None in Hex. cbn beta iota. rewrite Hitems, Hex. done.
Qed.

(** Add-to-cart on a line it finds. *)
Lemma add_existing_line (db : ProductDB) (req : AddRequest) (s : Session.t)
    (product : Product.t) (b : SizeStock.t) (i : nat) (e : CartItem.t) :
  db !! add_productId req = Some product →
  bucket_of (add_size req) product = Some b →
  ¬ below (SizeStock.stock b) (add_quantity req) →
  existing_line req s = Some (i, e) →
  let newQty := CartItem.quantity e + JS.parseInt (add_quantity req) in
  (SizeStock.stock b < newQty →
   add db req s
   = (s, Reply.fail 400 (OnlyInThisSize (SizeStock.stock b))))
  ∧ (newQty ≤ SizeStock.stock b →
     cart_items (add db req s).1
     = alter (CartItem.set_quantity newQty) i (cart_items s)
     ∧ Reply.success (add db req s).2 = true
     ∧ is_out_of_stock (add db req s).2 = false).
Proof.
  intros Hdb Hb Hq Hex newQty. unfold add. rewrite Hdb.
  unfold bucket_of in Hb. rewrite Hb.
  apply lt_num_not_below in Hq. rewrite Hq.
  apply existing_line_Some in Hex as [Hfind He].
  destruct (initCart_line s i e He) as (c & Hc & -> & Hitems).
  cbn beta iota. rewrite Hitems, Hfind, He. fold newQty. split.
  - intros Hlt. apply Z.ltb_lt in Hlt. by rewrite Hlt.
  - intros Hle. apply Z.ltb_ge in Hle. by rewrite Hle.
Qed.




(** X1: The match is on the colour as sent: a request without a colour is
    stored as ["Default"] and matches no line, not even its own. *)
Lemma add_without_colour_appends (db : ProductDB) (productId : string)
    (size : float) (quantity : JS.Number) (s : Session.t) (product : Product.t)
    (b : SizeStock.t) :
  db !! productId = Some product →
  bucket_of size product = Some b →
  ¬ below (SizeStock.stock b) quantity →
  cart_items (add db (mkAdd productId size None quantity) s).1
  = cart_items s ++
      [CartItem.mk productId (Product.name product)
         (Product.effectivePrice product) size "Default"
         (JS.parseInt quantity) (SizeStock.stock b)].
Proof.
  intros Hdb Hb Hq.
  destruct (add_new_line db (mkAdd productId size None quantity) s product b)
    as (Hl & _ & _); [done|done|done| |done].
  apply existing_line_None. simpl.
  destruct (JS.findIndex _ _) as [i|] eqn:Hi; [|done].
  apply findIndex_Some_lookup in Hi as (x & _ & Hx).
  unfold same_line in Hx. rewrite bool_decide_eq_false_2 in Hx by done.
  by rewrite andb_false_r in Hx.
Qed.

End add_to_cart.

(** ** Update and remove *)

Section update_remove.
Import CartRoutes Spec.

(** Update on the line it finds, for a number of zero or less. *)
Lemma update_removes (db : ProductDB) (req : UpdateRequest)
    (s : Session.t) (i : nat) (e : CartItem.t) :
  JS.findIndex (same_product_size (upd_productId req) (upd_size req))
               (cart_items s) = Some i →
  cart_items s !! i = Some e →
  at_most (upd_quantity req) 0 →
  Reply.success (update db req s).2 = true
  ∧ cart_items (update db req s).1 = delete i (cart_items s).
Proof.
  intros Hfind He Hq.
  destruct (initCart_line s i e He) as (c & Hc & Hi & Hitems).
  unfold update. rewrite Hi, Hitems, Hfind.
  apply num_le_at_most in Hq. rewrite Hq.
  split; [done|]. cbn [fst snd]. by rewrite cart_items_set_cart.
Qed.

(** Update on the line it finds, for a number above zero and a product
    and bucket that are stored. *)
Lemma update_checks_stock (db : ProductDB) (req : UpdateRequest)
    (s : Session.t) (i : nat) (e : CartItem.t) (product : Product.t)
    (b : SizeStock.t) :
  JS.findIndex (same_product_size (upd_productId req) (upd_size req))
               (cart_items s) = Some i →
  cart_items s !! i = Some e →
  ¬ at_most (upd_quantity req) 0 →
  db !! upd_productId req = Some product →
  bucket_of (upd_size req) product = Some b →
  let q := upd_quantity req in
  let r := update db req s in
  (below (SizeStock.stock b) q →
     is_out_of_stock r.2 = true ∧ r.1 = s)
  ∧ (¬ below (SizeStock.stock b) q →
     Reply.success r.2 = true
     ∧ length (cart_items r.1) = length (cart_items s)
     ∧ (∃ line, cart_items r.1 !! i = Some line
          ∧ CartItem.quantity line = JS.parseInt q
          ∧ (∀ n, is_integer q n → CartItem.quantity line = n)
          ∧ same_but_quantity line e)
     ∧ ∀ j, j ≠ i → cart_items r.1 !! j = cart_items s !! j).
Proof.
  intros Hfind He Hq Hdb Hb q r.
  destruct (initCart_line s i e He) as (c & Hc & Hi & Hitems).
  subst q r. unfold update. rewrite Hi, Hitems, Hfind.
  apply num_le_not_at_most in Hq. rewrite Hq.
  unfold bucket_of in Hb. rewrite Hdb, Hb.
  unfold JS.num_gt. split.
  - intros Hlt. apply lt_num_below in Hlt. by rewrite Hlt.
  - intros Hle. apply lt_num_not_below in Hle. rewrite Hle.
    split; [done|]. cbn [fst snd]. rewrite !cart_items_set_cart.
    cbn [Cart.items Cart.set_items].
    destruct (alter_quantity_lines (cart_items s) i e
                (JS.parseInt (upd_quantity req)) He)
      as (Hlen & _ & Hother).
    destruct (alter_quantity_line (cart_items s) i e
                (JS.parseInt (upd_quantity req)) He)
      as (line & Hline & Hquantity & Hsame).
    split; [done|]. split; [|done].
    exists line. split_and!; try done.
    intros n Hn. by rewrite Hquantity, (is_integer_parseInt _ _ Hn).
Qed.





(** What a lookup by product and size acts on when two lines answer to
    it: the first match is at or before the earlier line, so the later
    line is never the one found. *)
Lemma first_match_before (productId : string) (size : float)
    (items : list CartItem.t) (i : nat) (a : CartItem.t) :
  items !! i = Some a →
  same_product_size productId size a = true →
  ∃ k, JS.findIndex (same_product_size productId size) items = Some k
       ∧ (k ≤ i)%nat.
Proof. apply findIndex_is_Some. Qed.

(** C10: update and remove look a line up by product and size alone and
    act on the first match.  In a cart with two lines of the requested
    product and size, at positions [i < j], the line [k] they act on is
    a line of that product and size at or before [i].  Remove succeeds
    and deletes line [k].  Update with a number of zero or less succeeds
    and deletes line [k]; with a number above zero that the stored
    bucket covers it succeeds and sets the quantity of line [k], and of
    no other line, to the number cut to an integer; and an update that
    fails changes no line.  The later line [j] is never the one deleted
    or changed: it is still in the cart, as it was. *)
Theorem later_duplicate_never_targeted (productId : string) (size : float)
    (s : Session.t) (i j : nat) (a b : CartItem.t) :
  cart_items s !! i = Some a →
  cart_items s !! j = Some b →
  (i < j)%nat →
  same_product_size productId size a = true →
  same_product_size productId size b = true →
  ∃ k c,
    JS.findIndex (same_product_size productId size) (cart_items s) = Some k
    ∧ (k ≤ i)%nat
    ∧ cart_items s !! k = Some c
    ∧ same_product_size productId size c = true
    ∧ (Reply.success (remove productId size s).2 = true
       ∧ cart_items (remove productId size s).1 = delete k (cart_items s)
       ∧ cart_items (remove productId size s).1 !! (j - 1)%nat = Some b)
    ∧ ∀ db q,
        let r := update db (mkUpdate productId size q) s in
        (at_most q 0 →
           Reply.success r.2 = true
           ∧ cart_items r.1 = delete k (cart_items s)
           ∧ cart_items r.1 !! (j - 1)%nat = Some b)
        ∧ (¬ at_most q 0 →
           ∀ product bucket,
             db !! productId = Some product →
             bucket_of size product = Some bucket →
             ¬ below (SizeStock.stock bucket) q →
             Reply.success r.2 = true
             ∧ (∃ line, cart_items r.1 !! k = Some line
                  ∧ CartItem.quantity line = JS.parseInt q
                  ∧ same_but_quantity line c)
             ∧ (∀ m, m ≠ k → cart_items r.1 !! m = cart_items s !! m)
             ∧ cart_items r.1 !! j = Some b)
        ∧ (Reply.success r.2 = false → cart_items r.1 = cart_items s).
Proof.
  intros Ha Hb Hij Hpa Hpb.
  destruct (first_match_before _ _ _ _ _ Ha Hpa) as (k & Hk & Hki).
  destruct (findIndex_Some_lookup _ _ _ Hk) as (c & Hc & Hpc).
  exists k, c. split_and!; try done.
  - unfold remove. destruct (initCart_line s i a Ha) as (c0 & _ & -> & Hitems).
    by rewrite Hitems, Hk.
  - unfold remove. destruct (initCart_line s i a Ha) as (c0 & _ & -> & Hitems).
    rewrite Hitems, Hk. cbn [fst snd]. by rewrite cart_items_set_cart.
  - unfold remove. destruct (initCart_line s i a Ha) as (c0 & _ & -> & Hitems).
    rewrite Hitems, Hk. cbn [fst snd]. rewrite cart_items_set_cart.
    cbn [Cart.items Cart.set_items].
    rewrite list_lookup_delete_ge by lia.
    replace (S (j - 1)) with j by lia. done.
  - intros db q r.
    split_and!.
    + intros Hq.
      destruct (update_removes db (mkUpdate productId size q) s k c Hk Hc Hq)
        as [Hok Hl].
      fold r in Hok, Hl.
      split; [done|]. split; [done|]. rewrite Hl.
      rewrite list_lookup_delete_ge by lia.
      replace (S (j - 1)) with j by lia. done.
    + intros Hq product bucket Hdb Hbucket Hcovered.
      destruct (update_checks_stock db (mkUpdate productId size q) s k c
                  product bucket Hk Hc Hq Hdb Hbucket) as [_ Hdone].
      destruct (Hdone Hcovered)
        as (Hok & _ & (line & Hl & Hn & _ & Hsame) & Hother).
      fold r in Hok, Hl, Hother.
      split; [done|]. split; [by exists line|]. split; [done|].
      rewrite Hother by lia. done.
    + subst r. unfold update.
      destruct (initCart_line s i a Ha) as (c0 & _ & -> & Hitems).
      cbn [upd_productId upd_size upd_quantity]. rewrite Hitems, Hk.
      destruct (JS.num_le _ _); [done|].
      destruct (db !! _) as [product|]; [|done].
      destruct (JS.find _ _) as [bucket|]; [|done].
      destruct (JS.num_gt _ _); done.
Qed.

Lemma later_duplicate_never_targeted_witness :
  let db : ProductDB :=
    <[Sample.runner := Product.mk "Runner" 40 None [SizeStock.mk 9 5] 5 0]> ∅ in
  let s1 := (add db (mkAdd Sample.runner 9 (Some "red") (JS.whole 1 eq_refl))
               Session.fresh).1 in
  let s2 := (add db (mkAdd Sample.runner 9 (Some "blue") (JS.whole 2 eq_refl)) s1).1 in
  let r := update db (mkUpdate Sample.runner 9 (JS.whole 4 eq_refl)) s2 in
  (CartItem.color <$> cart_items s2, CartItem.quantity <$> cart_items s2)
  = (["red"; "blue"], [1; 2])
  ∧ CartItem.color <$> cart_items (remove Sample.runner 9 s2).1 = ["blue"]
  ∧ (CartItem.color <$> cart_items r.1, CartItem.quantity <$> cart_items r.1)
    = (["red"; "blue"], [4; 2])
  ∧ Reply.success r.2 = true
  ∧ cart_items r.1 !! 1%nat
    = Some (CartItem.mk Sample.runner "Runner" 40 9 "blue" 2 5).
Proof.
  intros db s1 s2 r.
  split; [reflexivity|]. split; [reflexivity|]. split; [reflexivity|].
  destruct (later_duplicate_never_targeted Sample.runner 9 s2 0 1
              (CartItem.mk Sample.runner "Runner" 40 9 "red" 1 5)
              (CartItem.mk Sample.runner "Runner" 40 9 "blue" 2 5)
              eq_refl eq_refl (le_n 1) eq_refl eq_refl)
    as (k & c & _ & _ & _ & _ & _ & Hupd).
  destruct (Hupd db (JS.whole 4 eq_refl)) as (_ & Hset & _).
  destruct (Hset) with (product := Product.mk "Runner" 40 None
                                     [SizeStock.mk 9 5] 5 0)
                       (bucket := SizeStock.mk 9 5)
    as (Hok & _ & _ & Hlater).
  - intros H. vm_compute in H. by apply H.
  - reflexivity.
  - reflexivity.
  - intros H. vm_compute in H. discriminate.
  - split; [exact Hok|exact Hlater].
Defined.

End update_remove.

(** ** The checkout loop *)

Section checkout_loop.
Import OrderRoutes Spec.

Lemma findIndex_imap {A} (p : A → bool) (f : nat → A → A) (l : list A) :
  (∀ j x, p (f j x) = p x) → JS.findIndex p (imap f l) = JS.findIndex p l.
Proof.
  revert f; induction l as [|x l IH]; intros f Hf; [done|].
  rewrite imap_cons. simpl. rewrite Hf, IH; [done|].
  intros j y. apply Hf.
Qed.

Lemma demand_app (k : string) (j : nat) (sizes : list SizeStock.t)
    (l1 l2 : list CartItem.t) :
  demand k j sizes (l1 ++ l2) = demand k j sizes l1 + demand k j sizes l2.
Proof. induction l1 as [|x l1 IH]; simpl; [done|]. rewrite IH. lia. Qed.

Lemma sold_app (k : string) (l1 l2 : list CartItem.t) :
  sold k (l1 ++ l2) = sold k l1 + sold k l2.
Proof. induction l1 as [|x l1 IH]; simpl; [done|]. rewrite IH. lia. Qed.

Lemma ordered_app (k : string) (l1 l2 : list CartItem.t) :
  ordered k (l1 ++ l2) = ordered k l1 || ordered k l2.
Proof. unfold ordered. apply existsb_app. Qed.

Lemma add_stock_0 (b : SizeStock.t) : SizeStock.add_stock (- 0) b = b.
Proof. destruct b as [sz st]. unfold SizeStock.add_stock; simpl. f_equal. lia. Qed.

Lemma taken_nil (k : string) (p : Product.t) : taken k [] p = p.
Proof.
  destruct p as [n pr sp sizes ts sc]. unfold taken; simpl. f_equal; [|lia].
  apply list_eq. intros i. rewrite list_lookup_imap.
  destruct (sizes !! i) as [b|]; simpl; [|done]. by rewrite add_stock_0.
Qed.

Lemma taken_sizes_index (k : string) (items : list CartItem.t) (p : Product.t)
    (size : float) :
  size_index size (Product.sizes (taken k items p))
  = size_index size (Product.sizes p).
Proof. unfold size_index, taken; simpl. by apply findIndex_imap. Qed.

(** A line of another product does not show in product [k]. *)
Lemma taken_other (k : string) (earlier : list CartItem.t) (item : CartItem.t)
    (p : Product.t) :
  CartItem.productId item ≠ k →
  taken k (earlier ++ [item]) p = taken k earlier p.
Proof.
  intros Hk. apply String.eqb_neq in Hk.
  unfold taken. rewrite ordered_app, sold_app. simpl.
  unfold ordered at 2. simpl. rewrite Hk. simpl.
  rewrite orb_false_r, !Z.add_0_r.
  assert (imap (λ j b, SizeStock.add_stock
                         (- demand k j (Product.sizes p) (earlier ++ [item])) b)
               (Product.sizes p)
          = imap (λ j b, SizeStock.add_stock
                           (- demand k j (Product.sizes p) earlier) b)
                 (Product.sizes p)) as ->; [|done].
  apply imap_ext. intros j b _. simpl.
  rewrite demand_app. simpl. unfold draws_on. rewrite Hk. simpl.
  f_equal. lia.
Qed.

(** Saving the product with the line's bucket reduced is serving one
    more line. *)
Lemma taken_served (earlier : list CartItem.t) (item : CartItem.t)
    (p0 : Product.t) (j : nat) :
  size_index (CartItem.size item) (Product.sizes p0) = Some j →
  let p := taken (CartItem.productId item) earlier p0 in
  Product.pre_save
    (Product.set_soldCount (Product.soldCount p + CartItem.quantity item)
       (Product.set_sizes
          (alter (SizeStock.add_stock (- CartItem.quantity item)) j
                 (Product.sizes p)) p))
  = taken (CartItem.productId item) (earlier ++ [item]) p0.
Proof.
  intros Hj p. remember (taken (CartItem.productId item) earlier p0) as p0'.
  assert (alter (SizeStock.add_stock (- CartItem.quantity item)) j
                (Product.sizes p)
          = Product.sizes (taken (CartItem.productId item) (earlier ++ [item]) p0))
    as Hsizes.
  { subst p p0'. unfold taken; simpl. apply list_eq. intros i.
    destruct (decide (j = i)) as [->|Hne].
    - rewrite list_lookup_alter_eq, !list_lookup_imap.
      destruct (Product.sizes p0 !! i) as [b|]; simpl; [|done].
      rewrite demand_app. simpl. unfold draws_on.
      rewrite String.eqb_refl, Hj. simpl.
      rewrite bool_decide_eq_true_2 by done.
      unfold SizeStock.add_stock; simpl. do 2 f_equal. lia.
    - rewrite list_lookup_alter_ne by done. rewrite !list_lookup_imap.
      destruct (Product.sizes p0 !! i) as [b|]; simpl; [|done].
      rewrite demand_app. simpl. unfold draws_on.
      rewrite String.eqb_refl, Hj. simpl.
      rewrite bool_decide_eq_false_2 by congruence.
      unfold SizeStock.add_stock; simpl. do 2 f_equal. lia. }
  assert (Product.name p = Product.name p0 ∧ Product.price p = Product.price p0
          ∧ Product.salePrice p = Product.salePrice p0
          ∧ Product.soldCount p
            = Product.soldCount p0 + sold (CartItem.productId item) earlier)
    as (Hn & Hpr & Hsp & Hsc) by (by subst p p0').
  clearbody p. clear Heqp0'.
  unfold Product.pre_save, Product.set_totalStock, Product.set_soldCount,
    Product.set_sizes.
  cbn [Product.name Product.price Product.salePrice Product.sizes
       Product.totalStock Product.soldCount].
  rewrite Hsizes, Hn, Hpr, Hsp, Hsc.
  unfold taken.
  rewrite ordered_app, sold_app.
  assert (ordered (CartItem.productId item) [item] = true) as ->
    by (unfold ordered; simpl; by rewrite String.eqb_refl).
  rewrite orb_true_r. simpl. rewrite String.eqb_refl.
  f_equal. lia.
Qed.

Lemma line_covered_inv (db : ProductDB) (earlier : list CartItem.t)
    (item : CartItem.t) :
  line_covered db earlier item = true →
  ∃ p j b, db !! CartItem.productId item = Some p
    ∧ size_index (CartItem.size item) (Product.sizes p) = Some j
    ∧ Product.sizes p !! j = Some b
    ∧ demand (CartItem.productId item) j (Product.sizes p) earlier
      + CartItem.quantity item ≤ SizeStock.stock b.
Proof.
  unfold line_covered.
  destruct (db !! CartItem.productId item) as [p|] eqn:Hp; [|done].
  destruct (size_index _ _) as [j|] eqn:Hj; [|done].
  destruct (Product.sizes p !! j) as [b|] eqn:Hb; [|done].
  intros H%Z.leb_le. exists p, j, b. done.
Qed.

(** The loop on covered lines runs to its end: every line is served and
    written to the order. *)
Lemma checkout_loop_covered (items : list CartItem.t) :
  ∀ (db0 : ProductDB) (earlier : list CartItem.t) (db : ProductDB)
    (acc : list OrderItem.t),
    (∀ k, db !! k = taken k earlier <$> db0 !! k) →
    covered_from db0 earlier items = true →
    ∃ db', checkout_loop db items acc
           = (db', inr (acc ++ (order_line db0 <$> items)))
      ∧ ∀ k, db' !! k = taken k (earlier ++ items) <$> db0 !! k.
Proof.
  induction items as [|item rest IH]; intros db0 earlier db acc Hdb Hcov.
  - exists db. simpl. rewrite !List.app_nil_r. done.
  - simpl in Hcov. apply andb_true_iff in Hcov as [Hline Hrest].
    apply line_covered_inv in Hline as (p0 & j & b0 & Hp0 & Hj & Hb0 & Hq).
    pose proof (Hdb (CartItem.productId item)) as Hp. rewrite Hp0 in Hp.
    simpl in Hp. cbn [checkout_loop]. rewrite Hp.
    fold (size_index (CartItem.size item)
            (Product.sizes (taken (CartItem.productId item) earlier p0))).
    rewrite taken_sizes_index, Hj.
    unfold taken at 1. cbn [Product.sizes].
    rewrite list_lookup_imap, Hb0. cbn [fmap option_fmap option_map].
    cbn [SizeStock.add_stock SizeStock.stock].
    assert ((SizeStock.stock b0
             + - demand (CartItem.productId item) j (Product.sizes p0) earlier
             <? CartItem.quantity item) = false) as ->
      by (apply Z.ltb_ge; lia).
    unfold product_save.
    pose proof (taken_served earlier item p0 j Hj) as Hserved.
    cbn zeta in Hserved. rewrite Hserved.
    destruct (IH db0 (earlier ++ [item])
                (<[CartItem.productId item :=
                     taken (CartItem.productId item) (earlier ++ [item]) p0]> db)
                (acc ++ [OrderItem.mk (CartItem.productId item) (Product.name p0)
                           (CartItem.price item) (CartItem.size item)
                           (CartItem.color item) (CartItem.quantity item)]))
      as (db' & Hloop & Hdb'); [|done|].
    { intros k. destruct (decide (CartItem.productId item = k)) as [<-|Hne].
      - by rewrite lookup_insert_eq, Hp0.
      - rewrite lookup_insert_ne by done. rewrite Hdb.
        destruct (db0 !! k) as [pk|]; simpl; [|done].
        by rewrite taken_other. }
    exists db'. split.
    + replace (Product.name (taken (CartItem.productId item) earlier p0))
        with (Product.name p0) by done.
      rewrite Hloop. rewrite <- List.app_assoc. simpl.
      unfold order_line at 2. rewrite Hp0. done.
    + intros k. rewrite Hdb'. by rewrite <- List.app_assoc.
Qed.

(** A line that fails the stock check ends the loop where it stands. *)
Lemma checkout_loop_uncovered (db0 : ProductDB) (earlier : list CartItem.t)
    (db : ProductDB) (item : CartItem.t) (rest : list CartItem.t)
    (acc : list OrderItem.t) :
  (∀ k, db !! k = taken k earlier <$> db0 !! k) →
  fails_revalidation db0 earlier item →
  checkout_loop db (item :: rest) acc
  = (db, inl (Reply.fail 400
                (NoLongerAvailable (CartItem.name item) (CartItem.size item)))).
Proof.
  intros Hdb (p0 & Hp0 & Hfail).
  pose proof (Hdb (CartItem.productId item)) as Hp. rewrite Hp0 in Hp.
  simpl in Hp. cbn [checkout_loop]. rewrite Hp.
  fold (size_index (CartItem.size item)
          (Product.sizes (taken (CartItem.productId item) earlier p0))).
  rewrite taken_sizes_index.
  destruct Hfail as [->|(j & b0 & -> & Hb0 & Hq)]; [done|].
  unfold taken at 1. cbn [Product.sizes].
  rewrite list_lookup_imap, Hb0. cbn [fmap option_fmap option_map].
  cbn [SizeStock.add_stock SizeStock.stock].
  assert ((SizeStock.stock b0
           + - demand (CartItem.productId item) j (Product.sizes p0) earlier
           <? CartItem.quantity item) = true) as ->
    by (apply Z.ltb_lt; lia).
  done.
Qed.

Lemma checkout_loop_app (l1 l2 : list CartItem.t) :
  ∀ (db : ProductDB) (acc : list OrderItem.t),
    checkout_loop db (l1 ++ l2) acc
    = match checkout_loop db l1 acc with
      | (db1, inr served) => checkout_loop db1 l2 served
      | (db1, inl reply) => (db1, inl reply)
      end.
Proof.
  induction l1 as [|item l1 IH]; intros db acc; [done|].
  cbn [app checkout_loop].
  destruct (db !! _) as [p|]; [|done].
  destruct (JS.findIndex _ _) as [j|]; [|done].
  destruct (_ !! j) as [b|]; [|done].
  destruct (_ <? _); [done|]. apply IH.
Qed.

Lemma taken_start (db : ProductDB) (k : string) :
  db !! k = taken k [] <$> db !! k.
Proof. destruct (db !! k) as [p|]; simpl; [|done]. by rewrite taken_nil. Qed.

End checkout_loop.

(** ** Checkout *)

Section checkout.
Import CartRoutes OrderRoutes Spec.

Lemma order_create_Some (now : Clock.t) (doc : Order.t)
    (orders orders' : list Order.t)
    (id : nat) (order : Order.t) :
  order_create now doc orders = Some (orders', id, order) →
  orders' = orders ++ [order] ∧ id = length orders
  ∧ order = Order.pre_save now (length orders) doc.
Proof.
  unfold order_create. destruct (Order.validate doc); [|done].
  destruct (bool_decide _); [done|]. by intros [= <- <- <-].
Qed.

(** Every early return of the loop is a failure reply. *)
Lemma checkout_loop_reply (items : list CartItem.t) :
  ∀ (db : ProductDB) (acc : list OrderItem.t) (db' : ProductDB)
    (reply : Reply.t Placed),
    checkout_loop db items acc = (db', inl reply) →
    Reply.success reply = false ∧ Reply.data reply = None.
Proof.
  induction items as [|it items IH]; intros db acc db' reply; simpl; [done|].
  destruct (db !! _) as [p|]; [|by intros [= <- <-]].
  destruct (JS.findIndex _ _) as [j|]; [|by intros [= <- <-]].
  destruct (_ !! j) as [b|]; [|by intros [= <- <-]].
  destruct (_ <? _); [by intros [= <- <-]|]. apply IH.
Qed.

Lemma checkout_data_success (now : Clock.t) (rq : Request.t)
    (req : CheckoutRequest)
    (st : Store.t) (s : Session.t) (placed : Placed) :
  Reply.data (checkout now rq req st s).2 = Some placed →
  Reply.success (checkout now rq req st s).2 = true.
Proof.
  unfold checkout, Auth.isAuthenticated.
  destruct (Session.user s); [|by destruct (Auth.is_api rq)].
  destruct (Session.cart s); [|done].
  destruct (Cart.items _); [done|].
  destruct (checkout_loop _ _ _) as [db' [reply|served]] eqn:Hloop.
  - apply checkout_loop_reply in Hloop as [_ Hd]. cbn [snd]. by rewrite Hd.
  - by destruct (order_create _ _ _) as [[[? ?] ?]|].
Qed.

(** A successful checkout, taken apart. *)
Lemma checkout_placed (now : Clock.t) (rq : Request.t) (req : CheckoutRequest)
    (st : Store.t)
    (s : Session.t) :
  Reply.success (checkout now rq req st s).2 = true →
  ∃ user cart db' served,
    Session.user s = Some user
    ∧ Session.cart s = Some cart
    ∧ checkout_loop (Store.products st) (Cart.items cart) [] = (db', inr served)
    ∧ let order :=
        Order.set_orderNumber
          (Order.generate_number now (length (Store.orders st)))
          (order_doc req user cart served) in
      checkout now rq req st s
      = (Store.mk db' (Store.orders st ++ [order]),
         Session.set_cart Cart.empty s,
         Reply.ok 201 OrderPlaced
           (mkPlaced (length (Store.orders st)) (Order.orderNumber order))).
Proof.
  unfold checkout, Auth.isAuthenticated.
  destruct (Session.user s) as [user|]; [|by destruct (Auth.is_api rq)].
  destruct (Session.cart s) as [cart|]; [|done].
  destruct (Cart.items cart) as [|item rest] eqn:Hitems; [done|].
  destruct (checkout_loop _ _ _) as [db' [reply|served]] eqn:Hloop.
  { apply checkout_loop_reply in Hloop as [Hs _]. cbn [snd]. by rewrite Hs. }
  fold (order_doc req user cart served).
  destruct (order_create _ _ _) as [[[orders' id] order]|] eqn:Hcreate; [|done].
  intros _. apply order_create_Some in Hcreate as (-> & -> & ->).
  exists user, cart, db', served.
  split; [done|]. split; [done|]. split; [by rewrite Hitems|]. done.
Qed.

Lemma order_line_quantity (db : ProductDB) (items : list CartItem.t) :
  (∀ item, item ∈ items → 1 ≤ CartItem.quantity item) →
  forallb (λ it, 1 <=? OrderItem.quantity it) (order_line db <$> items) = true.
Proof.
  intros H. apply forallb_forall. intros l Hl.
  apply list_elem_of_In, list_elem_of_fmap in Hl as (item & -> & Hitem).
  apply Z.leb_le. simpl. by apply H.
Qed.

(** Lines that no other line shares a bucket with are covered as soon as
    each of them is in stock on its own. *)
Lemma demand_none (k : string) (j : nat) (sizes : list SizeStock.t)
    (items : list CartItem.t) :
  (∀ a, a ∈ items → draws_on k j sizes a = false) →
  demand k j sizes items = 0.
Proof.
  induction items as [|a items IH]; intros H; simpl; [done|].
  rewrite (H a) by apply list_elem_of_here.
  rewrite IH; [done|]. intros b Hb. apply H. by apply list_elem_of_further.
Qed.

Lemma covered_from_disjoint (db : ProductDB) (items : list CartItem.t) :
  ∀ earlier,
    each_line_in_stock db items = true →
    (∀ n b p j, items !! n = Some b →
       db !! CartItem.productId b = Some p →
       size_index (CartItem.size b) (Product.sizes p) = Some j →
       ∀ a, a ∈ earlier ++ take n items →
            draws_on (CartItem.productId b) j (Product.sizes p) a = false) →
    covered_from db earlier items = true.
Proof.
  induction items as [|it items IH]; intros earlier Hall Hdis; [done|].
  cbn [each_line_in_stock forallb] in Hall.
  apply andb_true_iff in Hall as [Hit Hall].
  cbn [covered_from]. apply andb_true_iff. split.
  - apply line_covered_inv in Hit as (p & j & b & Hp & Hj & Hb & Hq).
    unfold line_covered. rewrite Hp, Hj, Hb.
    simpl in Hq. rewrite demand_none.
    + by apply Z.leb_le.
    + intros a Ha. apply (Hdis 0%nat it p j); [done|done|done|].
      by rewrite take_0, List.app_nil_r.
  - apply IH; [done|].
    intros n b p j Hn Hp Hj a Ha.
    apply (Hdis (S n) b p j); [done|done|done|].
    rewrite <- List.app_assoc in Ha. done.
Qed.

(** C1, as stated, fails: with 5 pairs of size 9 in stock, a cart with a
    red and a blue line of that shoe and size, 3 pairs each, has every
    line within the stock of its bucket; checkout serves the first line
    and refuses the second. *)
Lemma checkout_same_bucket_twice :
  ¬ (∀ now rq req st s user cart,
       Session.user s = Some user →
       Session.cart s = Some cart →
       Cart.items cart ≠ [] →
       each_line_in_stock (Store.products st) (Cart.items cart) = true →
       Reply.success (checkout now rq req st s).2 = true).
Proof.
  intros H.
  pose (db := (<[Sample.runner := Product.mk "Runner" 40 None [SizeStock.mk 9 5] 5 0]> ∅)
              : ProductDB).
  pose (s0 := Session.mk (Some (User.mk Sample.buyer "customer")) None None None).
  pose (s1 := (add db (mkAdd Sample.runner 9 (Some "red") (JS.whole 3 eq_refl)) s0).1).
  pose (s2 := (add db (mkAdd Sample.runner 9 (Some "blue") (JS.whole 3 eq_refl)) s1).1).
  specialize (H (Clock.mk 2024 4) (orders_route "/") (mkCheckout None None) (Store.mk db []) s2
                (User.mk Sample.buyer "customer")
                (Cart.mk (cart_items s2) 240 0 (240 * 0.08) (240 + 0 + 240 * 0.08))
                eq_refl eq_refl).
  vm_compute in H. by specialize (H ltac:(discriminate) eq_refl).
Qed.

(** C1 (amended): an authenticated checkout succeeds on a non-empty cart
    in which every line's product exists and its size bucket holds the
    line's quantity on top of the quantities of the earlier lines that
    draw on the same bucket, every quantity is at least 1, the payment
    method is absent or one of card, paypal, cod, and the generated order
    number is not in use.  Then every bucket's stock is decreased by
    exactly the quantities of the lines that draw on it, every product's
    soldCount is increased by the quantities of its lines, one order is
    created with status confirmed and a single status-history entry, and
    the session cart is reset to the empty cart with all totals zero. *)
Theorem checkout_success (now : Clock.t) (rq : Request.t)
    (req : CheckoutRequest) (st : Store.t)
    (s : Session.t) (user : User.t) (cart : Cart.t) :
  Session.user s = Some user →
  Session.cart s = Some cart →
  Cart.items cart ≠ [] →
  stock_covers (Store.products st) (Cart.items cart) = true →
  (∀ item, item ∈ Cart.items cart → 1 ≤ CartItem.quantity item) →
  default "card" (req_paymentMethod req) ∈ ["card"; "paypal"; "cod"] →
  Some (Order.generate_number now (length (Store.orders st)))
    ∉ Order.orderNumber <$> Store.orders st →
  ∃ db' order,
    checkout now rq req st s
    = (Store.mk db' (Store.orders st ++ [order]),
       Session.set_cart Cart.empty s,
       Reply.ok 201 OrderPlaced
         (mkPlaced (length (Store.orders st)) (Order.orderNumber order)))
    ∧ (∀ k, db' !! k = taken k (Cart.items cart) <$> Store.products st !! k)
    ∧ Order.items order = order_line (Store.products st) <$> Cart.items cart
    ∧ Order.status order = Confirmed
    ∧ length (Order.statusHistory order) = 1%nat
    ∧ Session.cart (Session.set_cart Cart.empty s)
      = Some (Cart.mk [] 0 0 0 0).
Proof.
  intros Hu Hc Hne Hcov Hq Hpay Hfresh.
  destruct (checkout_loop_covered (Cart.items cart) (Store.products st) []
              (Store.products st) [] (taken_start _) Hcov)
    as (db' & Hloop & Hdb').
  simpl in Hloop, Hdb'.
  exists db'.
  exists (Order.set_orderNumber
            (Order.generate_number now (length (Store.orders st)))
            (order_doc req user cart
               (order_line (Store.products st) <$> Cart.items cart))).
  split; [|by repeat split].
  unfold checkout, Auth.isAuthenticated. rewrite Hu, Hc.
  destruct (Cart.items cart) as [|item rest] eqn:Hitems; [done|].
  rewrite Hloop.
  fold (order_doc req user cart
          (order_line (Store.products st) <$> item :: rest)).
  unfold order_create, Order.validate. cbn [order_doc Order.items Order.paymentMethod].
  rewrite order_line_quantity by done.
  rewrite bool_decide_eq_true_2 by done. cbn [andb].
  unfold Order.pre_save, Order.lacks_number. cbn [Order.orderNumber].
  cbn [Order.set_orderNumber Order.orderNumber].
  rewrite bool_decide_eq_false_2 by done.
  done.
Qed.

Lemma checkout_success_witness :
  let db : ProductDB :=
    <[Sample.runner := Product.mk "Runner" 40 None [SizeStock.mk 9 5] 5 0]> ∅ in
  let s0 := Session.mk (Some (User.mk Sample.buyer "customer")) None None None in
  let s1 := (add db (mkAdd Sample.runner 9 (Some "red") (JS.whole 3 eq_refl)) s0).1 in
  let out := checkout (Clock.mk 2024 4) (orders_route "/") (mkCheckout None None)
               (Store.mk db []) s1 in
  Reply.status out.2 = 201%nat
  ∧ Store.products out.1.1 !! Sample.runner
    = Some (Product.mk "Runner" 40 None [SizeStock.mk 9 2] 2 3)
  ∧ Session.cart out.1.2 = Some Cart.empty.
Proof.
  intros db s0 s1 out.
  destruct (checkout_success (Clock.mk 2024 4) (orders_route "/") (mkCheckout None None)
              (Store.mk db []) s1 (User.mk Sample.buyer "customer")
              (Cart.mk (cart_items s1) 120 0 (120 * 0.08) (120 + 0 + 120 * 0.08)))
    as (db' & order & Heq & Hdb' & _).
  - reflexivity.
  - reflexivity.
  - discriminate.
  - reflexivity.
  - intros item Hitem. apply list_elem_of_singleton in Hitem as ->. by vm_compute.
  - simpl. apply list_elem_of_here.
  - simpl. apply not_elem_of_nil.
  - subst out. rewrite Heq. cbn [fst snd Store.products Reply.status Reply.ok].
    split; [reflexivity|]. split; [|reflexivity].
    rewrite Hdb'. reflexivity.
Defined.

(** C2: when the lines before a line all pass and that line, with its
    product still in the catalogue, fails the stock check (no bucket of
    its size, or fewer units left in it than the line asks), checkout
    answers 400 with the message that names the line's item and size,
    creates no order and leaves the session cart in place; the products
    are stored as the earlier lines left them, with their buckets
    reduced and their sold counts raised. *)
Theorem checkout_partial_failure (now : Clock.t) (rq : Request.t)
    (req : CheckoutRequest)
    (st : Store.t) (s : Session.t) (user : User.t) (cart : Cart.t)
    (earlier : list CartItem.t) (item : CartItem.t) (later : list CartItem.t) :
  Session.user s = Some user →
  Session.cart s = Some cart →
  Cart.items cart = earlier ++ item :: later →
  earlier ≠ [] →
  stock_covers (Store.products st) earlier = true →
  fails_revalidation (Store.products st) earlier item →
  ∃ db',
    checkout now rq req st s
    = (Store.mk db' (Store.orders st), s,
       Reply.fail 400
         (NoLongerAvailable (CartItem.name item) (CartItem.size item)))
    ∧ ∀ k, db' !! k = taken k earlier <$> Store.products st !! k.
Proof.
  intros Hu Hc Hitems _ Hcov Hfail.
  destruct (checkout_loop_covered earlier (Store.products st) []
              (Store.products st) [] (taken_start _) Hcov)
    as (db' & Hloop & Hdb').
  simpl in Hloop, Hdb'.
  exists db'. split; [|done].
  unfold checkout, Auth.isAuthenticated. rewrite Hu, Hc, Hitems.
  destruct (earlier ++ item :: later) as [|x l] eqn:Happ.
  { by destruct earlier. }
  rewrite <- Happ, checkout_loop_app, Hloop.
  by rewrite (checkout_loop_uncovered (Store.products st) earlier db').
Qed.

Lemma checkout_partial_failure_witness :
  let db : ProductDB :=
    <[Sample.runner := Product.mk "Runner" 40 None [SizeStock.mk 9 5] 5 0]> ∅ in
  let s0 := Session.mk (Some (User.mk Sample.buyer "customer")) None None None in
  let s1 := (add db (mkAdd Sample.runner 9 (Some "red") (JS.whole 3 eq_refl)) s0).1 in
  let s2 := (add db (mkAdd Sample.runner 9 (Some "blue") (JS.whole 3 eq_refl)) s1).1 in
  let out := checkout (Clock.mk 2024 4) (orders_route "/") (mkCheckout None None)
               (Store.mk db []) s2 in
  out.2 = Reply.fail 400 (NoLongerAvailable "Runner" 9)
  ∧ Store.orders out.1.1 = []
  ∧ Store.products out.1.1 !! Sample.runner
    = Some (Product.mk "Runner" 40 None [SizeStock.mk 9 2] 2 3).
Proof.
  intros db s0 s1 s2 out.
  destruct (checkout_partial_failure (Clock.mk 2024 4) (orders_route "/") (mkCheckout None None)
              (Store.mk db []) s2 (User.mk Sample.buyer "customer")
              (Cart.mk (cart_items s2) 240 0 (240 * 0.08) (240 + 0 + 240 * 0.08))
              [CartItem.mk Sample.runner "Runner" 40 9 "red" 3 5]
              (CartItem.mk Sample.runner "Runner" 40 9 "blue" 3 5) [])
    as (db' & Heq & Hdb').
  - reflexivity.
  - reflexivity.
  - reflexivity.
  - discriminate.
  - reflexivity.
  - exists (Product.mk "Runner" 40 None [SizeStock.mk 9 5] 5 0).
    split; [reflexivity|]. right.
    exists 0%nat, (SizeStock.mk 9 5).
    split; [reflexivity|]. split; [reflexivity|]. by vm_compute.
  - subst out. rewrite Heq. cbn [fst snd Store.products Store.orders].
    split; [reflexivity|]. split; [reflexivity|].
    rewrite Hdb'. reflexivity.
Defined.

End checkout.

(** ** Order amounts and order numbers *)

Section order_amounts.
Import CartRoutes OrderRoutes Spec.

Lemma shippingCost_tiers (method : option string) (subtotal : float) :
  shippingCost method subtotal = order_shipping method subtotal.
Proof.
  unfold shippingCost, order_shipping, flat_shipping, JS.geb.
  destruct method as [m|].
  - destruct (String.eqb_spec m "express") as [->|Hx].
    { by rewrite decide_True. }
    rewrite decide_False by congruence.
    destruct (String.eqb_spec m "overnight") as [->|Ho].
    { by rewrite decide_True. }
    by rewrite decide_False by congruence.
  - by rewrite !decide_False.
Qed.

(** C8: the order that a successful checkout stores carries the shipping
    cost of its method (19.99 express, 29.99 overnight, otherwise 0 from
    a cart subtotal of 100 on and 9.99 below) and the total
    subtotal + shipping cost + tax, with the cart's subtotal and tax; for
    a cart with subtotal 120 and tax 120 × 0.08 under standard shipping
    the cost is 0, the tax 9.6 and the total 129.6. *)
Theorem checkout_order_amounts (now : Clock.t) (rq : Request.t)
    (req : CheckoutRequest)
    (st : Store.t) (s : Session.t) :
  Reply.success (checkout now rq req st s).2 = true →
  ∃ cart placed order,
    Session.cart s = Some cart
    ∧ Reply.data (checkout now rq req st s).2 = Some placed
    ∧ Store.orders (checkout now rq req st s).1.1 !! orderId placed = Some order
    ∧ Order.shippingCost order
      = order_shipping (req_shippingMethod req) (Cart.subtotal cart)
    ∧ Order.subtotal order = Cart.subtotal cart
    ∧ Order.tax order = Cart.tax cart
    ∧ Order.total order
      = (Order.subtotal order + Order.shippingCost order + Order.tax order)%float
    ∧ (Cart.subtotal cart = 120%float →
       Cart.tax cart = (Cart.subtotal cart * 0.08)%float →
       req_shippingMethod req = None
       ∨ req_shippingMethod req = Some "standard" →
       Order.shippingCost order = 0%float
       ∧ Order.tax order = 9.6%float
       ∧ Order.total order = 129.6%float).
Proof.
  intros Hok.
  destruct (checkout_placed now rq req st s Hok)
    as (user & cart & db' & served & Hu & Hc & Hloop & Heq).
  cbn zeta in Heq. rewrite Heq. cbn [fst snd Store.orders Reply.data Reply.ok].
  eexists cart, _, _. split; [done|]. split; [done|].
  cbn [orderId]. split.
  { rewrite lookup_app_r by done. by rewrite Nat.sub_diag. }
  cbn [Order.set_orderNumber order_doc Order.shippingCost Order.subtotal
       Order.tax Order.total].
  rewrite shippingCost_tiers.
  do 4 (split; [done|]).
  intros Hsub Htax Hm. rewrite Htax, Hsub.
  destruct Hm as [-> | ->]; repeat split; reflexivity.
Qed.

Lemma checkout_order_amounts_witness :
  let db : ProductDB :=
    <[Sample.runner := Product.mk "Runner" 40 None [SizeStock.mk 9 5] 5 0]> ∅ in
  let s0 := Session.mk (Some (User.mk Sample.buyer "customer")) None None None in
  let s1 := (add db (mkAdd Sample.runner 9 (Some "red") (JS.whole 3 eq_refl)) s0).1 in
  let out := checkout (Clock.mk 2024 4) (orders_route "/") (mkCheckout None (Some "standard"))
               (Store.mk db []) s1 in
  ∃ order, Store.orders out.1.1 !! 0%nat = Some order
    ∧ Order.subtotal order = 120%float
    ∧ Order.shippingCost order = 0%float
    ∧ Order.tax order = 9.6%float
    ∧ Order.total order = 129.6%float.
Proof.
  intros db s0 s1 out.
  destruct (checkout_order_amounts (Clock.mk 2024 4) (orders_route "/")
              (mkCheckout None (Some "standard")) (Store.mk db []) s1 eq_refl)
    as (cart & placed & order & Hc & Hd & Ho & _ & Hsub & _ & _ & Hscen).
  injection Hc as <-. injection Hd as <-.
  exists order. split; [exact Ho|]. split; [exact Hsub|].
  apply Hscen; [reflexivity|reflexivity|by right].
Defined.

(** *** Decimal strings *)

Lemma decimal_String_of_nat (n : nat) : decimal (JS.String_of_nat n) = Some n.
Proof.
  unfold decimal, JS.String_of_nat.
  assert (Nat.to_uint n ≠ Decimal.Nil) as Hnil.
  { rewrite <- (DecimalNat.Unsigned.of_to n) at 1.
    rewrite DecimalNat.Unsigned.to_of. unfold Decimal.unorm.
    by destruct (Decimal.nzhead (Nat.to_uint n)). }
  rewrite NilZero.usu by done. simpl.
  by rewrite DecimalNat.Unsigned.of_to.
Qed.

Lemma String_of_nat_nonempty (n : nat) : JS.String_of_nat n ≠ EmptyString.
Proof.
  intros H. pose proof (decimal_String_of_nat n) as Hd.
  rewrite H in Hd. discriminate.
Qed.

Lemma repeat_length (c : ascii) (k : nat) : String.length (JS.repeat c k) = k.
Proof. induction k as [|k IH]; simpl; [done|]. by rewrite IH. Qed.

(** Leading zeros do not change the number written. *)
Lemma decimal_zeros (z : nat) (s : string) :
  s ≠ EmptyString → decimal (JS.repeat "0" z +:+ s) = decimal s.
Proof.
  intros Hs. induction z as [|z IH]; [done|].
  unfold decimal in *.
  change (JS.repeat "0" (S z) +:+ s) with (String "0" (JS.repeat "0" z +:+ s)).
  remember (JS.repeat "0" z +:+ s) as t.
  assert (t ≠ EmptyString) as Ht.
  { subst t. by destruct (JS.repeat "0" z), s. }
  rewrite <- IH.
  destruct t as [|c t]; [done|].
  cbn [NilZero.uint_of_string NilEmpty.uint_of_string].
  destruct (uint_of_char c (NilEmpty.uint_of_string t)) as [d|]; reflexivity.
Qed.

Lemma length_string_app (s t : string) :
  String.length (s +:+ t) = (String.length s + String.length t)%nat.
Proof. induction s as [|c s IH]; simpl; [done|]. by rewrite IH. Qed.

Lemma string_append_assoc (s t u : string) :
  (s +:+ t) +:+ u = s +:+ (t +:+ u).
Proof.
  induction s as [|c s IH]; [done|].
  change (String c ((s +:+ t) +:+ u) = String c (s +:+ t +:+ u)).
  by f_equal.
Qed.

Lemma padStart_spec (n : nat) (s : string) :
  s ≠ EmptyString →
  decimal (JS.padStart n "0" s) = decimal s
  ∧ String.length (JS.padStart n "0" s) = (n `max` String.length s)%nat
  ∧ JS.padStart n "0" s
    = JS.repeat "0" (n - String.length s) +:+ s.
Proof.
  intros Hs. unfold JS.padStart. split; [by apply decimal_zeros|].
  split; [|done]. rewrite length_string_app, repeat_length. lia.
Qed.

Lemma four_digit_years (y : nat) :
  (1000 ≤ y ≤ 9999)%nat → String.length (JS.String_of_nat y) = 4%nat.
Proof.
  intros Hy.
  assert (forallb (λ y, Nat.eqb (String.length (JS.String_of_nat y)) 4)
                  (seq 1000 9000) = true) as Hall by (vm_compute; reflexivity).
  rewrite forallb_forall in Hall.
  apply Nat.eqb_eq, Hall, in_seq.
  assert (9999 = 9 * 1000 + 999)%nat as E1 by reflexivity.
  assert (9000 = 9 * 1000)%nat as E2 by reflexivity.
  rewrite E1 in Hy. rewrite E2. lia.
Qed.

Lemma two_digit_months (m : nat) :
  (m ≤ 11)%nat →
  String.length (JS.padStart 2 "0" (JS.String_of_nat (m + 1))) = 2%nat.
Proof.
  intros Hm.
  assert (forallb (λ m, Nat.eqb (String.length
                                   (JS.padStart 2 "0" (JS.String_of_nat (m + 1)))) 2)
                  (seq 0 12) = true) as Hall by (vm_compute; reflexivity).
  rewrite forallb_forall in Hall.
  apply Nat.eqb_eq, Hall, in_seq. lia.
Qed.

(** C9: the number of a newly created order is ["ORD"] followed by the
    year in four digits, the month of the year in two digits with a
    leading zero below ten, and the count of the orders stored before
    plus one, padded with zeros to six digits at least. *)
Theorem order_number_format (now : Clock.t) (rq : Request.t)
    (req : CheckoutRequest)
    (st : Store.t) (s : Session.t) :
  Reply.success (checkout now rq req st s).2 = true →
  (1000 ≤ Clock.getFullYear now ≤ 9999)%nat →
  (Clock.getMonth now ≤ 11)%nat →
  ∃ placed order year month counter,
    Reply.data (checkout now rq req st s).2 = Some placed
    ∧ Store.orders (checkout now rq req st s).1.1 !! orderId placed = Some order
    ∧ orderNumber placed = Order.orderNumber order
    ∧ Order.orderNumber order = Some ("ORD" +:+ year +:+ month +:+ counter)
    ∧ String.length year = 4%nat
    ∧ decimal year = Some (Clock.getFullYear now)
    ∧ String.length month = 2%nat
    ∧ decimal month = Some (Clock.getMonth now + 1)%nat
    ∧ decimal counter = Some (length (Store.orders st) + 1)%nat
    ∧ (6 ≤ String.length counter)%nat
    ∧ ∃ zeros, counter
               = JS.repeat "0" zeros
                 +:+ JS.String_of_nat (length (Store.orders st) + 1).
Proof.
  intros Hok Hyear Hmonth.
  destruct (checkout_placed now rq req st s Hok)
    as (user & cart & db' & served & Hu & Hc & Hloop & Heq).
  cbn zeta in Heq. rewrite Heq. cbn [fst snd Store.orders Reply.data Reply.ok].
  eexists _, _,
    (JS.String_of_nat (Clock.getFullYear now)),
    (JS.padStart 2 "0" (JS.String_of_nat (Clock.getMonth now + 1))),
    (JS.padStart 6 "0" (JS.String_of_nat (length (Store.orders st) + 1))).
  split; [done|]. cbn [orderId]. split.
  { rewrite lookup_app_r by done. by rewrite Nat.sub_diag. }
  split; [done|].
  destruct (padStart_spec 2 _ (String_of_nat_nonempty (Clock.getMonth now + 1)))
    as (Hm1 & _ & _).
  destruct (padStart_spec 6 _
              (String_of_nat_nonempty (length (Store.orders st) + 1)))
    as (Hc1 & Hc2 & Hc3).
  split.
  { cbn [Order.set_orderNumber Order.orderNumber]. f_equal.
    unfold Order.generate_number.
    generalize (JS.String_of_nat (Clock.getFullYear now)).
    generalize (JS.padStart 2 "0" (JS.String_of_nat (Clock.getMonth now + 1))).
    generalize (JS.padStart 6 "0"
                  (JS.String_of_nat (length (Store.orders st) + 1))).
    intros c m y. by rewrite !string_append_assoc. }
  split; [by apply four_digit_years|].
  split; [apply decimal_String_of_nat|].
  split; [by apply two_digit_months|].
  split; [by rewrite Hm1, decimal_String_of_nat|].
  split; [by rewrite Hc1, decimal_String_of_nat|].
  split; [rewrite Hc2; lia|].
  eexists. exact Hc3.
Qed.

Lemma order_number_format_witness :
  let db : ProductDB :=
    <[Sample.runner := Product.mk "Runner" 40 None [SizeStock.mk 9 5] 5 0]> ∅ in
  let s0 := Session.mk (Some (User.mk Sample.buyer "customer")) None None None in
  let s1 := (add db (mkAdd Sample.runner 9 (Some "red") (JS.whole 3 eq_refl)) s0).1 in
  let out := checkout (Clock.mk 2024 4) (orders_route "/") (mkCheckout None None)
               (Store.mk db []) s1 in
  (orderNumber <$> Reply.data out.2) = Some (Some "ORD202405000001")
  ∧ ∃ year month counter,
      "ORD202405000001" = "ORD" +:+ year +:+ month +:+ counter
      ∧ decimal year = Some 2024%nat ∧ decimal month = Some 5%nat
      ∧ decimal counter = Some 1%nat.
Proof.
  intros db s0 s1 out. split; [reflexivity|].
  destruct (order_number_format (Clock.mk 2024 4) (orders_route "/") (mkCheckout None None)
              (Store.mk db []) s1 eq_refl)
    as (placed & order & year & month & counter & Hd & Ho & _ & Hn & _ & Hy
        & _ & Hm & Hc & _).
  - split; apply Nat.leb_le; reflexivity.
  - apply Nat.leb_le; reflexivity.
  - vm_compute in Hd. injection Hd as <-.
    vm_compute in Ho. injection Ho as <-.
    simpl in Hn. apply (inj Some) in Hn.
    exists year, month, counter. split; [exact Hn|].
    split; [exact Hy|]. split; [exact Hm|exact Hc].
Defined.

End order_amounts.

(** ** Cancellation *)

Section cancellation.
Import CartRoutes OrderRoutes Spec.

Lemma returned_size (k : string) (b b' : SizeStock.t)
    (lines : list OrderItem.t) :
  SizeStock.size b = SizeStock.size b' → returned k b lines = returned k b' lines.
Proof.
  intros Hs. induction lines as [|l lines IH]; simpl; [done|].
  by rewrite Hs, IH.
Qed.

Lemma restored_nil (k : string) (p : Product.t) : restored k [] p = p.
Proof.
  destruct p as [n pr sp sizes ts sc]. unfold restored; simpl. f_equal; [|lia].
  apply list_eq. intros i. rewrite list_lookup_fmap.
  destruct (sizes !! i) as [[sz st]|]; simpl; [|done].
  unfold SizeStock.add_stock; simpl. do 2 f_equal. lia.
Qed.

Lemma restored_cons (l : OrderItem.t) (lines : list OrderItem.t)
    (p : Product.t) :
  restored (OrderItem.product l) lines (restore_stock l p)
  = restored (OrderItem.product l) (l :: lines) p.
Proof.
  unfold restored, restore_stock; simpl. rewrite String.eqb_refl. simpl.
  f_equal; [|lia].
  rewrite <- list_fmap_compose. apply list_fmap_ext. intros i b _. simpl.
  destruct (PrimFloat.eqb (SizeStock.size b) (OrderItem.size l)).
  - rewrite (returned_size _ (SizeStock.add_stock (OrderItem.quantity l) b) b)
      by done.
    unfold SizeStock.add_stock; simpl. f_equal. lia.
  - done.
Qed.

Lemma restored_other (k : string) (l : OrderItem.t) (lines : list OrderItem.t)
    (p : Product.t) :
  OrderItem.product l ≠ k → restored k (l :: lines) p = restored k lines p.
Proof.
  intros Hk%String.eqb_neq. unfold restored; simpl. rewrite Hk. simpl.
  f_equal.
Qed.

(** The restore loop, product by product. *)
Lemma restore_loop_lookup (lines : list OrderItem.t) :
  ∀ (db : ProductDB) (k : string),
    restore_loop db lines !! k = restored k lines <$> db !! k.
Proof.
  induction lines as [|l lines IH]; intros db k.
  - simpl. destruct (db !! k) as [p|]; simpl; [|done]. by rewrite restored_nil.
  - unfold restore_loop in *. cbn [fold_left]. rewrite IH.
    destruct (decide (OrderItem.product l = k)) as [<-|Hne].
    + rewrite lookup_alter_eq.
      destruct (db !! OrderItem.product l) as [p|]; simpl; [|done].
      by rewrite restored_cons.
    + rewrite lookup_alter_ne by done.
      destruct (db !! k) as [p|]; simpl; [|done].
      by rewrite restored_other.
Qed.

(** What cancellation does to an order of the session's user. *)
Lemma cancel_effect (now : Clock.t) (rq : Request.t) (id : nat) (st : Store.t)
    (s : Session.t)
    (user : User.t) (order : Order.t) :
  Session.user s = Some user →
  Store.orders st !! id = Some order →
  Order.user order = User.id user →
  let out := cancel now rq id st s in
  (Reply.success out.2 = true ↔
   Order.status order = Pending ∨ Order.status order = Confirmed)
  ∧ (Reply.success out.2 = true →
     (∀ k, Store.products out.1.1 !! k
           = restored k (Order.items order) <$> Store.products st !! k)
     ∧ ∃ order',
         Store.orders out.1.1 !! id = Some order'
         ∧ Order.status order' = Cancelled
         ∧ Order.statusHistory order'
           = Order.statusHistory order
             ++ [HistoryEntry.mk Cancelled "Cancelled by customer"]
         ∧ Order.items order' = Order.items order
         ∧ ∀ j, j ≠ id → Store.orders out.1.1 !! j = Store.orders st !! j)
  ∧ (Reply.success out.2 = false →
     out.1 = (st, s) ∧ Reply.status out.2 = 400%nat).
Proof.
  intros Hu Ho Huser. unfold cancel, Auth.isAuthenticated.
  rewrite Hu, Ho, Huser, String.eqb_refl.
  cbn [negb].
  destruct (cancellable (Order.status order)) eqn:Hst; cbn [negb fst snd].
  - split; [|split].
    + split; [|done]. intros _.
      destruct (Order.status order); try done; auto.
    + intros _. split.
      * intros k. cbn [Store.products]. apply restore_loop_lookup.
      * cbn [Store.orders]. unfold order_save.
        eexists. split.
        { apply list_lookup_insert_eq. by eapply lookup_lt_Some. }
        split; [|split; [|split]].
        -- unfold Order.pre_save. by destruct (Order.lacks_number _).
        -- unfold Order.pre_save. by destruct (Order.lacks_number _).
        -- unfold Order.pre_save. by destruct (Order.lacks_number _).
        -- intros j Hj. by apply list_lookup_insert_ne.
    + done.
  - split; [|split].
    + split; [done|]. intros [H|H]; rewrite H in Hst; done.
    + done.
    + done.
Qed.

Lemma sold_unsold (db : ProductDB) (k : string) (items : list CartItem.t) :
  unsold k (order_line db <$> items) = sold k items.
Proof.
  induction items as [|it items IH]; [done|].
  rewrite fmap_cons. cbn [unsold sold]. by rewrite IH.
Qed.

(** With one bucket per size, what the order lines give back to a
    bucket is what the cart lines took from it. *)
Lemma returned_demand (db : ProductDB) (k : string) (p : Product.t)
    (j : nat) (b : SizeStock.t) (items : list CartItem.t) :
  db !! k = Some p →
  Product.sizes p !! j = Some b →
  single_bucket db items →
  returned k b (order_line db <$> items) = demand k j (Product.sizes p) items.
Proof.
  intros Hp Hb. induction items as [|it items IH]; intros Hsingle; [done|].
  rewrite fmap_cons. cbn [returned demand].
  rewrite IH.
  2:{ intros item p' j' b' Hin. apply Hsingle. by apply list_elem_of_further. }
  f_equal. unfold draws_on, order_line; simpl.
  destruct (String.eqb_spec (CartItem.productId it) k) as [Hk|Hk]; [|done].
  simpl.
  destruct (PrimFloat.eqb (SizeStock.size b) (CartItem.size it)) eqn:Heq.
  - rewrite bool_decide_eq_true_2; [done|].
    eapply Hsingle; [apply list_elem_of_here|by rewrite Hk|done|done].
  - rewrite bool_decide_eq_false_2; [done|].
    intros Hidx. apply findIndex_Some_lookup in Hidx as (b' & Hb' & Hmatch).
    rewrite Hb in Hb'. injection Hb' as <-. congruence.
Qed.

Lemma restored_taken (db : ProductDB) (k : string) (p : Product.t)
    (items : list CartItem.t) :
  db !! k = Some p →
  single_bucket db items →
  Product.sizes (restored k (order_line db <$> items) (taken k items p))
  = Product.sizes p
  ∧ Product.soldCount (restored k (order_line db <$> items) (taken k items p))
    = Product.soldCount p.
Proof.
  intros Hp Hsingle. unfold restored, taken; simpl. split.
  - apply list_eq. intros j.
    rewrite list_lookup_fmap, list_lookup_imap.
    destruct (Product.sizes p !! j) as [b|] eqn:Hb; simpl; [|done].
    rewrite (returned_size _ _ b) by done.
    rewrite (returned_demand db k p j b) by done.
    destruct b as [sz stk]. unfold SizeStock.add_stock; simpl.
    do 2 f_equal. lia.
  - rewrite sold_unsold. lia.
Qed.

(** A failed loop, for the converse of [checkout_loop_covered]. *)
Lemma checkout_loop_not_covered (items : list CartItem.t) :
  ∀ (db0 : ProductDB) (earlier : list CartItem.t) (db : ProductDB)
    (acc : list OrderItem.t),
    (∀ k, db !! k = taken k earlier <$> db0 !! k) →
    covered_from db0 earlier items = false →
    ∃ db' reply, checkout_loop db items acc = (db', inl reply).
Proof.
  induction items as [|item rest IH]; intros db0 earlier db acc Hdb Hcov;
    [done|].
  cbn [covered_from] in Hcov.
  destruct (line_covered db0 earlier item) eqn:Hline.
  - simpl in Hcov.
    assert (covered_from db0 earlier [item] = true) as Hone
      by (simpl; by rewrite Hline).
    destruct (checkout_loop_covered [item] db0 earlier db acc Hdb Hone)
      as (db1 & Hloop & Hdb1).
    change (item :: rest) with ([item] ++ rest).
    rewrite checkout_loop_app, Hloop.
    by apply (IH db0 (earlier ++ [item])).
  - clear Hcov IH. unfold line_covered in Hline.
    pose proof (Hdb (CartItem.productId item)) as Hp.
    cbn [checkout_loop].
    destruct (db0 !! CartItem.productId item) as [p0|] eqn:Hp0; simpl in Hp;
      rewrite Hp; [|eauto].
    fold (size_index (CartItem.size item)
            (Product.sizes (taken (CartItem.productId item) earlier p0))).
    rewrite taken_sizes_index.
    destruct (size_index _ _) as [j|]; [|eauto].
    unfold taken at 1. cbn [Product.sizes]. rewrite list_lookup_imap.
    destruct (Product.sizes p0 !! j) as [b0|]; simpl; [|eauto].
    apply Z.leb_gt in Hline.
    assert ((SizeStock.stock b0
             + - demand (CartItem.productId item) j (Product.sizes p0) earlier
             <? CartItem.quantity item) = true) as ->
      by (apply Z.ltb_lt; lia).
    eauto.
Qed.

(** The stores after a successful checkout. *)
Lemma checkout_placed_stock (now : Clock.t) (rq : Request.t)
    (req : CheckoutRequest)
    (st : Store.t) (s : Session.t) :
  Reply.success (checkout now rq req st s).2 = true →
  ∃ user order,
    Session.user s = Some user
    ∧ Reply.data (checkout now rq req st s).2
      = Some (mkPlaced (length (Store.orders st)) (Order.orderNumber order))
    ∧ Store.orders (checkout now rq req st s).1.1 = Store.orders st ++ [order]
    ∧ Session.user (checkout now rq req st s).1.2 = Some user
    ∧ Order.user order = User.id user
    ∧ Order.status order = Confirmed
    ∧ Order.items order = order_line (Store.products st) <$> cart_items s
    ∧ ∀ k, Store.products (checkout now rq req st s).1.1 !! k
           = taken k (cart_items s) <$> Store.products st !! k.
Proof.
  intros Hok.
  destruct (checkout_placed now rq req st s Hok)
    as (user & cart & db' & served & Hu & Hc & Hloop & Heq).
  cbn zeta in Heq. rewrite Heq. cbn [fst snd].
  unfold cart_items. rewrite Hc.
  destruct (covered_from (Store.products st) [] (Cart.items cart)) eqn:Hcov.
  - destruct (checkout_loop_covered (Cart.items cart) (Store.products st) []
                (Store.products st) [] (taken_start _) Hcov)
      as (db1 & Hloop1 & Hdb1).
    rewrite Hloop in Hloop1. injection Hloop1 as <- ->.
    eexists user, _. by repeat split.
  - destruct (checkout_loop_not_covered (Cart.items cart) (Store.products st) []
                (Store.products st) [] (taken_start _) Hcov)
      as (db1 & reply & Hloop1).
    rewrite Hloop in Hloop1. done.
Qed.

(** Cancelling the order that a checkout has just placed. *)
Lemma checkout_cancel_roundtrip (now now' : Clock.t) (rq rq' : Request.t)
    (req : CheckoutRequest)
    (st : Store.t) (s : Session.t) (placed : Placed) :
  Reply.data (checkout now rq req st s).2 = Some placed →
  single_bucket (Store.products st) (cart_items s) →
  let st1 := (checkout now rq req st s).1.1 in
  let s1 := (checkout now rq req st s).1.2 in
  Reply.success (cancel now' rq' (orderId placed) st1 s1).2 = true
  ∧ ∀ k p, Store.products st !! k = Some p →
      ∃ p', Store.products (cancel now' rq' (orderId placed) st1 s1).1.1 !! k = Some p'
        ∧ Product.sizes p' = Product.sizes p
        ∧ Product.soldCount p' = Product.soldCount p.
Proof.
  intros Hdata Hsingle st1 s1.
  assert (Reply.success (checkout now rq req st s).2 = true) as Hok.
  { by eapply checkout_data_success. }
  destruct (checkout_placed_stock now rq req st s Hok)
    as (user & order & Hu & Hd & Horders & Hu1 & Huser & Hst & Hitems & Hdb).
  rewrite Hd in Hdata. injection Hdata as <-. cbn [orderId].
  assert (Store.orders st1 !! length (Store.orders st) = Some order) as Ho.
  { subst st1. rewrite Horders, lookup_app_r by done.
    by rewrite Nat.sub_diag. }
  destruct (cancel_effect now' rq' (length (Store.orders st)) st1 s1 user order
              Hu1 Ho Huser) as (Hiff & Hsucc & _).
  cbn zeta in Hiff, Hsucc.
  assert (Reply.success (cancel now' rq' (length (Store.orders st)) st1 s1).2 = true)
    as Hcancel by (apply Hiff; by right).
  split; [done|]. intros k p Hp.
  destruct (Hsucc Hcancel) as (Hprod & _).
  exists (restored k (Order.items order) (taken k (cart_items s) p)).
  split.
  - rewrite Hprod. subst st1. rewrite Hdb, Hp. done.
  - rewrite Hitems. by apply restored_taken.
Qed.

End cancellation.

Section cancel_claims.
Import CartRoutes OrderRoutes Spec.

(** C4 on a product that lists one size in two buckets: the admin
    inventory route stores size 9 twice, with 5 and 2 pairs.  Checkout
    of 3 pairs takes them from the first bucket of the size; cancelling
    the order adds 3 pairs to every bucket of the size, so the stock
    does not return to its level before the order: 5 and 2 pairs have
    become 5 and 5. *)
Theorem cancel_duplicate_buckets :
  let db0 : ProductDB :=
    <[Sample.runner := Product.mk "Runner" 40 None [SizeStock.mk 9 5] 5 0]> ∅ in
  let admin := Session.mk (Some (User.mk Sample.manager "admin")) None None None in
  let stocked :=
    AdminRoutes.inventory_update (admin_route "/inventory/p1") Sample.runner
      [SizeStock.mk 9 5; SizeStock.mk 9 2] db0 admin in
  let db := stocked.1.1 in
  let s0 := Session.mk (Some (User.mk Sample.buyer "customer")) None None None in
  let s1 := (add db (mkAdd Sample.runner 9 (Some "red") (JS.whole 3 eq_refl)) s0).1 in
  let out := checkout (Clock.mk 2024 4) (orders_route "/")
               (mkCheckout None None) (Store.mk db []) s1 in
  let back := cancel (Clock.mk 2024 4) (orders_route "/0/cancel") 0
                out.1.1 out.1.2 in
  Reply.success stocked.2 = true
  ∧ Product.sizes <$> db !! Sample.runner = Some [SizeStock.mk 9 5; SizeStock.mk 9 2]
  ∧ Reply.success out.2 = true
  ∧ Product.sizes <$> Store.products out.1.1 !! Sample.runner
    = Some [SizeStock.mk 9 2; SizeStock.mk 9 2]
  ∧ Reply.success back.2 = true
  ∧ Order.status <$> Store.orders back.1.1 !! 0%nat = Some Cancelled
  ∧ Product.sizes <$> Store.products back.1.1 !! Sample.runner
    = Some [SizeStock.mk 9 5; SizeStock.mk 9 5]
  ∧ Product.sizes <$> Store.products back.1.1 !! Sample.runner
    ≠ Product.sizes <$> db !! Sample.runner.
Proof.
  intros db0 admin stocked db s0 s1 out back.
  split; [reflexivity|]. split; [reflexivity|]. split; [reflexivity|].
  split; [reflexivity|]. split; [reflexivity|]. split; [reflexivity|].
  split; [reflexivity|]. vm_compute. discriminate.
Qed.

(** What cancellation does for the order's owner: it succeeds if and
    only if the order is pending or confirmed.  On success every bucket
    of a line's product whose size is the line's size receives the
    line's quantity, the product's soldCount goes down by it, the order
    becomes cancelled and gets one more status-history entry; otherwise
    the reply is 400 and the stores are unchanged.  For an order that
    checkout has just placed, and with every ordered size naming a
    single bucket of its product, cancellation brings the stock of every
    bucket and the soldCount back to their values before the order. *)
Lemma cancel_order :
  (∀ now rq id st s user order,
     Session.user s = Some user →
     Store.orders st !! id = Some order →
     Order.user order = User.id user →
     let out := cancel now rq id st s in
     (Reply.success out.2 = true ↔
      Order.status order = Pending ∨ Order.status order = Confirmed)
     ∧ (Reply.success out.2 = true →
        (∀ k, Store.products out.1.1 !! k
              = restored k (Order.items order) <$> Store.products st !! k)
        ∧ ∃ order',
            Store.orders out.1.1 !! id = Some order'
            ∧ Order.status order' = Cancelled
            ∧ Order.statusHistory order'
              = Order.statusHistory order
                ++ [HistoryEntry.mk Cancelled "Cancelled by customer"]
            ∧ Order.items order' = Order.items order
            ∧ ∀ j, j ≠ id → Store.orders out.1.1 !! j = Store.orders st !! j)
     ∧ (Reply.success out.2 = false →
        out.1 = (st, s) ∧ Reply.status out.2 = 400%nat))
  ∧ (∀ now now' rq rq' req st s placed,
       Reply.data (checkout now rq req st s).2 = Some placed →
       single_bucket (Store.products st) (cart_items s) →
       let st1 := (checkout now rq req st s).1.1 in
       let s1 := (checkout now rq req st s).1.2 in
       Reply.success (cancel now' rq' (orderId placed) st1 s1).2 = true
       ∧ ∀ k p, Store.products st !! k = Some p →
           ∃ p', Store.products (cancel now' rq' (orderId placed) st1 s1).1.1 !! k
                 = Some p'
             ∧ Product.sizes p' = Product.sizes p
             ∧ Product.soldCount p' = Product.soldCount p).
Proof.
  split.
  - intros. by eapply cancel_effect.
  - intros. by apply checkout_cancel_roundtrip.
Qed.

Lemma cancel_order_witness :
  let p := Product.mk "Runner" 40 None [SizeStock.mk 9 5; SizeStock.mk 10 4] 9 0 in
  let db : ProductDB := <[Sample.runner := p]> ∅ in
  let s0 := Session.mk (Some (User.mk Sample.buyer "customer")) None None None in
  let s1 := (add db (mkAdd Sample.runner 9 (Some "red") (JS.whole 3 eq_refl)) s0).1 in
  let out := checkout (Clock.mk 2024 4) (orders_route "/") (mkCheckout None None)
               (Store.mk db []) s1 in
  let back := cancel (Clock.mk 2024 5) (orders_route "/0/cancel") 0 out.1.1 out.1.2 in
  Product.sizes <$> Store.products out.1.1 !! Sample.runner
  = Some [SizeStock.mk 9 2; SizeStock.mk 10 4]
  ∧ Reply.success back.2 = true
  ∧ ∃ p', Store.products back.1.1 !! Sample.runner = Some p'
      ∧ Product.sizes p' = [SizeStock.mk 9 5; SizeStock.mk 10 4]
      ∧ Product.soldCount p' = 0.
Proof.
  intros p db s0 s1 out back.
  split; [reflexivity|].
  destruct (proj2 cancel_order (Clock.mk 2024 4) (Clock.mk 2024 5)
              (orders_route "/") (orders_route "/0/cancel")
              (mkCheckout None None) (Store.mk db []) s1
              (mkPlaced 0 (Some "ORD202405000001")) eq_refl) as (Hok & Hback).
  - intros item p0 j b Hitem Hp0 Hb Heq.
    apply list_elem_of_singleton in Hitem as ->.
    injection Hp0 as <-.
    destruct j as [|[|j]]; simpl in Hb; [reflexivity| |discriminate].
    injection Hb as <-. vm_compute in Heq. discriminate.
  - split; [exact Hok|]. exact (Hback Sample.runner p eq_refl).
Defined.

End cancel_claims.

(** ** The total-stock invariant *)

Section total_stock.
Import CartRoutes OrderRoutes AdminRoutes Spec.

Lemma fold_left_stock (bs : list SizeStock.t) (acc : Z) :
  fold_left (λ sum s, sum + SizeStock.stock s) bs acc
  = acc + foldr (λ b acc, SizeStock.stock b + acc) 0 bs.
Proof.
  revert acc; induction bs as [|b bs IH]; intros acc; simpl; [lia|].
  rewrite IH. lia.
Qed.

Lemma sum_stock_foldr (bs : list SizeStock.t) :
  Product.sum_stock bs = foldr (λ b acc, SizeStock.stock b + acc) 0 bs.
Proof. unfold Product.sum_stock. by rewrite fold_left_stock. Qed.

(** Every save leaves the total equal to the sum of the buckets. *)
Lemma product_save_total_matches (id : string) (p : Product.t)
    (db : ProductDB) :
  ∃ p', product_save id p db !! id = Some p'
    ∧ Product.sizes p' = Product.sizes p
    ∧ total_matches p'.
Proof.
  eexists. split; [apply lookup_insert_eq|]. split; [done|].
  unfold total_matches; simpl. apply sum_stock_foldr.
Qed.

Lemma inventory_update_total_matches (rq : Request.t) (id : string)
    (sizes : list SizeStock.t) (db : ProductDB) (s : Session.t) :
  Reply.success (inventory_update rq id sizes db s).2 = true →
  ∃ p', (inventory_update rq id sizes db s).1.1 !! id = Some p'
    ∧ Product.sizes p' = sizes
    ∧ total_matches p'.
Proof.
  unfold inventory_update, Auth.isAdmin.
  destruct (Session.user s) as [u|]; [|by destruct (Auth.is_api rq)].
  destruct (negb _); [by destruct (Auth.is_api rq)|].
  destruct (db !! id) as [p|]; [|by destruct (JS.isObjectId id)].
  destruct (forallb _ _); [|done]. intros _.
  apply (product_save_total_matches id (Product.set_sizes sizes p) db).
Qed.

Lemma demand_not_ordered (k : string) (j : nat) (sizes : list SizeStock.t)
    (items : list CartItem.t) :
  ordered k items = false → demand k j sizes items = 0 ∧ sold k items = 0.
Proof.
  unfold ordered. induction items as [|it items IH]; simpl; [done|].
  intros [Hk Hrest]%orb_false_iff. unfold draws_on. rewrite Hk. simpl.
  by apply IH.
Qed.

Lemma taken_not_ordered (k : string) (items : list CartItem.t) (p : Product.t) :
  ordered k items = false → taken k items p = p.
Proof.
  intros Hk. rewrite <- (taken_nil k p) at 2. unfold taken. rewrite Hk. simpl.
  rewrite (proj2 (demand_not_ordered k 0 [] items Hk)).
  f_equal. apply imap_ext. intros j b _. simpl.
  by rewrite (proj1 (demand_not_ordered k j (Product.sizes p) items Hk)).
Qed.

Lemma taken_total_matches (k : string) (items : list CartItem.t)
    (p : Product.t) :
  total_matches p → total_matches (taken k items p).
Proof.
  intros Hp. destruct (ordered k items) eqn:Hk.
  - unfold total_matches, taken. rewrite Hk. simpl. apply sum_stock_foldr.
  - by rewrite taken_not_ordered.
Qed.

(** Checkout keeps the invariant: the products it serves are saved, the
    others are not touched. *)
Lemma checkout_total_matches (now : Clock.t) (rq : Request.t)
    (req : CheckoutRequest)
    (st : Store.t) (s : Session.t) :
  Reply.success (checkout now rq req st s).2 = true →
  (∀ k p, Store.products st !! k = Some p → total_matches p) →
  ∀ k p', Store.products (checkout now rq req st s).1.1 !! k = Some p' →
          total_matches p'.
Proof.
  intros Hok Hinv k p' Hp'.
  destruct (checkout_placed_stock now rq req st s Hok)
    as (user & order & _ & _ & _ & _ & _ & _ & _ & Hdb).
  rewrite Hdb in Hp'.
  destruct (Store.products st !! k) as [p|] eqn:Hp; [|done].
  injection Hp' as <-. apply taken_total_matches. by eapply Hinv.
Qed.

(** C3 on the cancellation route: one product with 5 pairs of size 9
    and a total of 5.  An order of 3 pairs leaves 2 pairs and a total of
    2; cancelling it puts the bucket back to 5 and leaves the total at
    2, so the total no longer is the sum of the buckets. *)
Theorem cancel_leaves_total_stale :
  let p := Product.mk "Runner" 40 None [SizeStock.mk 9 5] 5 0 in
  let db : ProductDB := <[Sample.runner := p]> ∅ in
  let s0 := Session.mk (Some (User.mk Sample.buyer "customer")) None None None in
  let s1 := (add db (mkAdd Sample.runner 9 (Some "red") (JS.whole 3 eq_refl)) s0).1 in
  let out := checkout (Clock.mk 2024 4) (orders_route "/") (mkCheckout None None)
               (Store.mk db []) s1 in
  let back := cancel (Clock.mk 2024 4) (orders_route "/0/cancel") 0 out.1.1 out.1.2 in
  total_matches p
  ∧ Store.products out.1.1 !! Sample.runner
    = Some (Product.mk "Runner" 40 None [SizeStock.mk 9 2] 2 3)
  ∧ Reply.success back.2 = true
  ∧ Store.products back.1.1 !! Sample.runner
    = Some (Product.mk "Runner" 40 None [SizeStock.mk 9 5] 2 0)
  ∧ ¬ total_matches (Product.mk "Runner" 40 None [SizeStock.mk 9 5] 2 0).
Proof.
  intros p db s0 s1 out back.
  split; [reflexivity|]. split; [reflexivity|]. split; [reflexivity|].
  split; [reflexivity|]. unfold total_matches. simpl. lia.
Qed.

End total_stock.

(** * Further properties *)

(** ** The cart between operations *)

Section cart_more.
Import CartRoutes CartViews Spec Extra.




(** What add-to-cart does to the lines, by its answer. *)
Lemma add_lines (db : ProductDB) (req : AddRequest) (s : Session.t) :
  if Reply.success (add db req s).2 then
    ∃ product b,
      db !! add_productId req = Some product
      ∧ bucket_of (add_size req) product = Some b
      ∧ ¬ below (SizeStock.stock b) (add_quantity req)
      ∧ match existing_line req s with
        | Some (i, e) =>
            CartItem.quantity e + JS.parseInt (add_quantity req)
            ≤ SizeStock.stock b
            ∧ cart_items (add db req s).1
              = alter (CartItem.set_quantity
                         (CartItem.quantity e + JS.parseInt (add_quantity req)))
                      i (cart_items s)
        | None =>
            cart_items (add db req s).1
            = cart_items s ++
                [CartItem.mk (add_productId req) (Product.name product)
                   (Product.effectivePrice product) (add_size req)
                   (JS.or_default (add_color req) "Default")
                   (JS.parseInt (add_quantity req)) (SizeStock.stock b)]
        end
  else cart_items (add db req s).1 = cart_items s.
Proof.
  destruct (db !! add_productId req) as [product|] eqn:Hdb;
    [|by unfold add; rewrite Hdb; destruct (JS.isObjectId _)].
  destruct (bucket_of (add_size req) product) as [b|] eqn:Hb;
    [|by unfold add, bucket_of in *; rewrite Hdb, Hb].
  destruct (JS.lt_num (SizeStock.stock b) (add_quantity req)) eqn:Hq.
  { apply lt_num_below in Hq.
    by rewrite (add_below db req s product b Hdb Hb Hq). }
  apply lt_num_not_below in Hq.
  destruct (existing_line req s) as [[i e]|] eqn:Hex.
  - destruct (add_existing_line db req s product b i e Hdb Hb Hq Hex)
      as [Hover Hfits].
    destruct (Z.le_gt_cases (CartItem.quantity e + JS.parseInt (add_quantity req))
                (SizeStock.stock b)) as [Hsum|Hsum].
    + destruct (Hfits Hsum) as (Hl & -> & _). by exists product, b.
    + by rewrite (Hover Hsum).
  - destruct (add_new_line db req s product b Hdb Hb Hq Hex) as (Hl & -> & _).
    by exists product, b.
Qed.

(** What update does to the lines, by its answer. *)
Lemma update_lines (db : ProductDB) (req : UpdateRequest) (s : Session.t) :
  if Reply.success (update db req s).2 then
    ∃ i e,
      JS.findIndex (same_product_size (upd_productId req) (upd_size req))
                   (cart_items s) = Some i
      ∧ cart_items s !! i = Some e
      ∧ cart_items (update db req s).1
        = if JS.num_le (upd_quantity req) 0 then delete i (cart_items s)
          else alter (CartItem.set_quantity (JS.parseInt (upd_quantity req)))
                     i (cart_items s)
  else cart_items (update db req s).1 = cart_items s.
Proof.
  unfold update. destruct (initCart s) as [s1 c] eqn:Hi.
  apply initCart_items in Hi as [Hs1 Hitems]. rewrite Hitems.
  destruct (JS.findIndex _ _) as [i|] eqn:Hfind; [|done].
  destruct (findIndex_Some_lookup _ _ _ Hfind) as (e & He & _).
  destruct (JS.num_le (upd_quantity req) 0); [by exists i, e|].
  destruct (db !! _) as [product|]; [|done].
  destruct (JS.find _ _) as [b|]; [|done].
  destruct (JS.num_gt _ _); [done|]. by exists i, e.
Qed.

(** What remove does to the lines, by its answer. *)
Lemma remove_lines (productId : string) (size : float) (s : Session.t) :
  if Reply.success (remove productId size s).2 then
    ∃ i e,
      JS.findIndex (same_product_size productId size) (cart_items s) = Some i
      ∧ cart_items s !! i = Some e
      ∧ cart_items (remove productId size s).1 = delete i (cart_items s)
  else cart_items (remove productId size s).1 = cart_items s.
Proof.
  unfold remove. destruct (initCart s) as [s1 c] eqn:Hi.
  apply initCart_items in Hi as [Hs1 Hitems]. rewrite Hitems.
  destruct (JS.findIndex _ _) as [i|] eqn:Hfind; [|done].
  destruct (findIndex_Some_lookup _ _ _ Hfind) as (e & He & _).
  by exists i, e.
Qed.



(** X3: A cart request that is answered with a failure leaves the lines of
    the cart as they were, whatever the operation. *)
Theorem refused_request_keeps_lines (op : CartOp) (s : Session.t) :
  Reply.success (run op s).2 = false →
  cart_items (run op s).1 = cart_items s.
Proof.
  destruct op as [db req|db req|pid size|]; simpl.
  - pose proof (add_lines db req s) as H. intros Hf. by rewrite Hf in H.
  - pose proof (update_lines db req s) as H. intros Hf. by rewrite Hf in H.
  - pose proof (remove_lines pid size s) as H. intros Hf. by rewrite Hf in H.
  - done.
Qed.

Lemma refused_request_keeps_lines_witness :
  let db : ProductDB :=
    <[Sample.runner := Product.mk "Runner" 40 None [SizeStock.mk 9 5] 5 0]> ∅ in
  let s := (add db (mkAdd Sample.runner 9 (Some "red") (JS.whole 2 eq_refl)) Session.fresh).1 in
  cart_items (run (Update db (mkUpdate Sample.runner 9 (JS.whole 6 eq_refl))) s).1 = cart_items s.
Proof.
  intros db s.
  apply (refused_request_keeps_lines (Update db (mkUpdate Sample.runner 9 (JS.whole 6 eq_refl))) s).
  reflexivity.
Defined.

(** X4: An update to a quantity of zero or less is a removal: it leaves the
    same session and cart as the remove route, and does so without
    consulting the catalogue. *)
Theorem update_nonpositive_removes (db : ProductDB) (req : UpdateRequest)
    (s : Session.t) :
  at_most (upd_quantity req) 0 →
  (update db req s).1 = (remove (upd_productId req) (upd_size req) s).1
  ∧ Reply.status (update db req s).2
    = Reply.status (remove (upd_productId req) (upd_size req) s).2
  ∧ Reply.data (update db req s).2
    = Reply.data (remove (upd_productId req) (upd_size req) s).2.
Proof.
  intros Hq. apply num_le_at_most in Hq. unfold update, remove.
  destruct (initCart s) as [s1 c].
  destruct (JS.findIndex _ _) as [i|]; [|done].
  by rewrite Hq.
Qed.

Lemma update_nonpositive_removes_witness :
  let db : ProductDB :=
    <[Sample.runner := Product.mk "Runner" 40 None [SizeStock.mk 9 5] 5 0]> ∅ in
  let s := (add db (mkAdd Sample.runner 9 (Some "red") (JS.whole 2 eq_refl)) Session.fresh).1 in
  cart_items (update ∅ (mkUpdate Sample.runner 9 (JS.whole (-3) eq_refl)) s).1 = []
  ∧ (update ∅ (mkUpdate Sample.runner 9 (JS.whole (-3) eq_refl)) s).1 = (remove Sample.runner 9 s).1.
Proof.
  intros db s. split; [reflexivity|].
  apply (update_nonpositive_removes ∅ (mkUpdate Sample.runner 9 (JS.whole (-3) eq_refl)) s).
  by vm_compute.
Defined.

(** X5: As long as every add asks for one unit at least, and every update
    for one unit at least or for none (zero or less), every line of the
    cart holds one unit at least.  The condition on updates is needed: an
    update to half a unit is accepted and leaves a line of no unit. *)
Theorem lines_hold_units (s : Session.t) :
  reachable_by asks_units s →
  Forall (λ item, 1 ≤ CartItem.quantity item) (cart_items s).
Proof.
  induction 1 as [user returnTo error|op s Hop _ IH]; [by constructor|].
  destruct op as [db req|db req|pid size|]; simpl in *.
  - pose proof (add_lines db req s) as H.
    destruct (Reply.success _); [|by rewrite H].
    destruct H as (product & b & _ & _ & _ & H).
    apply at_least_parseInt in Hop; [|done].
    destruct (existing_line req s) as [[i e]|] eqn:Hex.
    + destruct H as [_ ->]. apply existing_line_Some in Hex as [_ He].
      apply Forall_alter; [done|]. intros x Hx Hq. simpl.
      rewrite He in Hx. injection Hx as <-. lia.
    + rewrite H. apply Forall_app. split; [done|].
      constructor; [done|constructor].
  - pose proof (update_lines db req s) as H.
    destruct (Reply.success _); [|by rewrite H].
    destruct H as (i & e & _ & _ & ->).
    destruct (JS.num_le (upd_quantity req) 0) eqn:Hq; [by apply Forall_delete|].
    apply num_le_not_at_most in Hq. destruct Hop as [Hop|Hop]; [done|].
    apply at_least_parseInt in Hop; [|done].
    apply Forall_alter; [done|]. by intros x _ _.
  - pose proof (remove_lines pid size s) as H.
    destruct (Reply.success _); [|by rewrite H].
    destruct H as (i & e & _ & _ & ->). by apply Forall_delete.
  - constructor.
Qed.

Lemma lines_hold_units_witness :
  let db : ProductDB :=
    <[Sample.runner := Product.mk "Runner" 40 None [SizeStock.mk 9 5] 5 0]> ∅ in
  let s := (run (Update db (mkUpdate Sample.runner 9 (JS.whole 1 eq_refl)))
              (run (Add db (mkAdd Sample.runner 9 (Some "red") (JS.whole 2 eq_refl)))
                   (Session.mk None None None None)).1).1 in
  CartItem.quantity <$> cart_items s = [1]
  ∧ Forall (λ item, 1 ≤ CartItem.quantity item) (cart_items s).
Proof.
  intros db s. split; [reflexivity|].
  apply (lines_hold_units s).
  apply reachable_by_step; [right; by vm_compute|].
  apply reachable_by_step; [by vm_compute|].
  apply reachable_by_new.
Defined.

(** The update that the condition above leaves out: half a unit is above
    zero and within the stock, and the line is stored with quantity 0. *)
Example update_half_unit :
  let db : ProductDB :=
    <[Sample.runner := Product.mk "Runner" 40 None [SizeStock.mk 9 5] 5 0]> ∅ in
  let s := (add db (mkAdd Sample.runner 9 (Some "red") (JS.whole 2 eq_refl))
              Session.fresh).1 in
  let half := mkUpdate Sample.runner 9 (JS.mkNumber (QArith_base.Qmake 1 2) eq_refl) in
  Reply.success (update db half s).2 = true
  ∧ CartItem.quantity <$> cart_items (update db half s).1 = [0].
Proof. by split. Qed.

Lemma or_default_nonempty (x : option string) :
  JS.or_default x "Default" ≠ EmptyString.
Proof.
  unfold JS.or_default. destruct x as [c|]; [|done].
  destruct (String.eqb c EmptyString) eqn:Hc; [done|].
  by apply String.eqb_neq in Hc.
Qed.

(** X6: No line of a cart has an empty colour: a line is stored with the
    colour sent or, when none or an empty one is sent, with Default. *)
Theorem lines_have_colour (s : Session.t) :
  reachable s →
  Forall (λ item, CartItem.color item ≠ EmptyString) (cart_items s).
Proof.
  induction 1 as [user returnTo error|op s _ IH]; [by constructor|].
  destruct op as [db req|db req|pid size|]; simpl in *.
  - pose proof (add_lines db req s) as H.
    destruct (Reply.success _); [|by rewrite H].
    destruct H as (product & b & _ & _ & _ & H).
    destruct (existing_line req s) as [[i e]|] eqn:Hex.
    + destruct H as [_ ->]. by apply Forall_alter.
    + rewrite H. apply Forall_app. split; [done|].
      constructor; [apply or_default_nonempty|constructor].
  - pose proof (update_lines db req s) as H.
    destruct (Reply.success _); [|by rewrite H].
    destruct H as (i & e & _ & _ & ->).
    destruct (JS.num_le (upd_quantity req) 0); [by apply Forall_delete|].
    by apply Forall_alter.
  - pose proof (remove_lines pid size s) as H.
    destruct (Reply.success _); [|by rewrite H].
    destruct H as (i & e & _ & _ & ->). by apply Forall_delete.
  - constructor.
Qed.

Lemma lines_have_colour_witness :
  let db : ProductDB :=
    <[Sample.runner := Product.mk "Runner" 40 None [SizeStock.mk 9 5] 5 0]> ∅ in
  let s := (run (Add db (mkAdd Sample.runner 9 (Some EmptyString) (JS.whole 2 eq_refl)))
                (Session.mk None None None None)).1 in
  CartItem.color <$> cart_items s = ["Default"]
  ∧ Forall (λ item, CartItem.color item ≠ EmptyString) (cart_items s).
Proof.
  intros db s. split; [reflexivity|].
  apply (lines_have_colour s).
  apply reachable_step. apply reachable_new.
Defined.

Lemma snapshot_alter (items : list CartItem.t) (i : nat) (q : Z) :
  snapshot <$> alter (CartItem.set_quantity q) i items = snapshot <$> items.
Proof.
  revert i; induction items as [|x items IH]; intros i; [done|].
  destruct i as [|i].
  - by destruct x.
  - cbn [alter list_alter]. fold (alter (CartItem.set_quantity q) i items).
    rewrite !fmap_cons. by rewrite IH.
Qed.

(** X7: The product, name, price, size, colour and recorded stock of a line
    are those of the moment it was added: an update that sets a quantity,
    against whatever catalogue, changes nothing else of any line, and an add
    leaves them on every line already there. *)
Theorem lines_keep_snapshot (db : ProductDB) (s : Session.t) :
  (∀ req, ¬ at_most (upd_quantity req) 0 →
          snapshot <$> cart_items (update db req s).1
          = snapshot <$> cart_items s)
  ∧ (∀ req, (snapshot <$> cart_items s)
            `prefix_of` (snapshot <$> cart_items (add db req s).1)).
Proof.
  split; intros req.
  - intros Hq. pose proof (update_lines db req s) as H.
    destruct (Reply.success _); [|by rewrite H].
    destruct H as (i & e & _ & _ & ->).
    apply num_le_not_at_most in Hq. rewrite Hq. apply snapshot_alter.
  - pose proof (add_lines db req s) as H.
    destruct (Reply.success _); [|by rewrite H].
    destruct H as (product & b & _ & _ & _ & H).
    destruct (existing_line req s) as [[i e]|].
    + destruct H as [_ ->]. by rewrite snapshot_alter.
    + rewrite H, fmap_app. by apply prefix_app_r.
Qed.

Lemma findIndex_app_None {A} (p : A → bool) (l : list A) (x : A) :
  JS.findIndex p l = None → p x = true →
  JS.findIndex p (l ++ [x]) = Some (length l).
Proof.
  intros Hl Hx. induction l as [|y l IH]; simpl in *; [by rewrite Hx|].
  destruct (p y); [done|].
  destruct (JS.findIndex p l); [done|]. by rewrite IH.
Qed.

Lemma delete_last {A} (l : list A) (x : A) : delete (length l) (l ++ [x]) = l.
Proof. induction l as [|y l IH]; [done|]. simpl. cbn. by rewrite IH. Qed.

(** X8: Adding a product and size that the cart does not hold yet and then
    removing that product and size gives back the lines the cart had. *)
Theorem add_then_remove (db : ProductDB) (req : AddRequest) (s : Session.t) :
  PrimFloat.eqb (add_size req) (add_size req) = true →
  JS.findIndex (same_product_size (add_productId req) (add_size req))
               (cart_items s) = None →
  Reply.success (add db req s).2 = true →
  cart_items (remove (add_productId req) (add_size req) (add db req s).1).1
  = cart_items s
  ∧ Reply.success
      (remove (add_productId req) (add_size req) (add db req s).1).2 = true.
Proof.
  intros Hsize Hnone Hok.
  pose proof (add_lines db req s) as H. rewrite Hok in H.
  destruct H as (product & b & _ & _ & _ & H).
  assert (existing_line req s = None) as Hex.
  { apply existing_line_None.
    destruct (JS.findIndex (same_line _ _ _) _) as [i|] eqn:Hi; [|done].
    apply findIndex_Some_lookup in Hi as (x & Hx & Hp).
    pose proof (findIndex_None _ _ _ _ Hnone Hx) as Hn.
    unfold same_line in Hp. unfold same_product_size in Hn.
    rewrite Hn in Hp. done. }
  rewrite Hex in H.
  set (s2 := (add db req s).1) in *.
  unfold remove. destruct (initCart s2) as [s3 c] eqn:Hi.
  apply initCart_items in Hi as [_ Hitems]. rewrite Hitems, H.
  rewrite findIndex_app_None; [|done|].
  - simpl. unfold cart_items at 1. simpl.
    by rewrite delete_last.
  - unfold same_product_size. simpl. rewrite Hsize, String.eqb_refl. done.
Qed.

Lemma add_then_remove_witness :
  let db : ProductDB :=
    <[Sample.runner := Product.mk "Runner" 40 None [SizeStock.mk 9 5] 5 0]>
      (<[Sample.walker := Product.mk "Walker" 60 None [SizeStock.mk 8 3] 3 0]> ∅) in
  let s := (add db (mkAdd Sample.runner 9 (Some "red") (JS.whole 2 eq_refl)) Session.fresh).1 in
  let req := mkAdd Sample.walker 8 None (JS.whole 1 eq_refl) in
  length (cart_items (add db req s).1) = 2%nat
  ∧ cart_items (remove Sample.walker 8 (add db req s).1).1 = cart_items s.
Proof.
  intros db s req. split; [reflexivity|].
  apply (add_then_remove db req s); reflexivity.
Defined.

End cart_more.

(** ** The stores under the order and admin routes *)

Section stores_more.
Import CartRoutes OrderRoutes AdminRoutes AdminOrders OrderViews Pages.
Import Spec Extra.

(** What one pass of the checkout loop writes. *)
Lemma checkout_loop_inv (P : ProductDB → Prop) :
  (∀ db item product j bucket,
     P db →
     db !! CartItem.productId item = Some product →
     JS.findIndex (λ b, PrimFloat.eqb (SizeStock.size b) (CartItem.size item))
                  (Product.sizes product) = Some j →
     Product.sizes product !! j = Some bucket →
     CartItem.quantity item ≤ SizeStock.stock bucket →
     P (product_save (CartItem.productId item)
          (Product.set_soldCount
             (Product.soldCount product + CartItem.quantity item)
             (Product.set_sizes
                (alter (SizeStock.add_stock (- CartItem.quantity item)) j
                       (Product.sizes product))
                product))
          db)) →
  ∀ items db acc, P db → P (checkout_loop db items acc).1.
Proof.
  intros Hstep. induction items as [|item rest IH]; intros db acc HP; [done|].
  simpl. destruct (db !! CartItem.productId item) as [product|] eqn:Hp; [|done].
  destruct (JS.findIndex _ _) as [j|] eqn:Hj; [|done].
  destruct (Product.sizes product !! j) as [bucket|] eqn:Hb; [|done].
  destruct (SizeStock.stock bucket <? CartItem.quantity item) eqn:Hq; [done|].
  apply Z.ltb_ge in Hq. apply IH. by eapply Hstep.
Qed.

Lemma checkout_products_inv (P : ProductDB → Prop) (now : Clock.t)
    (rq : Request.t) (req : CheckoutRequest) (st : Store.t) (s : Session.t) :
  P (Store.products st) →
  (∀ items acc, P (checkout_loop (Store.products st) items acc).1) →
  P (Store.products (checkout now rq req st s).1.1).
Proof.
  intros HP Hloop. unfold checkout, Auth.isAuthenticated.
  destruct (Session.user s) as [user|]; [|by destruct (Auth.is_api rq)].
  destruct (Session.cart s) as [cart|]; [|done].
  destruct (Cart.items cart) as [|i items] eqn:Hitems; [done|].
  specialize (Hloop (i :: items) []).
  destruct (checkout_loop _ _ _) as [db [r|served]]; [done|].
  destruct (order_create _ _ _) as [[[orders' id] order]|]; done.
Qed.

Lemma checkout_orders (now : Clock.t) (rq : Request.t) (req : CheckoutRequest)
    (st : Store.t) (s : Session.t) :
  Store.orders (checkout now rq req st s).1.1 = Store.orders st
  ∨ ∃ doc saved,
      order_create now doc (Store.orders st)
      = Some (Store.orders st ++ [saved], length (Store.orders st), saved)
      ∧ Store.orders (checkout now rq req st s).1.1
        = Store.orders st ++ [saved].
Proof.
  unfold checkout, Auth.isAuthenticated.
  destruct (Session.user s) as [user|];
    [|destruct (Auth.is_api rq); by left].
  destruct (Session.cart s) as [cart|]; [|by left].
  destruct (Cart.items cart) as [|i items] eqn:Hitems; [by left|].
  destruct (checkout_loop _ _ _) as [db [r|served]]; [by left|].
  destruct (order_create _ _ _) as [[[orders' id] order]|] eqn:Hc; [|by left].
  right. destruct (order_create_Some _ _ _ _ _ _ Hc) as (-> & -> & ->).
  eauto.
Qed.

(** The ways a cancellation ends. *)
Lemma cancel_cases (now : Clock.t) (rq : Request.t) (id : nat) (st : Store.t)
    (s : Session.t) :
  (∃ s' reply, cancel now rq id st s = (st, s', reply)
               ∧ Reply.success reply = false)
  ∨ ∃ user order,
      Session.user s = Some user
      ∧ Store.orders st !! id = Some order
      ∧ Order.user order = User.id user
      ∧ cancellable (Order.status order) = true
      ∧ cancel now rq id st s
        = (Store.mk (restore_loop (Store.products st) (Order.items order))
             (order_save now id
                (Order.push_history
                   (HistoryEntry.mk Cancelled "Cancelled by customer")
                   (Order.set_status Cancelled order))
                (Store.orders st)),
           s, Reply.ok 200 OrderCancelled ()).
Proof.
  unfold cancel, Auth.isAuthenticated.
  destruct (Session.user s) as [user|];
    [|left; destruct (Auth.is_api rq); by do 2 eexists].
  destruct (Store.orders st !! id) as [order|] eqn:Ho;
    [|left; by do 2 eexists].
  destruct (String.eqb (Order.user order) (User.id user)) eqn:Hu;
    [|left; by do 2 eexists].
  destruct (cancellable (Order.status order)) eqn:Hc;
    [|left; by do 2 eexists].
  right. exists user, order. apply String.eqb_eq in Hu. done.
Qed.

(** The ways a status update ends. *)
Lemma status_update_cases (now : Clock.t) (rq : Request.t) (id : nat)
    (req : StatusRequest) (st : Store.t) (s : Session.t) :
  (∃ s' out, order_status_update now rq id req st s = (st, s', out)
             ∧ succeeded out = false)
  ∨ ∃ order status,
      Store.orders st !! id = Some order
      ∧ parse_status (req_status req) = Some status
      ∧ order_status_update now rq id req st s
        = (Store.mk (Store.products st)
             (order_save now id
                (Order.push_history
                   (HistoryEntry.mk status
                      (JS.or_default (req_note req)
                         ("Status updated to " +:+ req_status req)))
                   (attach_tracking (req_trackingNumber req)
                      (Order.set_status status order)))
                (Store.orders st)),
           s, Json 200 true "Order status updated").
Proof.
  unfold order_status_update, Auth.isAdmin.
  destruct (Session.user s) as [user|];
    [|left; destruct (Auth.is_api rq); by do 2 eexists].
  destruct (negb _); [left; destruct (Auth.is_api rq); by do 2 eexists|].
  destruct (Store.orders st !! id) as [order|] eqn:Ho;
    [|left; by do 2 eexists].
  destruct (parse_status _) as [status|] eqn:Hs; [|left; by do 2 eexists].
  right. by exists order, status.
Qed.

Lemma attach_tracking_fields (t : option string) (o : Order.t) :
  Order.lacks_number (attach_tracking t o) = Order.lacks_number o
  ∧ Order.status (attach_tracking t o) = Order.status o
  ∧ Order.statusHistory (attach_tracking t o) = Order.statusHistory o
  ∧ Order.validate (attach_tracking t o) = Order.validate o
  ∧ purchase (attach_tracking t o) = purchase o
  ∧ Order.orderNumber (attach_tracking t o) = Order.orderNumber o.
Proof.
  unfold attach_tracking. destruct t as [t|]; [|done].
  by destruct (String.eqb t EmptyString).
Qed.

(** A save of a stored order that has set its status, possibly its
    tracking number, and pushed a history entry: what stays of the
    order. *)
Lemma order_save_lookup (now : Clock.t) (id : nat) (order : Order.t)
    (status : OrderStatus) (t : option string) (e : HistoryEntry.t)
    (orders : list Order.t) :
  orders !! id = Some order →
  let order' :=
    Order.push_history e (attach_tracking t (Order.set_status status order)) in
  ∃ saved,
    order_save now id order' orders !! id = Some saved
    ∧ Order.user saved = Order.user order
    ∧ Order.items saved = Order.items order
    ∧ Order.status saved = status
    ∧ Order.statusHistory saved = Order.statusHistory order ++ [e]
    ∧ Order.validate saved = Order.validate order
    ∧ (Order.lacks_number order = false →
       Order.lacks_number saved = false ∧ purchase saved = purchase order
       ∧ Order.trackingNumber saved
         = Order.trackingNumber (attach_tracking t order))
    ∧ length (order_save now id order' orders) = length orders
    ∧ ∀ j, j ≠ id → order_save now id order' orders !! j = orders !! j.
Proof.
  intros Ho order'. unfold order_save.
  eexists. split.
  { apply list_lookup_insert_eq. by eapply lookup_lt_Some. }
  unfold Order.pre_save.
  assert (Order.lacks_number order' = Order.lacks_number order) as Hl.
  { subst order'. unfold attach_tracking. destruct t as [t|]; [|done].
    by destruct (String.eqb t EmptyString). }
  rewrite Hl.
  assert (Order.user order' = Order.user order
          ∧ Order.items order' = Order.items order
          ∧ Order.status order' = status
          ∧ Order.statusHistory order' = Order.statusHistory order ++ [e]
          ∧ Order.validate order' = Order.validate order
          ∧ purchase order' = purchase order
          ∧ Order.trackingNumber order'
            = Order.trackingNumber (attach_tracking t order))
    as (Hu & Hi & Hs & Hh & Hv & Hp & Ht).
  { subst order'. unfold attach_tracking. destruct t as [t|]; [|done].
    by destruct (String.eqb t EmptyString). }
  split_and!.
  - by destruct (Order.lacks_number order).
  - by destruct (Order.lacks_number order).
  - by destruct (Order.lacks_number order).
  - by destruct (Order.lacks_number order).
  - by destruct (Order.lacks_number order).
  - intros H. rewrite H. by rewrite <- H, <- Hl.
  - by rewrite length_insert.
  - intros j Hj. by apply list_lookup_insert_ne.
Qed.

Lemma elem_of_order_save (now : Clock.t) (id : nat) (o' : Order.t)
    (orders : list Order.t) (o : Order.t) :
  o ∈ order_save now id o' orders →
  o ∈ orders ∨ order_save now id o' orders !! id = Some o.
Proof.
  intros [j Hj]%list_elem_of_lookup. destruct (decide (j = id)) as [->|Hne].
  - by right.
  - left. unfold order_save in Hj. rewrite list_lookup_insert_ne in Hj by done.
    by eapply list_elem_of_lookup_2.
Qed.

Lemma returned_nonneg (k : string) (b : SizeStock.t) (lines : list OrderItem.t) :
  Forall (λ l, 1 ≤ OrderItem.quantity l) lines → 0 ≤ returned k b lines.
Proof.
  induction 1 as [|l lines Hl _ IH]; simpl; [done|].
  destruct (_ && _); lia.
Qed.

Lemma validate_quantities (o : Order.t) :
  Order.validate o = true →
  Forall (λ l, 1 ≤ OrderItem.quantity l) (Order.items o).
Proof.
  unfold Order.validate. intros [Hq _]%andb_true_iff.
  apply Forall_forall. intros l Hl.
  rewrite forallb_forall in Hq. apply Z.leb_le, Hq.
  by apply list_elem_of_In.
Qed.

Lemma checkout_loop_nonneg (items : list CartItem.t) (db : ProductDB)
    (acc : list OrderItem.t) :
  stock_nonneg db → stock_nonneg (checkout_loop db items acc).1.
Proof.
  apply (checkout_loop_inv stock_nonneg). clear.
  intros db item product j bucket Hdb Hp Hj Hb Hq k p b Hk Hin.
  unfold product_save in Hk.
  destruct (decide (k = CartItem.productId item)) as [->|Hne].
  - rewrite lookup_insert_eq in Hk. injection Hk as <-. simpl in Hin.
    apply list_elem_of_lookup in Hin as [i Hi].
    destruct (decide (i = j)) as [->|Hij].
    + rewrite list_lookup_alter_eq, Hb in Hi. injection Hi as <-. simpl. lia.
    + rewrite list_lookup_alter_ne in Hi by done.
      eapply Hdb; [done|]. by eapply list_elem_of_lookup_2.
  - rewrite lookup_insert_ne in Hk by done. by eapply Hdb.
Qed.

(** X9: No request makes a store unsound: from a store in which no bucket is
    below zero and every order passes its validators, a checkout (whether it
    places the order or stops half-way), a cancellation, a status update, an
    inventory update and a product deletion each lead to such a store again. *)
Theorem store_stays_sound (op : StoreOp) (st : Store.t) :
  sound st → sound (run_store op st).
Proof.
  intros [Hstock Horders].
  destruct op as [now rq req s|now rq id s|now rq id req s
                 |rq id sizes s|rq id s]; simpl.
  - split.
    + apply checkout_products_inv; [done|].
      intros items acc. by apply checkout_loop_nonneg.
    + destruct (checkout_orders now rq req st s)
        as [->|(doc & saved & Hc & ->)]; [done|].
      intros o [Ho|Ho%list_elem_of_singleton]%elem_of_app; [by apply Horders|].
      subst o. unfold order_create in Hc.
      destruct (Order.validate doc) eqn:Hv; [|done].
      destruct (bool_decide _); [done|].
      injection Hc as Hc _. apply app_inv_head in Hc. injection Hc as <-.
      unfold Order.pre_save. by destruct (Order.lacks_number doc).
  - destruct (cancel_cases now rq id st s)
      as [(s' & r & -> & _)|(user & order & _ & Ho & _ & _ & ->)]; [done|].
    simpl. split.
    + intros k p b Hk Hin. simpl in Hk. rewrite restore_loop_lookup in Hk.
      destruct (Store.products st !! k) as [p0|] eqn:Hp0; [|done].
      injection Hk as <-. simpl in Hin.
      apply list_elem_of_fmap in Hin as (b0 & -> & Hb0). simpl.
      specialize (Hstock k p0 b0 Hp0 Hb0).
      assert (0 ≤ returned k b0 (Order.items order)); [|lia].
      apply returned_nonneg, validate_quantities, Horders.
      by eapply list_elem_of_lookup_2.
    + intros o [Hin|Hin]%elem_of_order_save; [by apply Horders|].
      destruct (order_save_lookup now id order Cancelled None
                  (HistoryEntry.mk Cancelled "Cancelled by customer")
                  (Store.orders st) Ho)
        as (saved & Hs & _ & _ & _ & _ & Hv & _).
      cbn [attach_tracking] in Hs. rewrite Hs in Hin. injection Hin as <-. rewrite Hv.
      apply Horders. by eapply list_elem_of_lookup_2.
  - destruct (status_update_cases now rq id req st s)
      as [(s' & r & -> & _)|(order & status & Ho & _ & ->)]; [done|].
    simpl. split; [done|].
    intros o [Hin|Hin]%elem_of_order_save; [by apply Horders|].
    destruct (order_save_lookup now id order status
                (req_trackingNumber req)
                (HistoryEntry.mk status
                   (JS.or_default (req_note req)
                      ("Status updated to " +:+ req_status req)))
                (Store.orders st) Ho)
      as (saved & Hs & _ & _ & _ & _ & Hv & _).
    rewrite Hs in Hin. injection Hin as <-. rewrite Hv.
    apply Horders. by eapply list_elem_of_lookup_2.
  - split; [|done]. simpl. unfold inventory_update, Auth.isAdmin.
    destruct (Session.user s) as [user|]; [|by destruct (Auth.is_api rq)].
    destruct (negb _); [by destruct (Auth.is_api rq)|].
    destruct (Store.products st !! id) as [product|] eqn:Hp;
      [|by destruct (JS.isObjectId id)].
    destruct (forallb _ _) eqn:Hall; [|done]. simpl.
    intros k p b Hk Hin. unfold product_save in Hk.
    destruct (decide (k = id)) as [->|Hne].
    + rewrite lookup_insert_eq in Hk. injection Hk as <-. simpl in Hin.
      rewrite forallb_forall in Hall. apply Z.leb_le, Hall.
      by apply list_elem_of_In.
    + rewrite lookup_insert_ne in Hk by done. by eapply Hstock.
  - split; [|done]. simpl. unfold product_delete, Auth.isAdmin.
    destruct (Session.user s) as [user|]; [|by destruct (Auth.is_api rq)].
    destruct (negb _); [by destruct (Auth.is_api rq)|].
    destruct (Store.products st !! id) eqn:Hid;
      [|by destruct (JS.isObjectId id)].
    simpl. intros k p b Hk Hin. apply lookup_delete_Some in Hk as [_ Hk].
    by eapply Hstock.
Qed.

Lemma store_stays_sound_witness :
  let db : ProductDB :=
    <[Sample.runner := Product.mk "Runner" 40 None [SizeStock.mk 9 5] 5 0]> ∅ in
  let s0 := Session.mk (Some (User.mk Sample.buyer "customer")) None None None in
  let s1 := (add db (mkAdd Sample.runner 9 (Some "red") (JS.whole 3 eq_refl)) s0).1 in
  let st1 := run_store (Checkout (Clock.mk 2024 4) (orders_route "/") (mkCheckout None None) s1)
               (Store.mk db []) in
  SizeStock.stock <$> (default [] (Product.sizes <$> Store.products st1 !! Sample.runner))
  = [2]
  ∧ sound st1.
Proof.
  intros db s0 s1 st1. split; [reflexivity|].
  apply (store_stays_sound
           (Checkout (Clock.mk 2024 4) (orders_route "/") (mkCheckout None None) s1)
           (Store.mk db [])).
  split.
  - intros k p b Hk Hb. simpl in Hk.
    apply lookup_insert_Some in Hk as [[_ <-]|[_ Hk]]; [|done].
    simpl in Hb. apply list_elem_of_singleton in Hb as ->. simpl. lia.
  - intros o Ho. simpl in Ho. by apply not_elem_of_nil in Ho.
Defined.

(** X10: What a stored order holds apart from its status, tracking number
    and history (its number, buyer, lines, payment method and amounts) is
    never changed by a later request, and no request removes an order.
    The tracking number is changed by a status update alone. *)
Theorem placed_orders_stay (op : StoreOp) (st : Store.t) (j : nat)
    (o : Order.t) :
  Store.orders st !! j = Some o →
  Order.lacks_number o = false →
  ∃ o', Store.orders (run_store op st) !! j = Some o'
        ∧ purchase o' = purchase o
        ∧ match op with
          | SetStatus _ _ _ _ _ => True
          | _ => Order.trackingNumber o' = Order.trackingNumber o
          end.
Proof.
  intros Hj Hn.
  destruct op as [now rq req s|now rq id s|now rq id req s
                 |rq id sizes s|rq id s]; simpl.
  - destruct (checkout_orders now rq req st s)
      as [->|(doc & saved & _ & ->)]; [by exists o|].
    exists o. split; [|done]. by apply lookup_app_l_Some.
  - destruct (cancel_cases now rq id st s)
      as [(s' & r & -> & _)|(user & order & _ & Ho & _ & _ & ->)];
      [by exists o|].
    simpl.
    destruct (order_save_lookup now id order Cancelled None
                (HistoryEntry.mk Cancelled "Cancelled by customer")
                (Store.orders st) Ho)
      as (saved & Hs & _ & _ & _ & _ & _ & Hp & _ & Hother).
    destruct (decide (j = id)) as [->|Hne].
    + rewrite Ho in Hj. injection Hj as ->. exists saved. split; [done|].
      by destruct (Hp Hn) as (_ & ? & ?).
    + exists o. by rewrite Hother.
  - destruct (status_update_cases now rq id req st s)
      as [(s' & r & -> & _)|(order & status & Ho & _ & ->)]; [by exists o|].
    simpl.
    destruct (order_save_lookup now id order status (req_trackingNumber req)
                (HistoryEntry.mk status
                   (JS.or_default (req_note req)
                      ("Status updated to " +:+ req_status req)))
                (Store.orders st) Ho)
      as (saved & Hs & _ & _ & _ & _ & _ & Hp & _ & Hother).
    destruct (decide (j = id)) as [->|Hne].
    + rewrite Ho in Hj. injection Hj as ->. exists saved. split; [done|].
      by destruct (Hp Hn) as (_ & ? & _).
    + exists o. by rewrite Hother.
  - by exists o.
  - by exists o.
Qed.

Lemma placed_orders_stay_witness :
  let db : ProductDB :=
    <[Sample.runner := Product.mk "Runner" 40 None [SizeStock.mk 9 5] 5 0]> ∅ in
  let s0 := Session.mk (Some (User.mk Sample.buyer "customer")) None None None in
  let admin := Session.mk (Some (User.mk Sample.manager "admin")) None None None in
  let s1 := (add db (mkAdd Sample.runner 9 (Some "red") (JS.whole 3 eq_refl)) s0).1 in
  let st1 := run_store (Checkout (Clock.mk 2024 4) (orders_route "/")
                          (mkCheckout None None) s1)
               (Store.mk db []) in
  let ship := SetStatus (Clock.mk 2024 5) (admin_route "/orders/0/status") 0
                (mkStatus "shipped" None (Some "TRK1")) admin in
  let st2 := run_store ship st1 in
  (Order.status <$> Store.orders st1, Order.status <$> Store.orders st2)
  = ([Confirmed], [Shipped])
  ∧ (Order.trackingNumber <$> Store.orders st1,
     Order.trackingNumber <$> Store.orders st2)
    = ([None], [Some "TRK1"])
  ∧ ∃ o o', Store.orders st1 !! 0%nat = Some o
            ∧ Store.orders st2 !! 0%nat = Some o'
            ∧ purchase o' = purchase o.
Proof.
  intros db s0 admin s1 st1 ship st2.
  split; [reflexivity|]. split; [reflexivity|].
  assert (is_Some (Store.orders st1 !! 0%nat)) as [o Ho].
  { eexists. reflexivity. }
  exists o.
  destruct (placed_orders_stay ship st1 0 o Ho) as (o' & Ho' & Hp).
  - vm_compute in Ho. injection Ho as <-. reflexivity.
  - exists o'. by destruct Hp.
Defined.

Lemma order_save_numbers (now : Clock.t) (id : nat) (order : Order.t)
    (status : OrderStatus) (t : option string) (e : HistoryEntry.t)
    (orders : list Order.t) :
  orders !! id = Some order →
  Order.lacks_number order = false →
  Order.orderNumber
    <$> order_save now id
          (Order.push_history e
             (attach_tracking t (Order.set_status status order)))
          orders
  = Order.orderNumber <$> orders.
Proof.
  intros Ho Hn. unfold order_save, Order.pre_save.
  assert (Order.lacks_number
            (Order.push_history e
               (attach_tracking t (Order.set_status status order)))
          = Order.lacks_number order) as ->.
  { unfold attach_tracking. destruct t as [t|]; [|done].
    by destruct (String.eqb t EmptyString). }
  rewrite Hn, list_fmap_insert.
  apply list_insert_id. rewrite list_lookup_fmap, Ho. simpl.
  unfold attach_tracking. destruct t as [t|]; [|done].
  by destruct (String.eqb t EmptyString).
Qed.

Lemma generated_number_nonempty (now : Clock.t) (count : nat) (o : Order.t) :
  Order.lacks_number (Order.set_orderNumber (Order.generate_number now count) o)
  = false.
Proof. done. Qed.

(** X11: Once every stored order carries a number and no two carry the same,
    this stays so under every request. *)
Theorem orders_stay_well_numbered (op : StoreOp) (st : Store.t) :
  well_numbered (Store.orders st) →
  well_numbered (Store.orders (run_store op st)).
Proof.
  intros [Hall Hnodup].
  destruct op as [now rq req s|now rq id s|now rq id req s
                 |rq id sizes s|rq id s]; simpl; [| | |done|done].
  - destruct (checkout_orders now rq req st s)
      as [->|(doc & saved & Hc & ->)]; [done|].
    unfold order_create in Hc.
    destruct (Order.validate doc); [|done].
    destruct (bool_decide _) eqn:Hfresh; [done|].
    apply bool_decide_eq_false in Hfresh.
    injection Hc as Hc _. apply app_inv_head in Hc. injection Hc as <-.
    split.
    + intros o [Ho|Ho%list_elem_of_singleton]%elem_of_app; [by apply Hall|].
      subst o. unfold Order.pre_save.
      destruct (Order.lacks_number doc) eqn:Hd; [|done].
      apply generated_number_nonempty.
    + rewrite fmap_app. apply NoDup_app. split; [done|]. split.
      * intros n Hn [= ->]%list_elem_of_singleton. done.
      * apply NoDup_singleton.
  - destruct (cancel_cases now rq id st s)
      as [(s' & r & -> & _)|(user & order & _ & Ho & _ & _ & ->)]; [done|].
    simpl.
    assert (Order.lacks_number order = false) as Hn
      by (apply Hall; by eapply list_elem_of_lookup_2).
    split; [|by rewrite (order_save_numbers now id order Cancelled None)].
    intros o [Hin|Hin]%elem_of_order_save; [by apply Hall|].
    destruct (order_save_lookup now id order Cancelled None
                (HistoryEntry.mk Cancelled "Cancelled by customer")
                (Store.orders st) Ho)
      as (saved & Hs & _ & _ & _ & _ & _ & Hp & _).
    cbn [attach_tracking] in Hs. rewrite Hs in Hin. injection Hin as <-. by apply Hp.
  - destruct (status_update_cases now rq id req st s)
      as [(s' & r & -> & _)|(order & status & Ho & _ & ->)]; [done|].
    simpl.
    assert (Order.lacks_number order = false) as Hn
      by (apply Hall; by eapply list_elem_of_lookup_2).
    split; [|by rewrite order_save_numbers].
    intros o [Hin|Hin]%elem_of_order_save; [by apply Hall|].
    destruct (order_save_lookup now id order status
                (req_trackingNumber req)
                (HistoryEntry.mk status
                   (JS.or_default (req_note req)
                      ("Status updated to " +:+ req_status req)))
                (Store.orders st) Ho)
      as (saved & Hs & _ & _ & _ & _ & _ & Hp & _).
    rewrite Hs in Hin. injection Hin as <-. by apply Hp.
Qed.

Lemma orders_stay_well_numbered_witness :
  let db : ProductDB :=
    <[Sample.runner := Product.mk "Runner" 40 None [SizeStock.mk 9 5] 5 0]> ∅ in
  let s0 := Session.mk (Some (User.mk Sample.buyer "customer")) None None None in
  let s1 := (add db (mkAdd Sample.runner 9 (Some "red") (JS.whole 3 eq_refl)) s0).1 in
  let st1 := run_store (Checkout (Clock.mk 2024 4) (orders_route "/") (mkCheckout None None) s1)
               (Store.mk db []) in
  Order.orderNumber <$> Store.orders st1 = [Some "ORD202405000001"]
  ∧ well_numbered (Store.orders st1).
Proof.
  intros db s0 s1 st1. split; [reflexivity|].
  apply (orders_stay_well_numbered
           (Checkout (Clock.mk 2024 4) (orders_route "/") (mkCheckout None None) s1)
           (Store.mk db [])).
  split.
  - intros o Ho. simpl in Ho. by apply not_elem_of_nil in Ho.
  - simpl. apply NoDup_nil_2.
Defined.

End stores_more.

(** ** Order numbers across orders *)

Section numbers_more.
Import OrderRoutes Spec Extra.

Lemma append_inj_length (s1 s2 t1 t2 : string) :
  String.length s1 = String.length s2 →
  s1 +:+ t1 = s2 +:+ t2 → s1 = s2 ∧ t1 = t2.
Proof.
  revert s2; induction s1 as [|c s1 IH]; intros [|c' s2]; simpl; try done.
  intros [= Hlen].
  change (String c (s1 +:+ t1) = String c' (s2 +:+ t2) →
          String c s1 = String c' s2 ∧ t1 = t2).
  intros [= -> H]. destruct (IH s2 Hlen H) as [-> ->]. done.
Qed.

Lemma padded_decimal (n m k : nat) :
  JS.padStart k "0" (JS.String_of_nat n) = JS.padStart k "0" (JS.String_of_nat m) →
  n = m.
Proof.
  intros H. apply (f_equal decimal) in H.
  destruct (padStart_spec k (JS.String_of_nat n) (String_of_nat_nonempty n))
    as [Hn _].
  destruct (padStart_spec k (JS.String_of_nat m) (String_of_nat_nonempty m))
    as [Hm _].
  rewrite Hn, Hm, !decimal_String_of_nat in H. by injection H.
Qed.

(** The date part and the counter part of a number. *)
Lemma generate_number_parts (now now' : Clock.t) (i j : nat) :
  calendar now → calendar now' →
  Order.generate_number now i = Order.generate_number now' j →
  JS.String_of_nat (Clock.getFullYear now)
  = JS.String_of_nat (Clock.getFullYear now')
  ∧ JS.padStart 2 "0" (JS.String_of_nat (Clock.getMonth now + 1))
    = JS.padStart 2 "0" (JS.String_of_nat (Clock.getMonth now' + 1))
  ∧ JS.padStart 6 "0" (JS.String_of_nat (i + 1))
    = JS.padStart 6 "0" (JS.String_of_nat (j + 1)).
Proof.
  intros [Hy Hm] [Hy' Hm'] H. unfold Order.generate_number in H.
  rewrite !string_append_assoc in H.
  apply (append_inj_length "ORD" "ORD") in H as [_ H]; [|done].
  apply append_inj_length in H as [HY H];
    [|by rewrite !four_digit_years].
  apply append_inj_length in H as [HM H];
    [|by rewrite !two_digit_months].
  done.
Qed.

Lemma generate_number_count (now now' : Clock.t) (i j : nat) :
  calendar now → calendar now' →
  Order.generate_number now i = Order.generate_number now' j → i = j.
Proof.
  intros Hc Hc' H.
  destruct (generate_number_parts now now' i j Hc Hc' H) as (_ & _ & Hn).
  apply padded_decimal in Hn. lia.
Qed.

(** X12: An order number tells the year, the month and the count it was
    generated from: two numbers are equal only if all three are. *)
Theorem order_number_determines (now now' : Clock.t) (i j : nat) :
  calendar now → calendar now' →
  Order.generate_number now i = Order.generate_number now' j →
  now = now' ∧ i = j.
Proof.
  intros Hc Hc' H.
  destruct (generate_number_parts now now' i j Hc Hc' H) as (Hy & Hm & Hn).
  apply padded_decimal in Hn, Hm.
  apply (f_equal decimal) in Hy. rewrite !decimal_String_of_nat in Hy.
  injection Hy as Hy.
  destruct now as [y m], now' as [y' m']; simpl in *.
  split; [f_equal|]; lia.
Qed.

Lemma order_number_determines_witness :
  Order.generate_number (Clock.mk 2024 4) 6 = "ORD202405000007"
  ∧ Clock.mk 2024 4 = Clock.mk 2024 4 ∧ 6%nat = 6%nat.
Proof.
  split; [reflexivity|].
  apply (order_number_determines (Clock.mk 2024 4) (Clock.mk 2024 4) 6 6).
  - split; [split|]; apply Nat.leb_le; reflexivity.
  - split; [split|]; apply Nat.leb_le; reflexivity.
  - reflexivity.
Defined.

(** X13: Orders that were numbered one after the other never block a new
    one: a document that passes the validators is stored under a number that
    no earlier order carries, whatever the months the earlier orders were
    placed in, and the orders are again numbered in sequence. *)
Theorem new_number_is_fresh (now : Clock.t) (doc : Order.t)
    (orders : list Order.t) :
  calendar now →
  numbered_in_sequence orders →
  Order.validate doc = true →
  Order.lacks_number doc = true →
  ∃ saved,
    order_create now doc orders
    = Some (orders ++ [saved], length orders, saved)
    ∧ Order.orderNumber saved
      = Some (Order.generate_number now (length orders))
    ∧ numbered_in_sequence (orders ++ [saved]).
Proof.
  intros Hc Hseq Hv Hn.
  exists (Order.set_orderNumber (Order.generate_number now (length orders)) doc).
  unfold order_create, Order.pre_save. rewrite Hv, Hn.
  rewrite bool_decide_eq_false_2.
  - split; [done|]. split; [done|].
    intros i o Hi. apply lookup_app_Some in Hi as [Hi|[Hlen Hi]].
    + by apply Hseq.
    + apply list_lookup_singleton_Some in Hi as [Hi <-].
      exists now. split; [done|]. simpl. do 2 f_equal. lia.
  - simpl. intros (o & Ho & Hin)%list_elem_of_fmap.
    apply list_elem_of_lookup in Hin as [i Hi].
    destruct (Hseq i o Hi) as (now' & Hc' & Hnum).
    rewrite Hnum in Ho. apply (inj Some) in Ho.
    apply generate_number_count in Ho; [|done..].
    apply lookup_lt_Some in Hi. lia.
Qed.

Lemma new_number_is_fresh_witness :
  let doc :=
    Order.mk None Sample.buyer [OrderItem.mk Sample.runner "Runner" 40 9 "red" 1] "card"
      40 "standard" 9.99 3.2 53.19 Confirmed [] None in
  let earlier := Order.set_orderNumber "ORD202312000001" doc in
  ∃ saved,
    order_create (Clock.mk 2024 0) doc [earlier]
    = Some ([earlier; saved], 1%nat, saved)
    ∧ Order.orderNumber saved = Some "ORD202401000002".
Proof.
  intros doc earlier.
  destruct (new_number_is_fresh (Clock.mk 2024 0) doc [earlier])
    as (saved & Hc & Hn & _).
  - split; [split|]; apply Nat.leb_le; reflexivity.
  - intros i o Hi. apply list_lookup_singleton_Some in Hi as [-> <-].
    exists (Clock.mk 2023 11). split; [|reflexivity].
    split; [split|]; apply Nat.leb_le; reflexivity.
  - reflexivity.
  - reflexivity.
  - exists saved. split; [exact Hc|]. rewrite Hn. reflexivity.
Defined.

End numbers_more.

(** ** Requests one after the other *)

Section order_flows.
Import CartRoutes OrderRoutes AdminRoutes AdminOrders OrderViews Pages.
Import Spec Extra.

(** X14: A second submission of the checkout form, right after one that
    placed the order, is answered with the empty-cart reply: no second order
    is created and no stock is taken. *)
Theorem checkout_twice (now now' : Clock.t) (rq rq' : Request.t)
    (req req' : CheckoutRequest) (st : Store.t) (s : Session.t) :
  Reply.success (checkout now rq req st s).2 = true →
  let st1 := (checkout now rq req st s).1.1 in
  let s1 := (checkout now rq req st s).1.2 in
  checkout now' rq' req' st1 s1 = (st1, s1, Reply.fail 400 CartIsEmpty).
Proof.
  intros Hok.
  destruct (checkout_placed now rq req st s Hok)
    as (user & cart & db' & served & Hu & _ & _ & ->).
  simpl. unfold checkout, Auth.isAuthenticated. simpl. by rewrite Hu.
Qed.

Lemma checkout_twice_witness :
  let db : ProductDB :=
    <[Sample.runner := Product.mk "Runner" 40 None [SizeStock.mk 9 5] 5 0]> ∅ in
  let s0 := Session.mk (Some (User.mk Sample.buyer "customer")) None None None in
  let s1 := (add db (mkAdd Sample.runner 9 (Some "red") (JS.whole 3 eq_refl)) s0).1 in
  let out := checkout (Clock.mk 2024 4) (orders_route "/") (mkCheckout None None)
               (Store.mk db []) s1 in
  length (Store.orders out.1.1) = 1%nat
  ∧ checkout (Clock.mk 2024 4) (orders_route "/") (mkCheckout None None) out.1.1 out.1.2
    = (out.1.1, out.1.2, Reply.fail 400 CartIsEmpty).
Proof.
  intros db s0 s1 out. split; [reflexivity|].
  apply (checkout_twice (Clock.mk 2024 4) (Clock.mk 2024 4) (orders_route "/") (orders_route "/")
           (mkCheckout None None) (mkCheckout None None) (Store.mk db []) s1).
  reflexivity.
Defined.

(** X15: A cancellation that went through cannot be repeated: the same
    request again is refused and changes nothing, so the stock is not given
    back twice. *)
Theorem cancel_twice (now now' : Clock.t) (rq rq' : Request.t) (id : nat)
    (st : Store.t) (s : Session.t) :
  Reply.success (cancel now rq id st s).2 = true →
  let st1 := (cancel now rq id st s).1.1 in
  (cancel now rq id st s).1.2 = s
  ∧ cancel now' rq' id st1 s = (st1, s, Reply.fail 400 CannotBeCancelled).
Proof.
  intros Hok.
  destruct (cancel_cases now rq id st s)
    as [(s' & r & Heq & Hr)|(user & order & Hu & Ho & Howner & _ & Heq)].
  { rewrite Heq in Hok. simpl in Hok. congruence. }
  rewrite Heq. simpl. split; [done|].
  destruct (order_save_lookup now id order Cancelled None
              (HistoryEntry.mk Cancelled "Cancelled by customer")
              (Store.orders st) Ho)
    as (saved & Hs & Hsu & _ & Hst & _).
  cbn [attach_tracking] in Hs.
  unfold cancel at 1, Auth.isAuthenticated. rewrite Hu. simpl. rewrite Hs.
  rewrite Hsu, Howner, String.eqb_refl, Hst. done.
Qed.

Lemma cancel_twice_witness :
  let db : ProductDB :=
    <[Sample.runner := Product.mk "Runner" 40 None [SizeStock.mk 9 5] 5 0]> ∅ in
  let s0 := Session.mk (Some (User.mk Sample.buyer "customer")) None None None in
  let s1 := (add db (mkAdd Sample.runner 9 (Some "red") (JS.whole 3 eq_refl)) s0).1 in
  let st1 := (checkout (Clock.mk 2024 4) (orders_route "/") (mkCheckout None None)
                (Store.mk db []) s1).1.1 in
  let st2 := (cancel (Clock.mk 2024 4) (orders_route "/0/cancel") 0 st1 s0).1.1 in
  SizeStock.stock <$> (default [] (Product.sizes <$> Store.products st2 !! Sample.runner))
  = [5]
  ∧ cancel (Clock.mk 2024 4) (orders_route "/0/cancel") 0 st2 s0
    = (st2, s0, Reply.fail 400 CannotBeCancelled).
Proof.
  intros db s0 s1 st1 st2. split; [reflexivity|].
  apply (cancel_twice (Clock.mk 2024 4) (Clock.mk 2024 4) (orders_route "/0/cancel")
           (orders_route "/0/cancel") 0 st1 s0).
  reflexivity.
Defined.

(** X16: Another user's order is out of reach: cancelling it, fetching it
    and opening its confirmation page are answered exactly as for an order
    that does not exist, and the stores stay as they are. *)
Theorem other_users_order (now : Clock.t) (rq : Request.t) (id : nat)
    (st : Store.t) (s : Session.t) (user : User.t) (order : Order.t) :
  Session.user s = Some user →
  Store.orders st !! id = Some order →
  Order.user order ≠ User.id user →
  cancel now rq id st s = (st, s, Reply.fail 404 OrderNotFound)
  ∧ get_order rq id st s = (s, inl (Reply.fail 404 OrderNotFound))
  ∧ order_confirmation id st s = Redirect "/"
  ∧ ∀ missing, Store.orders st !! missing = None →
      cancel now rq missing st s = cancel now rq id st s
      ∧ get_order rq missing st s = get_order rq id st s
      ∧ order_confirmation missing st s = order_confirmation id st s.
Proof.
  intros Hu Ho Hne. apply String.eqb_neq in Hne.
  unfold cancel, get_order, order_confirmation, Auth.isAuthenticated.
  rewrite Hu, Ho, Hne. simpl. split_and!; try done.
  intros missing ->. done.
Qed.

Lemma other_users_order_witness :
  let db : ProductDB :=
    <[Sample.runner := Product.mk "Runner" 40 None [SizeStock.mk 9 5] 5 0]> ∅ in
  let s0 := Session.mk (Some (User.mk Sample.buyer "customer")) None None None in
  let s1 := (add db (mkAdd Sample.runner 9 (Some "red") (JS.whole 3 eq_refl)) s0).1 in
  let st1 := (checkout (Clock.mk 2024 4) (orders_route "/") (mkCheckout None None)
                (Store.mk db []) s1).1.1 in
  let other := Session.mk (Some (User.mk Sample.visitor "customer")) None None None in
  cancel (Clock.mk 2024 4) (orders_route "/0/cancel") 0 st1 other
  = (st1, other, Reply.fail 404 OrderNotFound).
Proof.
  intros db s0 s1 st1 other.
  assert (is_Some (Store.orders st1 !! 0%nat)) as [o Ho] by (eexists; reflexivity).
  assert (Order.user o ≠ Sample.visitor) as Hne.
  { vm_compute in Ho. injection Ho as <-. simpl. discriminate. }
  exact (proj1 (other_users_order (Clock.mk 2024 4) (orders_route "/0/cancel") 0 st1 other
                  (User.mk Sample.visitor "customer") o eq_refl Ho Hne)).
Defined.

(** X17: Without a logged-in user the order routes place, cancel and show
    nothing: checkout, cancellation and the order view leave the stores,
    the user and the cart of the session as they are and report no
    success.  On a request whose path, taken from the mount, starts with
    /api/ the answer is 401 and the session is as before; on any other the
    answer is a redirect (302) and the session records the requested URL
    as returnTo and the message Please login to continue.  The checkout
    route is mounted at /api/orders and has the path /, so a guest's
    checkout is redirected. *)
Theorem guests_change_nothing (now : Clock.t) (rq : Request.t)
    (req : CheckoutRequest) (id : nat) (st : Store.t) (s : Session.t) :
  Session.user s = None →
  let code := if Auth.is_api rq then 401%nat else 302%nat in
  let s' :=
    if Auth.is_api rq then s
    else Session.mk None (Session.cart s) (Some (Request.originalUrl rq))
           (Some "Please login to continue") in
  (checkout now rq req st s).1 = (st, s')
  ∧ Reply.status (checkout now rq req st s).2 = code
  ∧ Reply.success (checkout now rq req st s).2 = false
  ∧ (cancel now rq id st s).1 = (st, s')
  ∧ Reply.status (cancel now rq id st s).2 = code
  ∧ Reply.success (cancel now rq id st s).2 = false
  ∧ (∃ reply, get_order rq id st s = (s', inl reply)
              ∧ Reply.status reply = code
              ∧ Reply.success reply = false)
  ∧ Auth.is_api (orders_route "/") = false.
Proof.
  intros Hu. unfold checkout, cancel, get_order, Auth.isAuthenticated.
  rewrite Hu. destruct s as [u c rt er]. simpl in Hu. subst u.
  destruct (Auth.is_api rq); simpl; split_and!; eauto.
Qed.

Lemma guests_change_nothing_witness :
  let db : ProductDB :=
    <[Sample.runner := Product.mk "Runner" 40 None [SizeStock.mk 9 5] 5 0]> ∅ in
  let s1 := (add db (mkAdd Sample.runner 9 (Some "red") (JS.whole 3 eq_refl)) Session.fresh).1 in
  let out := checkout (Clock.mk 2024 4) (orders_route "/")
               (mkCheckout None None) (Store.mk db []) s1 in
  length (cart_items s1) = 1%nat
  ∧ out.1 = (Store.mk db [],
             Session.mk None (Session.cart s1) (Some "/api/orders/")
               (Some "Please login to continue"))
  ∧ Reply.status out.2 = 302%nat.
Proof.
  intros db s1 out. split; [reflexivity|].
  destruct (guests_change_nothing (Clock.mk 2024 4) (orders_route "/")
              (mkCheckout None None) 0 (Store.mk db []) s1 eq_refl)
    as (H1 & H2 & _).
  split; [exact H1|exact H2].
Defined.

(** X18: The admin routes do nothing for a session that is not an admin's:
    the inventory update, the status update and the product deletion leave
    the stores as they are and report no success. *)
Theorem admin_routes_need_admin (now : Clock.t) (rq : Request.t)
    (product : string) (id : nat) (sizes : list SizeStock.t)
    (req : StatusRequest) (st : Store.t) (s : Session.t) :
  (∀ user, Session.user s = Some user → User.role user ≠ "admin") →
  (inventory_update rq product sizes (Store.products st) s).1.1
  = Store.products st
  ∧ Reply.success (inventory_update rq product sizes (Store.products st) s).2
    = false
  ∧ (order_status_update now rq id req st s).1.1 = st
  ∧ succeeded (order_status_update now rq id req st s).2 = false
  ∧ (product_delete rq product (Store.products st) s).1.1 = Store.products st
  ∧ succeeded (product_delete rq product (Store.products st) s).2 = false.
Proof.
  intros Hrole.
  assert (∃ (s' : Session.t) (reply : ∀ A, Reply.t A),
            (∀ A, Auth.isAdmin rq s = (s', inl (reply A)))
            ∧ ∀ A, Reply.success (reply A) = false)
    as (s' & reply & Hdenied & Hr).
  { unfold Auth.isAdmin. destruct (Session.user s) as [user|] eqn:Hu.
    - specialize (Hrole user eq_refl). apply String.eqb_neq in Hrole.
      rewrite Hrole. simpl.
      destruct (Auth.is_api rq); eexists _, (λ A, _); split; done.
    - destruct (Auth.is_api rq); eexists _, (λ A, _); split; done. }
  unfold inventory_update, order_status_update, product_delete.
  rewrite !Hdenied. simpl. by split_and!.
Qed.

Lemma admin_routes_need_admin_witness :
  let db : ProductDB :=
    <[Sample.runner := Product.mk "Runner" 40 None [SizeStock.mk 9 5] 5 0]> ∅ in
  let s0 := Session.mk (Some (User.mk Sample.buyer "customer")) None None None in
  (product_delete (admin_route "/products/p1") Sample.runner db s0).1.1 = db.
Proof.
  intros db s0.
  refine (proj1 (proj2 (proj2 (proj2 (proj2
            (admin_routes_need_admin (Clock.mk 2024 4) (admin_route "/products/p1") Sample.runner 0
               [] (mkStatus "shipped" None None) (Store.mk db []) s0 _)))))).
  intros user [= <-]. simpl. discriminate.
Defined.

(** The checkout loop never adds or drops a product. *)
Lemma checkout_loop_keys (items : list CartItem.t) (db : ProductDB)
    (acc : list OrderItem.t) (k : string) :
  (checkout_loop db items acc).1 !! k = None ↔ db !! k = None.
Proof.
  apply (checkout_loop_inv (λ db', db' !! k = None ↔ db !! k = None));
    [|done].
  intros db' item product j bucket Hinv Hp _ _ _. unfold product_save.
  destruct (decide (k = CartItem.productId item)) as [->|Hne].
  - rewrite lookup_insert_eq. rewrite <- Hinv, Hp. done.
  - by rewrite lookup_insert_ne.
Qed.

(** A line whose product is gone stops the loop, at that line or
    before it. *)
Lemma checkout_loop_missing (items : list CartItem.t) :
  ∀ (db : ProductDB) (acc : list OrderItem.t) (item : CartItem.t),
    item ∈ items →
    db !! CartItem.productId item = None →
    ∃ reply, (checkout_loop db items acc).2 = inl reply.
Proof.
  induction items as [|i rest IH]; intros db acc item Hin Hnone.
  { by apply not_elem_of_nil in Hin. }
  apply elem_of_cons in Hin as [->|Hin].
  { simpl. rewrite Hnone. by eexists. }
  simpl. destruct (db !! CartItem.productId i) as [product|] eqn:Hp;
    [|by eexists].
  destruct (JS.findIndex _ _) as [j|]; [|by eexists].
  destruct (Product.sizes product !! j) as [bucket|]; [|by eexists].
  destruct (SizeStock.stock bucket <? CartItem.quantity i); [by eexists|].
  apply (IH _ _ item Hin). unfold product_save.
  rewrite lookup_insert_ne; [done|]. intros Heq. congruence.
Qed.

(** X19: Once an admin has deleted a product, a cart that still holds a line
    of it cannot be checked out: the request fails, no order is created and
    the cart stays; when the line is the first of the cart, the reply names
    it as no longer existing. *)
Theorem checkout_after_product_deleted (now : Clock.t) (rq rq' : Request.t)
    (req : CheckoutRequest) (st : Store.t) (s admin : Session.t)
    (user boss : User.t) (cart : Cart.t) (item : CartItem.t) :
  Session.user s = Some user →
  Session.cart s = Some cart →
  item ∈ Cart.items cart →
  Session.user admin = Some boss →
  User.role boss = "admin" →
  let db := (product_delete rq' (CartItem.productId item)
               (Store.products st) admin).1.1 in
  let out := checkout now rq req (Store.mk db (Store.orders st)) s in
  Reply.success out.2 = false
  ∧ Store.orders out.1.1 = Store.orders st
  ∧ out.1.2 = s
  ∧ (Cart.items cart !! 0%nat = Some item →
     out = (Store.mk db (Store.orders st), s,
            Reply.fail 400 (NoLongerExists (CartItem.name item)))).
Proof.
  intros Hu Hc Hin Ha Hrole db out.
  assert (db !! CartItem.productId item = None) as Hgone.
  { subst db. unfold product_delete, Auth.isAdmin. rewrite Ha, Hrole. simpl.
    destruct (Store.products st !! CartItem.productId item) eqn:Hp.
    - apply lookup_delete_eq.
    - by destruct (JS.isObjectId _). }
  subst out. unfold checkout, Auth.isAuthenticated. rewrite Hu, Hc.
  destruct (Cart.items cart) as [|i rest] eqn:Hitems.
  { by apply not_elem_of_nil in Hin. }
  cbn [Store.products Store.orders].
  destruct (checkout_loop_missing (i :: rest) db [] item Hin Hgone)
    as [reply Hloop].
  destruct (checkout_loop db (i :: rest) []) as [db' res] eqn:Hrun.
  simpl in Hloop. subst res.
  destruct (checkout_loop_reply _ _ _ _ _ Hrun) as [Hfail _].
  split_and!; try done.
  intros [= ->]. simpl in Hrun. rewrite Hgone in Hrun. by injection Hrun as <- <-.
Qed.

Lemma checkout_after_product_deleted_witness :
  let db : ProductDB :=
    <[Sample.runner := Product.mk "Runner" 40 None [SizeStock.mk 9 5] 5 0]> ∅ in
  let s0 := Session.mk (Some (User.mk Sample.buyer "customer")) None None None in
  let s1 := (add db (mkAdd Sample.runner 9 (Some "red") (JS.whole 3 eq_refl)) s0).1 in
  let admin := Session.mk (Some (User.mk Sample.manager "admin")) None None None in
  let db' := (product_delete (admin_route "/products/p1") Sample.runner db admin).1.1 in
  (checkout (Clock.mk 2024 4) (orders_route "/") (mkCheckout None None) (Store.mk db' []) s1).2
  = Reply.fail 400 (NoLongerExists "Runner").
Proof.
  intros db s0 s1 admin db'.
  pose proof (checkout_after_product_deleted (Clock.mk 2024 4) (orders_route "/")
                (admin_route "/products/p1") (mkCheckout None None) (Store.mk db []) s1 admin
                (User.mk Sample.buyer "customer") (User.mk Sample.manager "admin")
                (Cart.mk (cart_items s1) 120 0 (120 * 0.08)
                   (120 + 0 + 120 * 0.08))
                (CartItem.mk Sample.runner "Runner" 40 9 "red" 3 5)
                eq_refl eq_refl (list_elem_of_here _ _) eq_refl eq_refl) as H.
  destruct H as (_ & _ & _ & H). specialize (H eq_refl).
  change (Store.products (Store.mk db [])) with db in H.
  change (CartItem.productId (CartItem.mk Sample.runner "Runner" 40 9 "red" 3 5))
    with Sample.runner in H.
  fold admin in H. fold db' in H. simpl Store.orders in H.
  rewrite H. reflexivity.
Defined.

Lemma restored_twice (k : string) (lines : list OrderItem.t) (p : Product.t) :
  Product.sizes (restored k lines (restored k lines p))
  = (λ b, SizeStock.add_stock (2 * returned k b lines) b) <$> Product.sizes p
  ∧ Product.soldCount (restored k lines (restored k lines p))
    = Product.soldCount p - 2 * unsold k lines
  ∧ Product.totalStock (restored k lines (restored k lines p))
    = Product.totalStock p.
Proof.
  unfold restored; simpl. split_and!; [|lia|done].
  rewrite <- list_fmap_compose. apply list_fmap_ext. intros i b _. simpl.
  rewrite (returned_size k (SizeStock.add_stock (returned k b lines) b) b)
    by done.
  unfold SizeStock.add_stock; simpl. f_equal. lia.
Qed.

(** X20: The admin status update checks no transition and moves no stock, so
    a cancelled order can be set back to confirmed; cancelling it again then
    gives the stock back a second time: every bucket receives twice what the
    order had taken, and the sold count loses it twice. *)
Theorem cancel_confirm_cancel (now1 now2 now3 : Clock.t)
    (rq1 rq2 rq3 : Request.t) (id : nat) (note tracking : option string)
    (st : Store.t) (s admin : Session.t) (user boss : User.t)
    (order : Order.t) :
  Session.user s = Some user →
  Store.orders st !! id = Some order →
  Order.user order = User.id user →
  cancellable (Order.status order) = true →
  Session.user admin = Some boss →
  User.role boss = "admin" →
  let st1 := (cancel now1 rq1 id st s).1.1 in
  let st2 := (order_status_update now2 rq2 id
                (mkStatus "confirmed" note tracking) st1 admin).1.1 in
  let out := cancel now3 rq3 id st2 s in
  Reply.success out.2 = true
  ∧ ∀ k p, Store.products st !! k = Some p →
      ∃ p', Store.products out.1.1 !! k = Some p'
        ∧ Product.sizes p'
          = (λ b, SizeStock.add_stock (2 * returned k b (Order.items order)) b)
              <$> Product.sizes p
        ∧ Product.soldCount p'
          = Product.soldCount p - 2 * unsold k (Order.items order).
Proof.
  intros Hu Ho Howner Hcan Ha Hrole st1 st2 out.
  assert (st1 = Store.mk (restore_loop (Store.products st) (Order.items order))
                  (order_save now1 id
                     (Order.push_history
                        (HistoryEntry.mk Cancelled "Cancelled by customer")
                        (Order.set_status Cancelled order))
                     (Store.orders st))) as Hst1.
  { subst st1. unfold cancel, Auth.isAuthenticated.
    by rewrite Hu, Ho, Howner, String.eqb_refl, Hcan. }
  destruct (order_save_lookup now1 id order Cancelled None
              (HistoryEntry.mk Cancelled "Cancelled by customer")
              (Store.orders st) Ho)
    as (o1 & Ho1 & Hu1 & Hi1 & _).
  cbn [attach_tracking] in Ho1.
  set (entry := HistoryEntry.mk Confirmed
                  (JS.or_default note ("Status updated to " +:+ "confirmed"))).
  assert (st2 = Store.mk (Store.products st1)
                  (order_save now2 id
                     (Order.push_history entry
                        (attach_tracking tracking
                           (Order.set_status Confirmed o1)))
                     (Store.orders st1))) as Hst2.
  { subst st2. unfold order_status_update, Auth.isAdmin.
    rewrite Ha, Hrole. simpl. rewrite Hst1. simpl. by rewrite Ho1. }
  assert (Store.orders st1 !! id = Some o1) as Ho1' by (by rewrite Hst1).
  destruct (order_save_lookup now2 id o1 Confirmed tracking entry
              (Store.orders st1) Ho1')
    as (o2 & Ho2 & Hu2 & Hi2 & Hs2 & _).
  assert (out = (Store.mk (restore_loop (Store.products st2) (Order.items o2))
                   (order_save now3 id
                      (Order.push_history
                         (HistoryEntry.mk Cancelled "Cancelled by customer")
                         (Order.set_status Cancelled o2))
                      (Store.orders st2)),
                 s, Reply.ok 200 OrderCancelled ())) as ->.
  { subst out. unfold cancel, Auth.isAuthenticated. rewrite Hu.
    rewrite Hst2 at 1. cbn [Store.orders]. rewrite Ho2.
    by rewrite Hu2, Hu1, Howner, String.eqb_refl, Hs2. }
  split; [done|]. intros k p Hp. simpl.
  rewrite restore_loop_lookup, Hst2. simpl. rewrite Hst1. simpl.
  rewrite restore_loop_lookup, Hp, Hi2, Hi1. simpl.
  eexists. split; [done|].
  destruct (restored_twice k (Order.items order) p) as (Hs & Hc & _). done.
Qed.

Lemma cancel_confirm_cancel_witness :
  let db : ProductDB :=
    <[Sample.runner := Product.mk "Runner" 40 None [SizeStock.mk 9 5] 5 0]> ∅ in
  let s0 := Session.mk (Some (User.mk Sample.buyer "customer")) None None None in
  let s1 := (add db (mkAdd Sample.runner 9 (Some "red") (JS.whole 3 eq_refl)) s0).1 in
  let admin := Session.mk (Some (User.mk Sample.manager "admin")) None None None in
  let now := Clock.mk 2024 4 in
  let st := (checkout now (orders_route "/") (mkCheckout None None) (Store.mk db []) s1).1.1 in
  let st1 := (cancel now (orders_route "/0/cancel") 0 st s0).1.1 in
  let st2 := (order_status_update now (admin_route "/orders/0/status") 0
                (mkStatus "confirmed" None None) st1 admin).1.1 in
  let out := cancel now (orders_route "/0/cancel") 0 st2 s0 in
  Store.products st !! Sample.runner
  = Some (Product.mk "Runner" 40 None [SizeStock.mk 9 2] 2 3)
  ∧ Store.products out.1.1 !! Sample.runner
    = Some (Product.mk "Runner" 40 None [SizeStock.mk 9 8] 2 (-3))
  ∧ Reply.success out.2 = true.
Proof.
  intros db s0 s1 admin now st st1 st2 out.
  split; [reflexivity|]. split; [reflexivity|].
  assert (is_Some (Store.orders st !! 0%nat)) as [o Ho] by (eexists; reflexivity).
  assert (Order.user o = Sample.buyer ∧ cancellable (Order.status o) = true) as [Hw Hc].
  { vm_compute in Ho. injection Ho as <-. split; reflexivity. }
  exact (proj1 (cancel_confirm_cancel now now now (orders_route "/0/cancel") (admin_route "/orders/0/status")
                  (orders_route "/0/cancel") 0 None None st s0 admin (User.mk Sample.buyer "customer")
                  (User.mk Sample.manager "admin") o eq_refl Ho Hw Hc eq_refl eq_refl)).
Defined.

(** X21: The id that a successful checkout returns opens the order for the
    buyer: the order view and the confirmation page both show the order just
    stored, which is the buyer's, confirmed, with one line for each line of
    the cart. *)
Theorem placed_order_is_shown (now : Clock.t) (rq rq' : Request.t)
    (req : CheckoutRequest) (st : Store.t) (s : Session.t) (placed : Placed) :
  Reply.data (checkout now rq req st s).2 = Some placed →
  let st1 := (checkout now rq req st s).1.1 in
  let s1 := (checkout now rq req st s).1.2 in
  ∃ order,
    get_order rq' (orderId placed) st1 s1 = (s1, inr order)
    ∧ order_confirmation (orderId placed) st1 s1
      = Render "pages/order-confirmation" order
    ∧ orderNumber placed = Order.orderNumber order
    ∧ Order.status order = Confirmed
    ∧ Order.items order = order_line (Store.products st) <$> cart_items s.
Proof.
  intros Hdata st1 s1.
  pose proof (checkout_data_success now rq req st s placed Hdata) as Hok.
  destruct (checkout_placed_stock now rq req st s Hok)
    as (user & order & Hu & Hd & Horders & Hu1 & Howner & Hst & Hitems & _).
  rewrite Hd in Hdata. injection Hdata as <-. simpl.
  exists order.
  assert (Store.orders st1 !! length (Store.orders st) = Some order) as Ho.
  { subst st1. rewrite Horders. apply list_lookup_middle. done. }
  unfold get_order, order_confirmation, Auth.isAuthenticated.
  subst s1. rewrite Hu1, Ho. simpl. rewrite Howner, String.eqb_refl. done.
Qed.

Lemma placed_order_is_shown_witness :
  let db : ProductDB :=
    <[Sample.runner := Product.mk "Runner" 40 None [SizeStock.mk 9 5] 5 0]> ∅ in
  let s0 := Session.mk (Some (User.mk Sample.buyer "customer")) None None None in
  let s1 := (add db (mkAdd Sample.runner 9 (Some "red") (JS.whole 3 eq_refl)) s0).1 in
  let out := checkout (Clock.mk 2024 4) (orders_route "/") (mkCheckout None None)
               (Store.mk db []) s1 in
  ∃ order,
    order_confirmation 0 out.1.1 out.1.2
    = Render "pages/order-confirmation" order
    ∧ Order.orderNumber order = Some "ORD202405000001".
Proof.
  intros db s0 s1 out.
  destruct (placed_order_is_shown (Clock.mk 2024 4) (orders_route "/") (orders_route "/0")
              (mkCheckout None None) (Store.mk db []) s1
              (mkPlaced 0 (Some "ORD202405000001")) eq_refl)
    as (order & _ & Hpage & Hn & _).
  exists order. split; [exact Hpage|]. by rewrite <- Hn.
Defined.

Lemma listing_restored (k : string) (lines : list OrderItem.t) (p : Product.t) :
  listing (restored k lines p) = listing p.
Proof.
  unfold listing, restored; simpl. do 1 f_equal.
  rewrite <- list_fmap_compose. by apply list_fmap_ext.
Qed.

(** X22: Neither a checkout, whatever its outcome, nor a cancellation adds
    or drops a product or changes a product's name, price, sale price or the
    sizes it is listed in: they write stock figures only. *)
Theorem orders_keep_listing (now : Clock.t) (rq : Request.t)
    (req : CheckoutRequest) (id : nat) (st : Store.t) (s : Session.t)
    (k : string) :
  listing <$> Store.products (checkout now rq req st s).1.1 !! k
  = listing <$> Store.products st !! k
  ∧ listing <$> Store.products (cancel now rq id st s).1.1 !! k
    = listing <$> Store.products st !! k.
Proof.
  split.
  - apply (checkout_products_inv
             (λ db, listing <$> db !! k = listing <$> Store.products st !! k));
      [done|].
    intros items acc.
    apply (checkout_loop_inv
             (λ db, listing <$> db !! k = listing <$> Store.products st !! k));
      [|done].
    intros db item product j bucket Hinv Hp _ _ _. unfold product_save.
    destruct (decide (k = CartItem.productId item)) as [->|Hne].
    + rewrite lookup_insert_eq, <- Hinv, Hp. simpl. f_equal.
      unfold listing; simpl. f_equal.
      apply list_eq. intros i. rewrite !list_lookup_fmap.
      destruct (decide (i = j)) as [->|Hij].
      * rewrite list_lookup_alter_eq. by destruct (Product.sizes product !! j).
      * by rewrite list_lookup_alter_ne.
    + by rewrite lookup_insert_ne.
  - destruct (cancel_cases now rq id st s)
      as [(s' & r & -> & _)|(user & order & _ & _ & _ & _ & ->)]; [done|].
    simpl. rewrite restore_loop_lookup.
    destruct (Store.products st !! k) as [p|]; [|done]. simpl.
    by rewrite listing_restored.
Qed.

(** X23: A checkout leaves every product's total equal to the sum of its
    buckets if it was so before, also when the checkout stops at a line
    after earlier lines have been taken from the stock. *)
Theorem checkout_keeps_totals (now : Clock.t) (rq : Request.t)
    (req : CheckoutRequest) (st : Store.t) (s : Session.t) :
  (∀ k p, Store.products st !! k = Some p → total_matches p) →
  ∀ k p, Store.products (checkout now rq req st s).1.1 !! k = Some p →
         total_matches p.
Proof.
  intros Hinv.
  apply (checkout_products_inv (λ db, ∀ k p, db !! k = Some p → total_matches p));
    [done|].
  intros items acc.
  apply (checkout_loop_inv (λ db, ∀ k p, db !! k = Some p → total_matches p));
    [|done].
  intros db item product j bucket Hdb _ _ _ _ k p Hk.
  destruct (decide (k = CartItem.productId item)) as [->|Hne].
  - destruct (product_save_total_matches (CartItem.productId item)
                (Product.set_soldCount
                   (Product.soldCount product + CartItem.quantity item)
                   (Product.set_sizes
                      (alter (SizeStock.add_stock (- CartItem.quantity item)) j
                             (Product.sizes product)) product)) db)
      as (p' & Hp' & _ & Htot).
    rewrite Hp' in Hk. by injection Hk as <-.
  - unfold product_save in Hk. rewrite lookup_insert_ne in Hk by done.
    by eapply Hdb.
Qed.

Lemma checkout_keeps_totals_witness :
  let db : ProductDB :=
    <[Sample.runner := Product.mk "Runner" 40 None [SizeStock.mk 9 5] 5 0]>
      (<[Sample.walker := Product.mk "Walker" 60 None [SizeStock.mk 8 3] 3 0]> ∅) in
  let s0 := Session.mk (Some (User.mk Sample.buyer "customer")) None None None in
  let s1 := (add db (mkAdd Sample.runner 9 (Some "red") (JS.whole 3 eq_refl)) s0).1 in
  let s2 := (add db (mkAdd Sample.walker 8 (Some "red") (JS.whole 2 eq_refl)) s1).1 in
  let db' := <[Sample.walker := Product.mk "Walker" 60 None [SizeStock.mk 8 1] 1 2]> db in
  let out := checkout (Clock.mk 2024 4) (orders_route "/") (mkCheckout None None)
               (Store.mk db' []) s2 in
  Reply.success out.2 = false
  ∧ Store.products out.1.1 !! Sample.runner
    = Some (Product.mk "Runner" 40 None [SizeStock.mk 9 2] 2 3)
  ∧ ∀ k p, Store.products out.1.1 !! k = Some p → total_matches p.
Proof.
  intros db s0 s1 s2 db' out. split; [reflexivity|]. split; [reflexivity|].
  apply (checkout_keeps_totals (Clock.mk 2024 4) (orders_route "/") (mkCheckout None None)
           (Store.mk db' []) s2).
  intros k p Hk. simpl in Hk. subst db' db.
  apply lookup_insert_Some in Hk as [[_ <-]|[_ Hk]]; [reflexivity|].
  apply lookup_insert_Some in Hk as [[_ <-]|[_ Hk]]; [reflexivity|].
  apply lookup_insert_Some in Hk as [[_ <-]|[_ Hk]]; [reflexivity|done].
Defined.

End order_flows.

(** ** Reviews and the product list *)

Section reviews_more.
Import ProductRoutes Spec Extra.

Lemma find_None_Forall {A} (p : A → bool) (l : list A) :
  JS.find p l = None ↔ Forall (λ x, p x = false) l.
Proof.
  induction l as [|x l IH]; simpl; [by split; [constructor|]|].
  destruct (p x) eqn:Hx.
  - split; [done|]. intros H. apply Forall_cons in H as [H _]. congruence.
  - rewrite IH. split; [by constructor|]. by intros [_ H]%Forall_cons.
Qed.

Lemma find_app_Some {A} (p : A → bool) (l : list A) (x : A) :
  p x = true → is_Some (JS.find p (l ++ [x])).
Proof.
  intros Hx. induction l as [|y l IH]; simpl.
  - rewrite Hx. by eexists.
  - destruct (p y); [by eexists|done].
Qed.

(** The ways the review route ends. *)
Lemma add_review_cases (id : string) (rating : Z) (comment : option string)
    (db : gmap string Listing.t) (s : Session.t) :
  (∃ out, add_review id rating comment db s = (db, out)
          ∧ succeeded out = false)
  ∨ ∃ user doc average,
      Session.user s = Some user
      ∧ db !! id = Some doc
      ∧ JS.find (λ r, String.eqb (Review.user r) (User.id user))
                (Listing.reviews doc) = None
      ∧ 1 ≤ rating ≤ 5
      ∧ add_review id rating comment db s
        = (<[id := Listing.mk (Product.pre_save (Listing.product doc))
                     (Listing.reviews doc
                        ++ [Review.mk (User.id user) rating comment])
                     average
                     (Z.of_nat
                        (length (Listing.reviews doc
                                   ++ [Review.mk (User.id user) rating comment])))]>
             db,
           Json 200 true "Review added successfully").
Proof.
  unfold add_review.
  destruct (Session.user s) as [user|]; [|left; by eexists].
  destruct (db !! id) as [doc|];
    [|left; destruct (JS.isObjectId id); by eexists].
  destruct (JS.find _ _) as [r|] eqn:Hfind; [left; by eexists|].
  destruct (review_valid _) eqn:Hvalid; [|left; by eexists].
  destruct (average_valid _) eqn:Haverage; [|left; by eexists].
  right. exists user, doc. eexists. split_and!; try done.
  - unfold review_valid in Hvalid. simpl in Hvalid. lia.
  - unfold review_valid in Hvalid. simpl in Hvalid. lia.
Qed.

(** X24: As long as reviews come in through the review route, the review
    data of every product stay consistent: the count is the number of
    reviews, every rating is from 1 to 5 and no user has two reviews of one
    product. *)
Theorem reviews_stay_consistent (id : string) (rating : Z)
    (comment : option string) (db : gmap string Listing.t) (s : Session.t) :
  (∀ k doc, db !! k = Some doc → reviews_consistent doc) →
  ∀ k doc, (add_review id rating comment db s).1 !! k = Some doc →
           reviews_consistent doc.
Proof.
  intros Hinv k doc'.
  destruct (add_review_cases id rating comment db s)
    as [(out & -> & _)|(user & doc & average & _ & Hdoc & Hfind & Hr & ->)];
    [by apply Hinv|].
  simpl. destruct (decide (k = id)) as [->|Hne];
    [|rewrite lookup_insert_ne by done; by apply Hinv].
  rewrite lookup_insert_eq. intros [= <-].
  destruct (Hinv id doc Hdoc) as (_ & Hratings & Hnodup).
  split; [done|]. split; simpl.
  - apply Forall_app. split; [done|]. by constructor.
  - rewrite fmap_app. apply NoDup_app. split; [done|]. split;
      [|apply NoDup_singleton].
    intros u (r & -> & Hin)%list_elem_of_fmap [= Hu]%list_elem_of_singleton.
    apply find_None_Forall in Hfind. rewrite Forall_forall in Hfind.
    specialize (Hfind r Hin). simpl in Hfind.
    rewrite Hu, String.eqb_refl in Hfind. done.
Qed.

Lemma reviews_stay_consistent_witness :
  let db : gmap string Listing.t :=
    <[Sample.runner := Listing.mk
                (Product.mk "Runner" 40 None [SizeStock.mk 9 5] 5 0) [] 0 0]> ∅ in
  let s := Session.mk (Some (User.mk Sample.buyer "customer")) None None None in
  let db1 := (add_review Sample.runner 4 None db s).1 in
  (Listing.rating_count <$> db1 !! Sample.runner) = Some 1
  ∧ ∀ k doc, db1 !! k = Some doc → reviews_consistent doc.
Proof.
  intros db s db1. split; [reflexivity|].
  apply (reviews_stay_consistent Sample.runner 4 None db s).
  intros k doc Hk. subst db.
  apply lookup_insert_Some in Hk as [[_ <-]|[_ Hk]]; [|done].
  split; [reflexivity|]. split; [constructor|apply NoDup_nil_2].
Defined.

(** X25: A user who has reviewed a product cannot review it again: the
    second request, whatever its rating, is refused with 400 and the product
    data stay as they are. *)
Theorem second_review_refused (id : string) (rating rating' : Z)
    (comment comment' : option string) (db : gmap string Listing.t)
    (s : Session.t) :
  succeeded (add_review id rating comment db s).2 = true →
  let db1 := (add_review id rating comment db s).1 in
  add_review id rating' comment' db1 s
  = (db1, Json 400 false "You have already reviewed this product").
Proof.
  intros Hok.
  destruct (add_review_cases id rating comment db s)
    as [(out & Heq & Hout)|(user & doc & average & Hu & Hdoc & _ & _ & Heq)].
  { rewrite Heq in Hok. simpl in Hok. congruence. }
  rewrite Heq. simpl. unfold add_review at 1. rewrite Hu, lookup_insert_eq.
  cbn [Listing.reviews].
  destruct (find_app_Some (λ r, String.eqb (Review.user r) (User.id user))
              (Listing.reviews doc) (Review.mk (User.id user) rating comment))
    as [r ->]; [|done].
  simpl. apply String.eqb_refl.
Qed.

Lemma second_review_refused_witness :
  let db : gmap string Listing.t :=
    <[Sample.runner := Listing.mk
                (Product.mk "Runner" 40 None [SizeStock.mk 9 5] 5 0) [] 0 0]> ∅ in
  let s := Session.mk (Some (User.mk Sample.buyer "customer")) None None None in
  let db1 := (add_review Sample.runner 4 None db s).1 in
  add_review Sample.runner 5 (Some "again") db1 s
  = (db1, Json 400 false "You have already reviewed this product").
Proof.
  intros db s db1.
  apply (second_review_refused Sample.runner 4 5 None (Some "again") db s).
  reflexivity.
Defined.

(** X26: The page data of the product list, for a page and a page size of at
    least one: there is a next page exactly when products remain beyond this
    page, a previous page exactly when products were skipped, the page holds
    a product exactly when its number is at most the number of pages, and
    the number of pages is the least that holds all products. *)
Theorem pagination_pages (page limit total : Z) :
  1 ≤ page → 1 ≤ limit → 0 ≤ total →
  ∃ pg,
    pagination page limit total = Some pg
    ∧ (pg_hasNext pg = true ↔ skip page limit + limit < total)
    ∧ (pg_hasPrev pg = true ↔ 0 < skip page limit)
    ∧ (skip page limit < total ↔ page ≤ pg_totalPages pg)
    ∧ total ≤ pg_totalPages pg * limit
    ∧ (∀ n, total ≤ n * limit → pg_totalPages pg ≤ n).
Proof.
  intros Hpage Hlimit Htotal. unfold pagination, skip.
  destruct (limit =? 0) eqn:H0; [apply Z.eqb_eq in H0; lia|].
  eexists. split; [done|]. simpl.
  set (q := (- total) / limit).
  assert (limit * q ≤ - total < limit * (q + 1)) as [Hlo Hhi].
  { split.
    - apply Z.mul_div_le. lia.
    - rewrite Z.mul_add_distr_l, Z.mul_1_r.
      pose proof (Z.mod_pos_bound (- total) limit ltac:(lia)) as Hmod.
      pose proof (Z.div_mod (- total) limit ltac:(lia)) as Hdm.
      fold q in Hdm. lia. }
  rewrite Z.ltb_lt, Z.ltb_lt.
  split_and!; [split; nia|split; nia|split; nia|nia|intros n Hn; nia].
Qed.

Lemma pagination_pages_witness :
  ∃ pg,
    pagination 3 12 25 = Some pg
    ∧ pg_totalPages pg = 3
    ∧ (pg_hasNext pg = true ↔ skip 3 12 + 12 < 25).
Proof.
  destruct (pagination_pages 3 12 25) as (pg & Hpg & Hnext & _); [lia..|].
  exists pg. split; [exact Hpg|]. split; [|exact Hnext].
  vm_compute in Hpg. injection Hpg as <-. reflexivity.
Defined.

End reviews_more.

(** ** Prices and inventory *)

Section catalogue_more.
Import CartRoutes OrderRoutes AdminRoutes ProductVirtuals Spec Extra.

Lemma float_lt_le (x y : float) :
  PrimFloat.ltb x y = true → PrimFloat.leb x y = true.
Proof.
  rewrite FloatAxioms.ltb_spec, FloatAxioms.leb_spec.
  unfold SpecFloat.SFltb, SpecFloat.SFleb.
  by destruct (SpecFloat.SFcompare _ _) as [[]|].
Qed.

Lemma float_eq_le (x y : float) :
  PrimFloat.eqb x y = true → PrimFloat.leb x y = true.
Proof.
  rewrite FloatAxioms.eqb_spec, FloatAxioms.leb_spec.
  unfold SpecFloat.SFeqb, SpecFloat.SFleb.
  by destruct (SpecFloat.SFcompare _ _) as [[]|].
Qed.

Lemma float_lt_irrefl (x : float) : PrimFloat.ltb x x = false.
Proof.
  rewrite FloatAxioms.ltb_spec. unfold SpecFloat.SFltb.
  destruct (FloatOps.Prim2SF x) as [s|s| |s m e]; simpl; try done.
  - by destruct s.
  - destruct s; rewrite Z.compare_refl;
      change (PosDef.Pos.compare_cont Eq m m) with (Pos.compare m m);
      by rewrite Pos.compare_refl.
Qed.

(** X27: The price a product is sold at is never above its list price: it is
    the sale price when one is set that is not zero and lies below the list
    price, and the list price otherwise; it is below the list price exactly
    when the product is on sale. A line added to the cart carries that
    price. *)
Theorem effective_price_at_most_price (db : ProductDB) (req : AddRequest)
    (s : Session.t) (p : Product.t) (b : SizeStock.t) :
  PrimFloat.eqb (Product.price p) (Product.price p) = true →
  db !! add_productId req = Some p →
  bucket_of (add_size req) p = Some b →
  ¬ below (SizeStock.stock b) (add_quantity req) →
  existing_line req s = None →
  PrimFloat.leb (Product.effectivePrice p) (Product.price p) = true
  ∧ (Product.effectivePrice p = Product.price p
     ∨ Product.salePrice p = Some (Product.effectivePrice p))
  ∧ PrimFloat.ltb (Product.effectivePrice p) (Product.price p) = isOnSale p
  ∧ CartItem.price <$> last (cart_items (add db req s).1)
    = Some (Product.effectivePrice p).
Proof.
  intros Hnum Hdb Hb Hq Hex. split_and!; cycle 2.
  - unfold Product.effectivePrice, isOnSale.
    destruct (Product.salePrice p) as [sale|]; [|apply float_lt_irrefl].
    destruct (negb _); simpl; [|apply float_lt_irrefl].
    destruct (PrimFloat.ltb sale (Product.price p)) eqn:Hlt;
      [done|apply float_lt_irrefl].
  - destruct (add_new_line db req s p b) as (-> & _); [done..|].
    by rewrite last_snoc.
  - unfold Product.effectivePrice.
    destruct (Product.salePrice p) as [sale|]; [|by apply float_eq_le].
    destruct (negb _); simpl; [|by apply float_eq_le].
    destruct (PrimFloat.ltb sale (Product.price p)) eqn:Hlt;
      [by apply float_lt_le|by apply float_eq_le].
  - unfold Product.effectivePrice.
    destruct (Product.salePrice p) as [sale|]; [|by left].
    destruct (negb _ && _); [by right|by left].
Qed.

Lemma effective_price_at_most_price_witness :
  let p := Product.mk "Runner" 40 (Some 30%float) [SizeStock.mk 9 5] 5 0 in
  let db : ProductDB := <[Sample.runner := p]> ∅ in
  let req := mkAdd Sample.runner 9 (Some "red") (JS.whole 2 eq_refl) in
  PrimFloat.leb (Product.effectivePrice p) 40 = true
  ∧ CartItem.price <$> last (cart_items (add db req Session.fresh).1)
    = Some 30%float.
Proof.
  intros p db req.
  destruct (effective_price_at_most_price db req Session.fresh p
              (SizeStock.mk 9 5)) as (Hle & _ & _ & Hline);
    [reflexivity|reflexivity|reflexivity|
     intros H; vm_compute in H; discriminate|reflexivity|].
  split; [exact Hle|]. rewrite Hline. reflexivity.
Defined.

(** X28: An inventory update that is accepted stores exactly the buckets
    sent, none below zero, and leaves the product's total stock equal to
    their sum, which is the total the reply reports; this holds also when
    the stored total was stale. Every other product and the other data of
    the product stay as they are. *)
Theorem inventory_update_sets_total (rq : Request.t) (id : string)
    (sizes : list SizeStock.t) (db : ProductDB) (s : Session.t) :
  Reply.success (inventory_update rq id sizes db s).2 = true →
  ∃ p p',
    db !! id = Some p
    ∧ (inventory_update rq id sizes db s).1.1 !! id = Some p'
    ∧ Product.sizes p' = sizes
    ∧ Forall (λ b, 0 ≤ SizeStock.stock b) sizes
    ∧ total_matches p'
    ∧ Reply.data (inventory_update rq id sizes db s).2
      = Some (Product.totalStock p')
    ∧ (Product.name p', Product.price p', Product.salePrice p',
       Product.soldCount p')
      = (Product.name p, Product.price p, Product.salePrice p,
         Product.soldCount p)
    ∧ ∀ k, k ≠ id → (inventory_update rq id sizes db s).1.1 !! k = db !! k.
Proof.
  unfold inventory_update, Auth.isAdmin.
  destruct (Session.user s) as [u|]; [|by destruct (Auth.is_api rq)].
  destruct (negb _); [by destruct (Auth.is_api rq)|].
  destruct (db !! id) as [p|] eqn:Hp; [|by destruct (JS.isObjectId id)].
  destruct (forallb _ _) eqn:Hall; [|done]. intros _. simpl.
  exists p. eexists. unfold product_save.
  split; [done|]. split; [apply lookup_insert_eq|].
  split_and!; try done.
  - apply Forall_forall. intros b Hb. rewrite forallb_forall in Hall.
    apply Z.leb_le, Hall. by apply list_elem_of_In.
  - unfold total_matches; simpl. apply sum_stock_foldr.
  - intros k Hk. by rewrite lookup_insert_ne.
Qed.

Lemma inventory_update_sets_total_witness :
  let stale := Product.mk "Runner" 40 None [SizeStock.mk 9 5] 2 0 in
  let db : ProductDB := <[Sample.runner := stale]> ∅ in
  let admin := Session.mk (Some (User.mk Sample.manager "admin")) None None None in
  let out := inventory_update (admin_route "/inventory/p1") Sample.runner [SizeStock.mk 9 5] db admin in
  out.1.1 !! Sample.runner = Some (Product.mk "Runner" 40 None [SizeStock.mk 9 5] 5 0)
  ∧ ∃ p', out.1.1 !! Sample.runner = Some p' ∧ total_matches p'.
Proof.
  intros stale db admin out. split; [reflexivity|].
  destruct (inventory_update_sets_total (admin_route "/inventory/p1") Sample.runner [SizeStock.mk 9 5]
              db admin eq_refl)
    as (p & p' & _ & Hp' & _ & _ & Htot & _).
  exists p'. split; [exact Hp'|exact Htot].
Defined.

Lemma add_without_colour_appends_witness :
  let db : ProductDB :=
    <[Sample.runner := Product.mk "Runner" 40 None [SizeStock.mk 9 5] 5 0]> ∅ in
  let s1 := (add db (mkAdd Sample.runner 9 None (JS.whole 1 eq_refl)) Session.fresh).1 in
  CartItem.color <$> cart_items (add db (mkAdd Sample.runner 9 None (JS.whole 1 eq_refl)) s1).1
  = ["Default"; "Default"].
Proof.
  intros db s1.
  rewrite (add_without_colour_appends db Sample.runner 9 (JS.whole 1 eq_refl) s1
             (Product.mk "Runner" 40 None [SizeStock.mk 9 5] 5 0)
             (SizeStock.mk 9 5)); [reflexivity|reflexivity|reflexivity|].
  intros H. vm_compute in H. discriminate.
Defined.

End catalogue_more.
